(** * Orders page: order totals, hold/unhold, balances and finalization

    A shallow embedding of the domain logic of
    [components/pages/Orders.tsx] and the properties checked against it.

    Conventions of the embedding.
    - A JavaScript [number] is an exact rational ([Q]); results are compared
      with [==].  Rounding of IEEE doubles, [NaN] and [-0] are outside the
      model.  [Infinity] occurs in the source only as the upper clamp bound
      of [handleQuantityChange] and is an [option] there.
    - A value that may be [undefined] (or [''] for the editable balance
      fields) is an [option].
    - A plain object used as a map ([Record<string, number>]) is an
      association list in insertion order with distinct keys.
      [Object.entries] enumerates the keys that are array indices (the
      decimal numerals of 0 to 2^32 - 2) first, in ascending order, and the
      other keys in insertion order: the list is the enumeration of an object
      none of whose keys is an array index.  A statement that depends on the
      order of the entries assumes this of the keys ([isArrayIndex]); sums
      over the entries and membership do not depend on it.
    - A string is the sequence of its code units, each below 256.
    - The number read from an order id and its successor are integers
      ([Z]); the source computes them in doubles, which are exact up to
      2^53.  A statement about generated ids assumes the numbers read are
      below 2^53 ([safeIds]).
    - A React event handler is a function of the state its closure captured;
      it returns the values it hands to the state setters together with the
      log of the backend calls and alerts it issued, in program order.  What
      the backend answers is an argument of the handler.  Output to the
      console is left out. *)

From Stdlib Require Import QArith Qminmax Lqa Lia List String Bool NArith.
From Stdlib Require Import DecimalString Ascii.
From Stdlib Require Import DecimalPos PeanoNat Permutation.
Import ListNotations.
Open Scope string_scope.
Open Scope Q_scope.

(** ** JavaScript numbers *)

(** [x > y], [x < y], [x >= y] and [x === y] on numbers. *)
Definition gtb (x y : Q) : bool := negb (Qle_bool x y).
Definition ltb (x y : Q) : bool := gtb y x.
Definition geb (x y : Q) : bool := Qle_bool y x.
Definition eqb_num (x y : Q) : bool := Qeq_bool x y.

(** [v || 0] for a possibly undefined number. *)
Definition or0 (v : option Q) : Q :=
  match v with
  | Some x => x
  | None => 0
  end.

(** [v ?? d]. *)
Definition nullish {A : Type} (v : option A) (d : A) : A :=
  match v with
  | Some x => x
  | None => d
  end.

(** [x > 0 ? x : 0]. *)
Definition pos_or_zero (x : Q) : Q := if gtb x 0 then x else 0.

(** [Math.max(0, x)]. *)
Definition max0 (x : Q) : Q := if Qle_bool 0 x then x else 0.

(** [Math.min(x, bound)] where [None] is [Infinity]. *)
Definition min_bound (x : Q) (bound : option Q) : Q :=
  match bound with
  | Some b => if Qle_bool x b then x else b
  | None => x
  end.

Definition sumQ (l : list Q) : Q := fold_right Qplus 0 l.

(** ** Plain objects and sets keyed by strings *)

Module Obj.
Definition t (A : Type) := list (string * A).

Definition empty {A : Type} : t A := [].

(** [o[k]] *)
Fixpoint get {A : Type} (o : t A) (k : string) : option A :=
  match o with
  | [] => None
  | (k', v) :: rest => if String.eqb k' k then Some v else get rest k
  end.

(** [{ ...o, [k]: v }]: an existing key keeps its place. *)
Fixpoint set {A : Type} (o : t A) (k : string) (v : A) : t A :=
  match o with
  | [] => [(k, v)]
  | (k', v') :: rest =>
      if String.eqb k' k then (k', v) :: rest else (k', v') :: set rest k v
  end.

(** [Object.entries(o)] of an object none of whose keys is an array index:
    the entries in insertion order. *)
Definition entries {A : Type} (o : t A) : list (string * A) := o.
End Obj.

Module StrSet.
Definition t := list string.

Definition has (s : t) (k : string) : bool := existsb (String.eqb k) s.

Definition delete (s : t) (k : string) : t :=
  filter (fun k' => negb (String.eqb k k')) s.

Definition add (s : t) (k : string) : t :=
  if has s k then s else (s ++ [k])%list.
End StrSet.

(** ** Data model

    [types.ts] is not among the sources: each type below has the fields of
    its entity in section 3 of the specification that this page reads, under
    the names the page reads them by. *)

(** Modelled from the spec: [OrderStatus] of [types.ts], the four statuses
    of an order. *)
Inductive OrderStatus := Pending | Shipped | Delivered | Cancelled.

Definition OrderStatus_eqb (a b : OrderStatus) : bool :=
  match a, b with
  | Pending, Pending | Shipped, Shipped
  | Delivered, Delivered | Cancelled, Cancelled => true
  | _, _ => false
  end.

(** Modelled from the spec: [UserRole] of [types.ts], the four roles. *)
Inductive UserRole := Admin | Manager | Sales | Driver.

Definition UserRole_eqb (a b : UserRole) : bool :=
  match a, b with
  | Admin, Admin | Manager, Manager | Sales, Sales | Driver, Driver => true
  | _, _ => false
  end.

Module User.
(** Modelled from the spec: [User] of [types.ts]. *)
Record t := mk { id : string; name : string; role : UserRole }.
End User.

Module Product.
(** Modelled from the spec: [Product] of [types.ts]; [stock] is the
    warehouse stock. *)
Record t := mk { id : string; name : string; price : Q; stock : Q }.
End Product.

Module OrderItem.
(** Modelled from the spec: [OrderItem] of [types.ts].  [discount] is
    optional: [handleSaveOrder] writes the backordered lines without it. *)
Record t := mk {
  productId : string;
  quantity : Q;
  price : Q;
  discount : option Q
}.
End OrderItem.

Module Customer.
(** Modelled from the spec: [Customer] of [types.ts]. *)
Record t := mk { id : string; name : string }.
End Customer.

Module Order.
(** Modelled from the spec: [Order] of [types.ts].  [orderItems] is an
    array; [backorderedItems] and the two balances may be absent, as the
    page's own [?? []] and [|| 0] on them allow. *)
Record t := mk {
  id : string;
  customerId : string;
  assigneduserid : option string;
  orderdate : option string;
  status : OrderStatus;
  total : Q;
  orderItems : list OrderItem.t;
  backorderedItems : option (list OrderItem.t);
  chequeBalance : option Q;
  creditBalance : option Q
}.

(** [{ ...o, status: s }] *)
Definition with_status (o : t) (s : OrderStatus) : t :=
  mk (id o) (customerId o) (assigneduserid o) (orderdate o) s (total o)
     (orderItems o) (backorderedItems o) (chequeBalance o) (creditBalance o).

(** [o] with its two item lists and its total replaced. *)
Definition with_lines (o : t) (items : list OrderItem.t)
    (held : option (list OrderItem.t)) (tot : Q) : t :=
  mk (id o) (customerId o) (assigneduserid o) (orderdate o) (status o) tot
     items held (chequeBalance o) (creditBalance o).
End Order.

Module AllocatedItem.
(** Modelled from the spec: an entry of a driver allocation's
    [allocatedItems]. *)
Record t := mk { productId : string; quantity : Q }.
End AllocatedItem.

Module DriverAllocation.
(** Modelled from the spec: [DriverAllocation], one per driver and day. *)
Record t := mk {
  id : string;
  driverId : string;
  date : string;
  salesTotal : option Q;
  allocatedItems : list AllocatedItem.t
}.
End DriverAllocation.

(** What [useData()] and [useAuth()] give the component, with the calendar
    day that [new Date().toISOString()] yields. *)
Record Context := mkContext {
  currentUser : option User.t;
  today : string;
  products : list Product.t;
  customers : list Customer.t;
  orders : list Order.t;
  driverAllocations : list DriverAllocation.t
}.

Definition findProduct (ps : list Product.t) (id : string) : option Product.t :=
  find (fun p => String.eqb (Product.id p) id) ps.

Definition isDriver (c : Context) : bool :=
  match currentUser c with
  | Some u => UserRole_eqb (User.role u) Driver
  | None => false
  end.

(** ** Stock resolver *)

Definition todaysAllocation (c : Context) (u : User.t)
  : option DriverAllocation.t :=
  find (fun a => String.eqb (DriverAllocation.driverId a) (User.id u)
                 && String.eqb (DriverAllocation.date a) (today c))
       (driverAllocations c).

Definition getDriverAllocatedStock (c : Context) (productId : string) : Q :=
  match currentUser c with
  | Some u =>
      if negb (UserRole_eqb (User.role u) Driver) then 0
      else
        match todaysAllocation c u with
        | None => 0
        | Some driverAllocation =>
            match find (fun item =>
                          String.eqb (AllocatedItem.productId item) productId)
                       (DriverAllocation.allocatedItems driverAllocation) with
            | Some allocatedItem => AllocatedItem.quantity allocatedItem
            | None => 0
            end
        end
  | None => 0
  end.

Definition getEffectiveStock (c : Context) (product : Product.t) : Q :=
  if isDriver c then getDriverAllocatedStock c (Product.id product)
  else Product.stock product.

(** ** The order form: quantities, prices, discounts and the held set *)

Inductive ModalState := closed | create | edit.

Record Form := mkForm {
  modalState : ModalState;
  currentOrder : option Order.t;
  selectedCustomer : string;
  orderItems : Obj.t Q;
  orderDiscounts : Obj.t Q;
  orderItemPrices : Obj.t Q;
  heldItems : StrSet.t;
  expectedDeliveryDate : string;
  orderMethod : string;
  orderNotes : string
}.

Definition handleQuantityChange (c : Context) (f : Form)
    (productId : string) (quantity : Q) : Obj.t Q :=
  match findProduct (products c) productId with
  | None => orderItems f
  | Some product =>
      let isHeld := StrSet.has (heldItems f) productId in
      let maxQuantity :=
        if gtb (getEffectiveStock c product) 0 && negb isHeld
        then Some (getEffectiveStock c product) else None in
      let newQuantity := max0 (min_bound quantity maxQuantity) in
      Obj.set (orderItems f) productId newQuantity
  end.

Definition handleDiscountChange (f : Form) (productId : string)
    (discount : Q) : Obj.t Q :=
  let newDiscount := max0 (min_bound discount (Some 100)) in
  Obj.set (orderDiscounts f) productId newDiscount.

Definition handlePriceChange (f : Form) (productId : string)
    (price : Q) : Obj.t Q :=
  let newPrice := max0 price in
  Obj.set (orderItemPrices f) productId newPrice.

Definition toggleHoldItem (f : Form) (productId : string) : StrSet.t :=
  if StrSet.has (heldItems f) productId
  then StrSet.delete (heldItems f) productId
  else StrSet.add (heldItems f) productId.

(** ** Order line aggregator (the [useMemo] over [orderItems]) *)

Module Totals.
Record t := mk { total : Q; inStockItems : Q; heldItemsCount : Q }.
Definition zero : t := mk 0 0 0.
End Totals.

Definition aggregateStep (c : Context) (f : Form) (acc : Totals.t)
    (entry : string * Q) : Totals.t :=
  let '(productId, quantity) := entry in
  match findProduct (products c) productId with
  | Some product =>
      if gtb quantity 0 then
        let isHeld := StrSet.has (heldItems f) productId in
        let isOutOfStock := eqb_num (getEffectiveStock c product) 0 in
        if isHeld || isOutOfStock then
          Totals.mk (Totals.total acc) (Totals.inStockItems acc)
                    (Totals.heldItemsCount acc + quantity)
        else
          let price :=
            nullish (Obj.get (orderItemPrices f) productId)
                    (Product.price product) in
          let discount := or0 (Obj.get (orderDiscounts f) productId) in
          let discountedPrice := price * (1 - discount / 100) in
          Totals.mk (Totals.total acc + discountedPrice * quantity)
                    (Totals.inStockItems acc + quantity)
                    (Totals.heldItemsCount acc)
      else acc
  | None => acc
  end.

Definition aggregate (c : Context) (f : Form) : Totals.t :=
  fold_left (aggregateStep c f) (Obj.entries (orderItems f)) Totals.zero.

(** ** Backend calls and alerts *)

Module OrderRow.
(** A row of the [orders] table as this page writes it; [id] is absent
    from the payload of an update. *)
Record t := mk {
  id : option string;
  customerid : string;
  customername : string;
  assigneduserid : string;
  orderitems : list OrderItem.t;
  backordereditems : list OrderItem.t;
  method : string;
  expecteddeliverydate : option string;
  orderdate : string;
  totalamount : Q;
  status : OrderStatus;
  notes : string;
  chequebalance : Q;
  creditbalance : Q
}.
End OrderRow.

Inductive Effect :=
| Alert (message : string)
| OrdersInsert (row : OrderRow.t)
| OrdersUpdate (id : string) (row : OrderRow.t)
| OrdersSetDelivered (id : string) (sold : option Q)
| DriverAllocationsUpdate (id : string) (sales_total : Q)
    (allocated_items : list AllocatedItem.t)
| ProductsUpdateStock (id : string) (stock : Q)
| CustomersUpdate (id : string) (totalspent outstandingbalance : Q)
| FetchOrders
| SendNewOrderNotification (user : User.t) (order : Order.t)
    (customerName : string)
| RefreshData.

(** A backend write is any effect that changes a table. *)
Definition isWrite (e : Effect) : bool :=
  match e with
  | OrdersInsert _ | OrdersUpdate _ _ | OrdersSetDelivered _ _
  | DriverAllocationsUpdate _ _ _ | ProductsUpdateStock _ _
  | CustomersUpdate _ _ _ => true
  | Alert _ | FetchOrders | SendNewOrderNotification _ _ _ | RefreshData => false
  end.

Definition isStockWrite (e : Effect) : bool :=
  match e with
  | ProductsUpdateStock _ _ => true
  | _ => false
  end.

Definition isInsert (e : Effect) : bool :=
  match e with
  | OrdersInsert _ => true
  | _ => false
  end.

(** How the backend answers the one write of [handleSaveOrder]: it returns
    without an error, returns an error, or the call rejects. *)
Inductive Response := Succeeds | Fails (message : string) | Throws.

(** What [await fetchOrders()] does after the write: it rejects, or it
    returns the orders or nothing. *)
Inductive FetchResponse :=
| FetchThrows
| FetchReturns (freshOrders : option (list Order.t)).

(** The answers to the calls that [handleSaveOrder] awaits inside its [try]
    blocks: the write, the [fetchOrders] that follows it and, for a new
    order, [sendNewOrderNotification]. *)
Record Backend := mkBackend {
  writeResponse : Response;
  fetchResponse : FetchResponse;
  notificationThrows : bool
}.

(** ** Saving the order form *)

(** [s.replace(pat, '')] for a string pattern: the first occurrence goes. *)
Fixpoint removeFirst (pat s : string) : string :=
  if String.prefix pat s
  then String.substring (String.length pat)
                        (String.length s - String.length pat) s
  else
    match s with
    | EmptyString => EmptyString
    | String ch rest => String ch (removeFirst pat rest)
    end.

(** The white space [parseInt] skips, among the code units below 256: tab
    to carriage return, the space and the no-break space. *)
Definition isWhiteSpace (ch : ascii) : bool :=
  let n := N_of_ascii ch in
  (N.eqb n 32 || N.eqb n 160 || (N.leb 9 n && N.leb n 13))%N.

Definition digitValue (ch : ascii) : option Z :=
  let n := N_of_ascii ch in
  if (N.leb 48 n && N.leb n 57)%N then Some (Z.of_N n - 48)%Z else None.

Fixpoint skipWhiteSpace (s : string) : string :=
  match s with
  | String ch rest => if isWhiteSpace ch then skipWhiteSpace rest else s
  | EmptyString => s
  end.

(** The leading run of decimal digits of [s], read onto [acc]. *)
Fixpoint readDigits (s : string) (acc : Z) : Z :=
  match s with
  | String ch rest =>
      match digitValue ch with
      | Some d => readDigits rest (10 * acc + d)%Z
      | None => acc
      end
  | EmptyString => acc
  end.

Definition startsWithDigit (s : string) : bool :=
  match s with
  | String ch _ =>
      match digitValue ch with
      | Some _ => true
      | None => false
      end
  | EmptyString => false
  end.

(** [parseInt(s, 10)]; [None] is [NaN]. *)
Definition parseInt (s : string) : option Z :=
  let s1 := skipWhiteSpace s in
  let '(negative, s2) :=
    match s1 with
    | String "-"%char rest => (true, rest)
    | String "+"%char rest => (false, rest)
    | _ => (false, s1)
    end in
  if startsWithDigit s2
  then Some (if negative then (- readDigits s2 0)%Z else readDigits s2 0)
  else None.

Fixpoint zeros (n : nat) : string :=
  match n with
  | O => EmptyString
  | S k => String "0"%char (zeros k)
  end.

(** [s.padStart(3, '0')] *)
Definition padStart3 (s : string) : string :=
  zeros (3 - String.length s) ++ s.

(** The largest number read from the ids, or 0.  The source compares
    doubles: it is this integer as long as every number read is below 2^53
    (above that [parseInt] rounds). *)
Definition maxIdNum (os : list Order.t) : Z :=
  fold_left
    (fun max order =>
       match parseInt (removeFirst "ORD" (Order.id order)) with
       | Some n => if (max <? n)%Z then n else max
       | None => max
       end)
    os 0%Z.

(** ['ORD' + (maxIdNum + 1).toString().padStart(3, '0')].  In the source
    [maxIdNum + 1] is a double: it is this integer, printed in decimal
    digits, as long as [maxIdNum] is below 2^53. *)
Definition nextOrderId (os : list Order.t) : string :=
  "ORD" ++ padStart3 (NilZero.string_of_int (Z.to_int (maxIdNum os + 1))).

(** The lines with a positive quantity and a known product, split into
    the active list and the backordered list. *)
Definition partitionStep (c : Context) (f : Form)
    (acc : list OrderItem.t * list OrderItem.t) (entry : string * Q)
  : list OrderItem.t * list OrderItem.t :=
  let '(newOrderItems, newBackorderedItems) := acc in
  let '(productId, quantity) := entry in
  match findProduct (products c) productId with
  | None => acc
  | Some product =>
      let isHeld := StrSet.has (heldItems f) productId in
      let isOutOfStock := eqb_num (getEffectiveStock c product) 0 in
      let price :=
        nullish (Obj.get (orderItemPrices f) productId)
                (Product.price product) in
      if isHeld || isOutOfStock then
        (newOrderItems,
         (newBackorderedItems
            ++ [OrderItem.mk productId quantity price None])%list)
      else
        ((newOrderItems
            ++ [OrderItem.mk productId quantity price
                  (Some (or0 (Obj.get (orderDiscounts f) productId)))])%list,
         newBackorderedItems)
  end.

Definition partitionLines (c : Context) (f : Form)
  : list OrderItem.t * list OrderItem.t :=
  fold_left (partitionStep c f)
    (filter (fun entry => gtb (snd entry) 0) (Obj.entries (orderItems f)))
    ([], []).

Record SaveResult := mkSaveResult {
  saveEffects : list Effect;
  savedOrders : option (list Order.t);
  modalClosed : bool
}.

Definition rejected (es : list Effect) : SaveResult :=
  mkSaveResult es None false.

Definition nonEmptyOr (s d : string) : string :=
  if String.eqb s "" then d else s.

(** The [try] block of the create branch.  Each of the three calls it
    awaits may reject; the [catch] then alerts and returns, so the form
    stays open, also when the orders have already been replaced by the
    fetched ones. *)
Definition createOrder (c : Context) (f : Form) (b : Backend)
    (customer : Customer.t) (newOrderItems newBackorderedItems : list OrderItem.t)
    (total : Q) : SaveResult :=
  if String.eqb (Customer.id customer) "" then
    rejected [Alert "Please select a customer"]
  else
    match newOrderItems with
    | [] => rejected [Alert "Please add at least one item to the order"]
    | _ :: _ =>
        let newOrder :=
          OrderRow.mk (Some (nextOrderId (orders c)))
            (Customer.id customer) (Customer.name customer)
            (match currentUser c with Some u => User.id u | None => "" end)
            newOrderItems newBackorderedItems (orderMethod f)
            (if String.eqb (expectedDeliveryDate f) "" then None
             else Some (expectedDeliveryDate f))
            (nonEmptyOr (expectedDeliveryDate f) (today c))
            total Pending (orderNotes f) 0 0 in
        match writeResponse b with
        | Fails message =>
            rejected [OrdersInsert newOrder;
                      Alert ("Error adding order: " ++ message)]
        | Throws =>
            rejected [OrdersInsert newOrder;
                      Alert "An unexpected error occurred. Please try again."]
        | Succeeds =>
            match fetchResponse b with
            | FetchThrows =>
                rejected [OrdersInsert newOrder; FetchOrders;
                          Alert "An unexpected error occurred. Please try again."]
            | FetchReturns freshOrders =>
                let createdOrder :=
                  match freshOrders with
                  | Some fresh =>
                      find (fun o => String.eqb (Order.id o)
                                                (nextOrderId (orders c)))
                           fresh
                  | None => None
                  end in
                match createdOrder, currentUser c with
                | Some o, Some u =>
                    let notification :=
                      SendNewOrderNotification u o (Customer.name customer) in
                    if notificationThrows b
                    then
                      mkSaveResult
                        [OrdersInsert newOrder; FetchOrders; notification;
                         Alert "An unexpected error occurred. Please try again."]
                        freshOrders false
                    else
                      mkSaveResult
                        [OrdersInsert newOrder; FetchOrders; notification;
                         Alert "Order created successfully!"]
                        freshOrders true
                | _, _ =>
                    mkSaveResult
                      [OrdersInsert newOrder; FetchOrders;
                       Alert "Order created successfully!"]
                      freshOrders true
                end
            end
        end
    end.

(** The [try] block of the edit branch; the write and the fetch that
    follows it may reject. *)
Definition updateOrder (c : Context) (f : Form) (b : Backend)
    (currentOrder : Order.t) (customer : Customer.t)
    (newOrderItems newBackorderedItems : list OrderItem.t) (total : Q)
  : SaveResult :=
  let updatedOrder :=
    OrderRow.mk None
      (Customer.id customer) (Customer.name customer)
      (nullish (Order.assigneduserid currentOrder) "")
      newOrderItems newBackorderedItems (orderMethod f)
      (if String.eqb (expectedDeliveryDate f) "" then None
       else Some (expectedDeliveryDate f))
      (nonEmptyOr (expectedDeliveryDate f)
         (nonEmptyOr (nullish (Order.orderdate currentOrder) "") (today c)))
      total (Order.status currentOrder) (orderNotes f)
      (or0 (Order.chequeBalance currentOrder))
      (or0 (Order.creditBalance currentOrder)) in
  let write := OrdersUpdate (Order.id currentOrder) updatedOrder in
  match writeResponse b with
  | Fails message =>
      rejected [write; Alert ("Error updating order: " ++ message)]
  | Throws =>
      rejected [write; Alert "An unexpected error occurred. Please try again."]
  | Succeeds =>
      match fetchResponse b with
      | FetchThrows =>
          rejected [write; FetchOrders;
                    Alert "An unexpected error occurred. Please try again."]
      | FetchReturns freshOrders =>
          mkSaveResult [write; FetchOrders;
                        Alert "Order updated successfully!"]
                       freshOrders true
      end
  end.

(** [customers.find(c => c.id === selectedCustomer)] *)
Definition findCustomer (c : Context) (f : Form) : option Customer.t :=
  find (fun cu => String.eqb (Customer.id cu) (selectedCustomer f))
       (customers c).

Definition handleSaveOrder (c : Context) (f : Form) (b : Backend)
  : SaveResult :=
  let totals := aggregate c f in
  if String.eqb (selectedCustomer f) ""
     || (eqb_num (Totals.inStockItems totals) 0
         && eqb_num (Totals.heldItemsCount totals) 0)
  then rejected [Alert "Please select a customer and add at least one item."]
  else
    match findCustomer c f with
    | None => rejected []
    | Some customer =>
        let '(newOrderItems, newBackorderedItems) := partitionLines c f in
        match modalState f, currentOrder f with
        | create, _ =>
            createOrder c f b customer newOrderItems newBackorderedItems
                        (Totals.total totals)
        | edit, Some currentOrder =>
            updateOrder c f b currentOrder customer
                        newOrderItems newBackorderedItems (Totals.total totals)
        | _, _ => mkSaveResult [] None true
        end
    end.

(** ** Hold and unhold in the order view *)

Inductive HoldAction := hold | unhold.

(** [l.findIndex(f)]; [None] is [-1]. *)
Fixpoint findIndex {A : Type} (f : A -> bool) (l : list A) : option nat :=
  match l with
  | [] => None
  | x :: rest =>
      if f x then Some O
      else
        match findIndex f rest with
        | Some i => Some (S i)
        | None => None
        end
  end.

(** [l.splice(i, 1)]: what is left of [l]. *)
Fixpoint removeAt {A : Type} (i : nat) (l : list A) : list A :=
  match l, i with
  | [], _ => []
  | _ :: rest, O => rest
  | x :: rest, S j => x :: removeAt j rest
  end.

(** [JSON.parse(JSON.stringify(o))]: a copy that shares nothing with [o];
    on strings, numbers, arrays and absent fields it has the same value. *)
Definition jsonClone (o : Order.t) : Order.t := o.

Definition lineSubtotal (item : OrderItem.t) : Q :=
  let discount := or0 (OrderItem.discount item) in
  OrderItem.price item * OrderItem.quantity item * (1 - discount / 100).

(** The [reduce] that recomputes an order's total from its active lines. *)
Definition orderTotal (items : list OrderItem.t) : Q :=
  fold_left (fun sum item => sum + lineSubtotal item) items 0.

Definition hasProductId (productId : string) (item : OrderItem.t) : bool :=
  String.eqb (OrderItem.productId item) productId.

(** The order handed to [setViewingOrder] and [setOrders]; [None] when the
    handler returns before it reaches them. *)
Definition handleToggleHoldInView (c : Context) (viewingOrder : option Order.t)
    (productId : string) (action : HoldAction) : option Order.t :=
  match viewingOrder with
  | None => None
  | Some viewing =>
      let updatedOrder := jsonClone viewing in
      let moved :=
        match action with
        | hold =>
            match findIndex (hasProductId productId)
                            (Order.orderItems updatedOrder) with
            | None => None
            | Some itemIndex =>
                match nth_error (Order.orderItems updatedOrder) itemIndex with
                | None => None
                | Some itemToMove =>
                    Some (removeAt itemIndex (Order.orderItems updatedOrder),
                          (nullish (Order.backorderedItems updatedOrder) []
                             ++ [itemToMove])%list)
                end
            end
        | unhold =>
            match findProduct (products c) productId with
            | None => None
            | Some product =>
                if eqb_num (getEffectiveStock c product) 0 then None
                else
                  let held :=
                    nullish (Order.backorderedItems updatedOrder) [] in
                  match findIndex (hasProductId productId) held with
                  | None => None
                  | Some itemIndex =>
                      match nth_error held itemIndex with
                      | None => None
                      | Some itemToMove =>
                          Some ((Order.orderItems updatedOrder
                                   ++ [itemToMove])%list,
                                removeAt itemIndex held)
                      end
                  end
            end
        end in
      match moved with
      | None => None
      | Some (active, held) =>
          Some (Order.with_lines updatedOrder active (Some held)
                                 (orderTotal active))
      end
  end.

(** [prev.map(o => o.id === updated.id ? updated : o)] *)
Definition replaceOrder (updated : Order.t) (prev : list Order.t)
  : list Order.t :=
  map (fun o => if String.eqb (Order.id o) (Order.id updated)
                then updated else o) prev.

(** The view after the handler ran: the order on display and the list. *)
Definition toggleHold (c : Context) (viewingOrder : option Order.t)
    (productId : string) (action : HoldAction)
  : option Order.t * list Order.t :=
  match handleToggleHoldInView c viewingOrder productId action with
  | None => (viewingOrder, orders c)
  | Some updatedOrder => (Some updatedOrder, replaceOrder updatedOrder (orders c))
  end.

(** ** Balance fields of the order view *)

Record Balances := mkBalances {
  editableChequeBalance : option Q;
  editableCreditBalance : option Q;
  editableAmountPaid : option Q
}.

(** [e.target.value] of a number input: empty, or text with the number
    [parseFloat] reads from it ([None] is [NaN]). *)
Inductive InputValue := Blank | Typed (parsed : option Q).

Definition openViewModal (order : Order.t) : Balances :=
  let calculatedAmountPaid :=
    Order.total order - or0 (Order.chequeBalance order)
      - or0 (Order.creditBalance order) in
  mkBalances (Some (or0 (Order.chequeBalance order)))
             (Some (or0 (Order.creditBalance order)))
             (Some (pos_or_zero calculatedAmountPaid)).

Definition onChequeBalanceChange (viewingOrder : Order.t) (b : Balances)
    (val : InputValue) : Balances :=
  match val with
  | Blank =>
      mkBalances None
        (match editableAmountPaid b with
         | None => None
         | Some paid => Some (Order.total viewingOrder - paid)
         end)
        (editableAmountPaid b)
  | Typed parsed =>
      let cheque := or0 parsed in
      let newCredit :=
        Order.total viewingOrder - or0 (editableAmountPaid b) - cheque in
      mkBalances (Some cheque) (Some (pos_or_zero newCredit))
                 (editableAmountPaid b)
  end.

Definition onAmountPaidChange (viewingOrder : Order.t) (b : Balances)
    (val : InputValue) : Balances :=
  match val with
  | Blank =>
      mkBalances (editableChequeBalance b)
        (match editableChequeBalance b with
         | None => None
         | Some cheque => Some (Order.total viewingOrder - cheque)
         end)
        None
  | Typed parsed =>
      let paid := or0 parsed in
      let newCredit :=
        Order.total viewingOrder - paid - or0 (editableChequeBalance b) in
      mkBalances (editableChequeBalance b) (Some (pos_or_zero newCredit))
                 (Some paid)
  end.

(** ** Finalization *)

Record View := mkView {
  viewingOrder : option Order.t;
  orderToFinalize : option Order.t;
  isPrintPreviewOpen : bool
}.

Record FinalizeResult := mkFinalizeResult {
  finEffects : list Effect;
  finContext : Context;
  finView : View
}.

(** The stock check of one line: the product is unknown or has less
    effective stock than the line asks for. *)
Definition lacksStock (c : Context) (item : OrderItem.t) : bool :=
  match findProduct (products c) (OrderItem.productId item) with
  | None => true
  | Some product =>
      ltb (getEffectiveStock c product) (OrderItem.quantity item)
  end.

(** [product?.name || 'an item'] *)
Definition productLabel (c : Context) (item : OrderItem.t) : string :=
  match findProduct (products c) (OrderItem.productId item) with
  | Some product => nonEmptyOr (Product.name product) "an item"
  | None => "an item"
  end.

Definition insufficientStockAlert (c : Context) (item : OrderItem.t) : Effect :=
  Alert ("Insufficient stock for " ++ productLabel c item
           ++ ". Cannot finalize order.").

Definition soldQty (items : list OrderItem.t) : Q :=
  fold_left (fun sum i => sum + OrderItem.quantity i) items 0.

(** One allocated entry after the delivery of [deliveredItems]. *)
Definition deliverAllocated (deliveredItems : list OrderItem.t)
    (item : AllocatedItem.t) : AllocatedItem.t :=
  match find (fun di => String.eqb (OrderItem.productId di)
                                   (AllocatedItem.productId item))
             deliveredItems with
  | Some delivered =>
      let newQty := AllocatedItem.quantity item - OrderItem.quantity delivered in
      AllocatedItem.mk (AllocatedItem.productId item) (pos_or_zero newQty)
  | None => item
  end.

Definition updatedAllocatedItems (allocation : DriverAllocation.t)
    (deliveredItems : list OrderItem.t) : list AllocatedItem.t :=
  filter (fun item => gtb (AllocatedItem.quantity item) 0)
         (map (deliverAllocated deliveredItems)
              (DriverAllocation.allocatedItems allocation)).

(** The allocation the driver's delivery is booked on, if any. *)
Definition allocationToSync (c : Context) : option DriverAllocation.t :=
  match currentUser c with
  | Some u =>
      if UserRole_eqb (User.role u) Driver
         && negb (Nat.eqb (List.length (driverAllocations c)) 0)
      then todaysAllocation c u
      else None
  | None => None
  end.

Definition syncAllocation (c : Context) (targetOrder : Order.t)
  : list Effect * list DriverAllocation.t :=
  match allocationToSync c with
  | None => ([], driverAllocations c)
  | Some allocation =>
      let newSalesTotal :=
        or0 (DriverAllocation.salesTotal allocation)
          + soldQty (Order.orderItems targetOrder) in
      let items := updatedAllocatedItems allocation (Order.orderItems targetOrder) in
      ([DriverAllocationsUpdate (DriverAllocation.id allocation)
                                newSalesTotal items],
       map (fun alloc =>
              if String.eqb (DriverAllocation.id alloc)
                            (DriverAllocation.id allocation)
              then DriverAllocation.mk (DriverAllocation.id alloc)
                     (DriverAllocation.driverId alloc)
                     (DriverAllocation.date alloc)
                     (Some newSalesTotal) items
              else alloc)
           (driverAllocations c))
  end.

(** The stock writes of the deduction loop, one line at a time. *)
Definition deductLine (c : Context) (item : OrderItem.t) : list Effect :=
  match findProduct (products c) (OrderItem.productId item) with
  | Some currentProduct =>
      if geb (Product.stock currentProduct) (OrderItem.quantity item)
      then [ProductsUpdateStock (OrderItem.productId item)
              (Product.stock currentProduct - OrderItem.quantity item)]
      else []
  | None => []
  end.

Definition deductStock (c : Context) (targetOrder : Order.t) : list Effect :=
  if negb (OrderStatus_eqb (Order.status targetOrder) Delivered)
  then flat_map (deductLine c) (Order.orderItems targetOrder)
  else [].

Definition customerTotals (c : Context) (updatedOrder : Order.t) : Effect :=
  let delivered :=
    filter (fun o => String.eqb (Order.customerId o)
                                (Order.customerId updatedOrder)
                     && OrderStatus_eqb (Order.status o) Delivered)
           (orders c) in
  let customerOrders :=
    match find (fun o => String.eqb (Order.id o) (Order.id updatedOrder))
               delivered with
    | Some _ => delivered
    | None => (delivered ++ [updatedOrder])%list
    end in
  let totalSpent :=
    fold_left (fun sum o => sum + Order.total o) customerOrders 0 in
  let outstandingBalance :=
    fold_left (fun sum o => sum + (or0 (Order.chequeBalance o)
                                   + or0 (Order.creditBalance o)))
              customerOrders 0 in
  CustomersUpdate (Order.customerId updatedOrder) totalSpent outstandingBalance.

(** [if (!orderToProcess) setOrderToFinalize(null)] *)
Definition dismissFinalize (v : View) (orderToProcess : option Order.t) : View :=
  match orderToProcess with
  | Some _ => v
  | None => mkView (viewingOrder v) None (isPrintPreviewOpen v)
  end.

(** [orderToProcess || orderToFinalize] *)
Definition targetOf (v : View) (orderToProcess : option Order.t)
  : option Order.t :=
  match orderToProcess with
  | Some o => Some o
  | None => orderToFinalize v
  end.

Definition handleConfirmFinalize (c : Context) (v : View)
    (orderToProcess : option Order.t) : FinalizeResult :=
  match targetOf v orderToProcess with
  | None => mkFinalizeResult [] c v
  | Some targetOrder =>
      match Order.orderItems targetOrder with
      | [] =>
          mkFinalizeResult [Alert "Cannot finalize an order with no items."]
                           c (dismissFinalize v orderToProcess)
      | _ :: _ =>
          match find (lacksStock c) (Order.orderItems targetOrder) with
          | Some item =>
              mkFinalizeResult [insufficientStockAlert c item]
                               c (dismissFinalize v orderToProcess)
          | None =>
              let sold := soldQty (Order.orderItems targetOrder) in
              let '(allocationEffects, allocations) :=
                syncAllocation c targetOrder in
              let updatedOrder := Order.with_status targetOrder Delivered in
              let refresh :=
                if negb (OrderStatus_eqb (Order.status targetOrder) Delivered)
                then [RefreshData] else [] in
              mkFinalizeResult
                ([OrdersSetDelivered (Order.id targetOrder) (Some sold)]
                   ++ allocationEffects
                   ++ deductStock c targetOrder
                   ++ [OrdersSetDelivered (Order.id updatedOrder) None;
                       customerTotals c updatedOrder]
                   ++ refresh)%list
                (mkContext (currentUser c) (today c) (products c)
                           (customers c)
                           (replaceOrder updatedOrder (orders c))
                           allocations)
                (match orderToProcess with
                 | Some _ =>
                     mkView (Some updatedOrder) (orderToFinalize v)
                            (isPrintPreviewOpen v)
                 | None => mkView (Some updatedOrder) None true
                 end)
          end
      end
  end.

(** ** Permissions *)

Definition hasRole (c : Context) (r : UserRole) : bool :=
  match currentUser c with
  | Some u => UserRole_eqb (User.role u) r
  | None => false
  end.

Definition canEdit (c : Context) : bool :=
  hasRole c Admin || hasRole c Manager || hasRole c Sales || hasRole c Driver.

Definition canDelete (c : Context) : bool :=
  hasRole c Admin || hasRole c Manager.

Definition canPrintBill (c : Context) : bool :=
  hasRole c Admin || hasRole c Manager || hasRole c Driver.

Definition canMarkDelivered (c : Context) : bool :=
  hasRole c Admin || hasRole c Manager || hasRole c Driver.

Definition isManagerView (c : Context) : bool :=
  hasRole c Admin || hasRole c Manager.

(** ** Opening the order form *)

(** [products.reduce((acc, p) => { acc[p.id] = p.price; return acc }, {})] *)
Definition initialPrices (ps : list Product.t) : Obj.t Q :=
  fold_left (fun acc p => Obj.set acc (Product.id p) (Product.price p))
            ps Obj.empty.

(** The form [openCreateModal] sets up; the method and the notes are state
    it does not touch. *)
Definition openCreateModal (c : Context) (f : Form) : Form :=
  mkForm create None
    (match customers c with
     | cu :: _ => Customer.id cu
     | [] => ""
     end)
    Obj.empty Obj.empty (initialPrices (products c)) [] ""
    (orderMethod f) (orderNotes f).

(** [!v] for a possibly undefined number. *)
Definition falsy (v : option Q) : bool :=
  match v with
  | Some x => eqb_num x 0
  | None => true
  end.

(** [products.forEach(p => { if (!prices[p.id]) prices[p.id] = p.price })] *)
Definition fillPrices (ps : list Product.t) (prices : Obj.t Q) : Obj.t Q :=
  fold_left
    (fun acc p =>
       if falsy (Obj.get acc (Product.id p))
       then Obj.set acc (Product.id p) (Product.price p)
       else acc)
    ps prices.

(** [new Set(ids)] *)
Definition setOf (ids : list string) : StrSet.t :=
  fold_left StrSet.add ids [].

(** The form [openEditModal] sets up for [order]; [expected] is the order's
    [expectedDeliveryDate], a field the record [Order.t] does not carry. *)
Definition openEditModal (c : Context) (f : Form) (order : Order.t)
    (expected : option string) : Form :=
  let allItems :=
    (Order.orderItems order ++ nullish (Order.backorderedItems order) [])%list in
  let items :=
    fold_left (fun acc item =>
                 Obj.set acc (OrderItem.productId item) (OrderItem.quantity item))
              allItems Obj.empty in
  let discounts :=
    fold_left (fun acc item =>
                 Obj.set acc (OrderItem.productId item)
                         (or0 (OrderItem.discount item)))
              (Order.orderItems order) Obj.empty in
  let prices :=
    fold_left (fun acc item =>
                 Obj.set acc (OrderItem.productId item) (OrderItem.price item))
              allItems Obj.empty in
  let backorderedIds :=
    setOf (map OrderItem.productId
               (nullish (Order.backorderedItems order) [])) in
  mkForm edit (Some order) (Order.customerId order) items discounts
         (fillPrices (products c) prices) backorderedIds
         (nullish expected "") (orderMethod f) (orderNotes f).

(** ** The printed bill *)

Record BillFigures := mkBillFigures {
  billChequeBalance : Q;
  billCreditBalance : Q;
  totalOutstanding : Q;
  amountPaid : Q
}.

(** The figures [OrderBill] prints under the lines; [chequeBalance] and
    [creditBalance] are its optional props ([None] when the prop is absent
    or is not a number). *)
Definition orderBillFigures (order : Order.t)
    (chequeBalance creditBalance : option Q) : BillFigures :=
  let billCheque :=
    match chequeBalance with
    | Some x => x
    | None => nullish (Order.chequeBalance order) 0
    end in
  let billCredit :=
    match creditBalance with
    | Some x => x
    | None => nullish (Order.creditBalance order) 0
    end in
  let outstanding := billCheque + billCredit in
  mkBillFigures billCheque billCredit outstanding
    (if eqb_num (Order.total order) 0 then 0
     else Order.total order - outstanding).

(** ** Saving the balances *)

Module CollectionRecord.
Record t := mk {
  order_id : string;
  customer_id : string;
  collection_type : string;
  amount : Q;
  status : string;
  collected_by : string;
  created_at : string
}.
End CollectionRecord.

Inductive BalanceEffect :=
| Confirm (message : string)
| OrdersUpdateBalances (id : string) (chequebalance creditbalance : option Q)
| CollectionsUpsert (records : list CollectionRecord.t)
| OrdersSelectAll
| BalanceAlert (message : string).

Module OrderDbRow.
(** A row of [orders] as the refetch of [handleSaveBalances] reads it, with
    the columns that end in a field of [Order.t]; [orderitems] is the
    decoded array, and a balance is [None] when the column is null or not a
    number. *)
Record t := mk {
  id : string;
  customerid : string;
  totalamount : Q;
  status : OrderStatus;
  orderitems : option (list OrderItem.t);
  chequebalance : option Q;
  creditbalance : option Q
}.
End OrderDbRow.

Definition mapOrderRow (row : OrderDbRow.t) : Order.t :=
  Order.mk (OrderDbRow.id row) (OrderDbRow.customerid row) None None
           (OrderDbRow.status row) (OrderDbRow.totalamount row)
           (nullish (OrderDbRow.orderitems row) [])
           (Some [])
           (Some (or0 (OrderDbRow.chequebalance row)))
           (Some (or0 (OrderDbRow.creditbalance row))).

(** What the user and the backend answer to [handleSaveBalances]. *)
Record BalanceAnswers := mkBalanceAnswers {
  confirmed : bool;
  updateError : option string;
  selectedRows : option (list OrderDbRow.t)
}.

Record SaveBalancesResult := mkSaveBalancesResult {
  sbEffects : list BalanceEffect;
  sbOrders : option (list Order.t);
  sbViewingOrder : option Order.t
}.

Definition pendingRecord (viewing : Order.t) (kind : string) (amount : Q)
    (collectedBy now : string) : CollectionRecord.t :=
  CollectionRecord.mk (Order.id viewing) (Order.customerId viewing) kind
                      amount "pending" collectedBy now.

(** The records pushed for the two balances, the cheque first. *)
Definition collectionRecords (viewing : Order.t) (b : Balances)
    (collectedBy now : string) : list CollectionRecord.t :=
  ((if gtb (or0 (editableChequeBalance b)) 0
    then [pendingRecord viewing "cheque" (or0 (editableChequeBalance b))
                        collectedBy now]
    else [])
   ++ (if gtb (or0 (editableCreditBalance b)) 0
       then [pendingRecord viewing "credit" (or0 (editableCreditBalance b))
                           collectedBy now]
       else []))%list.

(** The name of the user the order is assigned to, or the empty string. *)
Definition assignedUserName (users : list User.t)
    (assignedUserId : option string) : string :=
  match assignedUserId with
  | Some uid =>
      if String.eqb uid "" then ""
      else
        match find (fun u => String.eqb (User.id u) uid) users with
        | Some u => User.name u
        | None => ""
        end
  | None => ""
  end.

(** [handleSaveBalances].  An empty field adds to the other as a string and
    is compared as a number, so the sum that is compared with the total is
    that of the two fields with an empty one counting 0.  [assignedUserId]
    is the order's camel-case field, which [Order.t] does not carry, and
    [now] the time stamp of the records. *)
Definition handleSaveBalances (viewingOrder : option Order.t) (b : Balances)
    (users : list User.t) (assignedUserId : option string) (now : string)
    (a : BalanceAnswers) : SaveBalancesResult :=
  match viewingOrder with
  | None => mkSaveBalancesResult [] None None
  | Some viewing =>
      let totalOutstanding :=
        or0 (editableChequeBalance b) + or0 (editableCreditBalance b) in
      let asks := gtb totalOutstanding (Order.total viewing) in
      let question :=
        if asks
        then [Confirm "The outstanding balance is greater than the order total. Do you want to proceed?"]
        else [] in
      if asks && negb (confirmed a)
      then mkSaveBalancesResult question None None
      else
        let updatedOrder :=
          Order.mk (Order.id viewing) (Order.customerId viewing)
                   (Order.assigneduserid viewing) (Order.orderdate viewing)
                   (Order.status viewing) (Order.total viewing)
                   (Order.orderItems viewing) (Order.backorderedItems viewing)
                   (editableChequeBalance b) (editableCreditBalance b) in
        let update :=
          OrdersUpdateBalances (Order.id viewing) (editableChequeBalance b)
                               (editableCreditBalance b) in
        match updateError a with
        | Some message =>
            mkSaveBalancesResult
              (question ++ [update;
                            BalanceAlert ("Failed to save balances: " ++ message)])%list
              None None
        | None =>
            let records :=
              collectionRecords viewing b
                (assignedUserName users assignedUserId) now in
            let upsert :=
              match records with
              | [] => []
              | _ :: _ => [CollectionsUpsert records]
              end in
            match selectedRows a with
            | Some freshOrders =>
                mkSaveBalancesResult
                  (question ++ [update] ++ upsert
                     ++ [OrdersSelectAll;
                         BalanceAlert "Balances updated and saved!"])%list
                  (Some (map mapOrderRow freshOrders))
                  (Some updatedOrder)
            | None =>
                mkSaveBalancesResult
                  (question ++ [update] ++ upsert
                     ++ [OrdersSelectAll;
                         BalanceAlert "Balances saved, but failed to refresh orders."])%list
                  None None
            end
        end
  end.

(** ** Downloading the bill *)

Inductive BillOutcome := NotGenerated | PopupBlocked | Printed.

(** [generateAndDownloadBill]; [popupAllowed] is whether [window.open]
    returns a window. *)
Definition generateAndDownloadBill (c : Context) (v : View)
    (popupAllowed : bool) : list Effect * BillOutcome :=
  match viewingOrder v with
  | None => ([], NotGenerated)
  | Some viewing =>
      match find (fun cu => String.eqb (Customer.id cu)
                                       (Order.customerId viewing))
                 (customers c) with
      | None => ([], NotGenerated)
      | Some _ =>
          if popupAllowed then ([], Printed)
          else ([Alert "Please allow popups to download the bill."],
                PopupBlocked)
      end
  end.

(** How [handleDownloadBill] calls [generateAndDownloadBill]: not at all,
    at once, or from a timer set for a second later. *)
Inductive BillRequest := NoBill | BillNow | BillAfterDelay.

Record DownloadResult := mkDownloadResult {
  dlAsked : bool;
  dlFinalize : option FinalizeResult;
  dlEffects : list Effect;
  dlBill : BillRequest
}.

(** [handleDownloadBill]; [confirmAnswer] is what the user answers to
    [confirm], when asked. *)
Definition handleDownloadBill (c : Context) (v : View)
    (confirmAnswer : bool) : DownloadResult :=
  match viewingOrder v with
  | None => mkDownloadResult false None [] NoBill
  | Some viewing =>
      match find (fun cu => String.eqb (Customer.id cu)
                                       (Order.customerId viewing))
                 (customers c) with
      | None =>
          mkDownloadResult false None
            [Alert "Customer data missing. Cannot download bill."] NoBill
      | Some _ =>
          if negb (OrderStatus_eqb (Order.status viewing) Delivered)
             && canMarkDelivered c
          then
            if confirmAnswer then
              let r := handleConfirmFinalize c v (Some viewing) in
              mkDownloadResult true (Some r) (finEffects r) BillAfterDelay
            else mkDownloadResult true None [] NoBill
          else mkDownloadResult false None [] BillNow
      end
  end.

(** ** The products table behind the writes *)

Definition applyEffect (table : list Product.t) (e : Effect)
  : list Product.t :=
  match e with
  | ProductsUpdateStock id stock =>
      map (fun p => if String.eqb (Product.id p) id
                    then Product.mk (Product.id p) (Product.name p)
                                    (Product.price p) stock
                    else p)
          table
  | _ => table
  end.

Definition runEffects (table : list Product.t) (es : list Effect)
  : list Product.t :=
  fold_left applyEffect es table.

Definition warehouseStock (table : list Product.t) (id : string)
  : option Q :=
  option_map Product.stock (findProduct table id).

(** ** The lines of the form, as the aggregator classifies them *)

(** A line counts when its product is in the catalogue and its quantity is
    positive. *)
Definition countedLine (c : Context) (entry : string * Q) : bool :=
  match findProduct (products c) (fst entry) with
  | Some _ => gtb (snd entry) 0
  | None => false
  end.

(** In the held set, or out of stock for the acting user. *)
Definition setAside (c : Context) (f : Form) (productId : string) : bool :=
  StrSet.has (heldItems f) productId
  || match findProduct (products c) productId with
     | Some product => eqb_num (getEffectiveStock c product) 0
     | None => false
     end.

Definition heldLine (c : Context) (f : Form) (entry : string * Q) : bool :=
  countedLine c entry && setAside c f (fst entry).

Definition activeLine (c : Context) (f : Form) (entry : string * Q) : bool :=
  countedLine c entry && negb (setAside c f (fst entry)).

(** price × quantity × (1 − discount/100), the price being the override of
    the form or else the catalogue price. *)
Definition lineAmount (c : Context) (f : Form) (entry : string * Q) : Q :=
  let unitPrice :=
    match findProduct (products c) (fst entry) with
    | Some product =>
        nullish (Obj.get (orderItemPrices f) (fst entry)) (Product.price product)
    | None => 0
    end in
  unitPrice * snd entry
    * (1 - or0 (Obj.get (orderDiscounts f) (fst entry)) / 100).

(** [clamp(x, 0, hi)] *)
Definition clamp0 (x hi : Q) : Q := Qmax 0 (Qmin x hi).

(** ** Orders, transitions and finalizations named in the statements *)

Definition activeIds (o : Order.t) : list string :=
  map OrderItem.productId (Order.orderItems o).

Definition heldIds (o : Order.t) : list string :=
  map OrderItem.productId (nullish (Order.backorderedItems o) []).

(** The transitions the handler refuses. *)
Definition invalidTransition (c : Context) (o : Order.t) (productId : string)
    (action : HoldAction) : Prop :=
  match action with
  | hold => ~ In productId (activeIds o)
  | unhold =>
      ~ In productId (heldIds o)
      \/ exists product,
           findProduct (products c) productId = Some product
           /\ getEffectiveStock c product == 0
  end.

(** Every line of the form that counts is held or out of stock. *)
Definition onlyBackorders (c : Context) (f : Form) : Prop :=
  forall entry,
    In entry (Obj.entries (orderItems f)) ->
    countedLine c entry = true ->
    setAside c f (fst entry) = true.

(** The two ways a finalization ends: stopped by a check, or carried out. *)
Definition passesChecks (c : Context) (o : Order.t) : Prop :=
  Order.orderItems o <> [] /\ find (lacksStock c) (Order.orderItems o) = None.

(** The warehouse stock of [p] once the deduction loop has met a line that
    asks for [quantity]: the loop writes stock − quantity when the warehouse
    holds the quantity, and leaves the stock alone when it does not. *)
Definition stockAfterLine (p : Product.t) (quantity : Q) : Q :=
  if geb (Product.stock p) quantity
  then Product.stock p - quantity
  else Product.stock p.

Definition deliveredLine (o : Order.t) (productId : string)
  : option OrderItem.t :=
  find (fun di => String.eqb (OrderItem.productId di) productId)
       (Order.orderItems o).

(** ** More vocabulary of the statements *)

(** The record is the driver's own for the day. *)
Definition ownToday (c : Context) (u : User.t) (a : DriverAllocation.t)
  : Prop :=
  DriverAllocation.driverId a = User.id u
  /\ DriverAllocation.date a = today c.

(** [allocation] is the first record of the list of allocations that is the
    driver's own for the day. *)
Definition firstOwnToday (c : Context) (u : User.t)
    (allocation : DriverAllocation.t) : Prop :=
  ownToday c u allocation
  /\ exists pre post,
       driverAllocations c = (pre ++ allocation :: post)%list
       /\ forall a, In a pre -> ~ ownToday c u a.

(** The list of allocations holds no record of the driver for the day. *)
Definition noneOwnToday (c : Context) (u : User.t) : Prop :=
  forall a, In a (driverAllocations c) -> ~ ownToday c u a.

(** The same test as a function, to select the driver's records. *)
Definition ownTodayb (c : Context) (u : User.t) (a : DriverAllocation.t)
  : bool :=
  String.eqb (DriverAllocation.driverId a) (User.id u)
  && String.eqb (DriverAllocation.date a) (today c).

(** Every number read from an id is one a double holds exactly. *)
Definition safeIds (os : list Order.t) : Prop :=
  forall o n,
    In o os ->
    parseInt (removeFirst "ORD" (Order.id o)) = Some n ->
    (n < 2 ^ 53)%Z.

(** A string of decimal digits only. *)
Fixpoint allDigits (s : string) : bool :=
  match s with
  | EmptyString => true
  | String ch rest =>
      match digitValue ch with
      | Some _ => allDigits rest
      | None => false
      end
  end.

(** Every discount of the form is a percentage and no price is negative. *)
Definition inRange (discounts prices : Obj.t Q) : Prop :=
  (forall k v, In (k, v) discounts -> 0 <= v <= 100)
  /\ (forall k v, In (k, v) prices -> 0 <= v).

(** The form with its held set replaced. *)
Definition withHeldItems (f : Form) (held : StrSet.t) : Form :=
  mkForm (modalState f) (currentOrder f) (selectedCustomer f) (orderItems f)
         (orderDiscounts f) (orderItemPrices f) held
         (expectedDeliveryDate f) (orderMethod f) (orderNotes f).

(** The line written for an entry of the form: with the discount of the
    form on the active list, without a discount on the backordered list. *)
Definition savedLine (c : Context) (f : Form) (active : bool)
    (entry : string * Q) : OrderItem.t :=
  OrderItem.mk (fst entry) (snd entry)
    (match findProduct (products c) (fst entry) with
     | Some product =>
         nullish (Obj.get (orderItemPrices f) (fst entry)) (Product.price product)
     | None => 0
     end)
    (if active then Some (or0 (Obj.get (orderDiscounts f) (fst entry)))
     else None).

(** The row of an insert or of an update in the log of a save. *)
Definition writtenRow (e : Effect) : option OrderRow.t :=
  match e with
  | OrdersInsert row => Some row
  | OrdersUpdate _ row => Some row
  | _ => None
  end.

(** The price of a line before its discount. *)
Definition undiscounted (c : Context) (f : Form) (entry : string * Q) : Q :=
  match findProduct (products c) (fst entry) with
  | Some product =>
      nullish (Obj.get (orderItemPrices f) (fst entry)) (Product.price product)
  | None => 0
  end * snd entry.

(** An array index: the decimal numeral, without leading zeros, of an
    integer from 0 to 2^32 - 2.  [Object.entries] lists such keys first. *)
Definition isArrayIndex (s : string) : bool :=
  match s with
  | EmptyString => false
  | String ch _ =>
      allDigits s
      && (String.eqb s "0" || negb (Ascii.eqb ch "0"))
      && (readDigits s 0 <=? 4294967294)%Z
  end.

(** No line of the order is keyed by an array index. *)
Definition plainIds (items : list OrderItem.t) : Prop :=
  forall i, In i items -> isArrayIndex (OrderItem.productId i) = false.

(** The writes to a driver allocation in the log of a finalization. *)
Definition isAllocationUpdate (e : Effect) : bool :=
  match e with
  | DriverAllocationsUpdate _ _ _ => true
  | _ => false
  end.

(** The alerts in the log of a handler. *)
Definition isAlert (e : Effect) : bool :=
  match e with
  | Alert _ => true
  | _ => false
  end.

(** The delivered orders of a customer in the order list. *)
Definition deliveredOf (c : Context) (customerId : string) : list Order.t :=
  filter (fun o => String.eqb (Order.customerId o) customerId
                   && OrderStatus_eqb (Order.status o) Delivered)
         (orders c).

(** The questions put to the user while the balances are saved. *)
Definition isConfirm (e : BalanceEffect) : bool :=
  match e with
  | Confirm _ => true
  | _ => false
  end.

(** The writes in the log of [handleSaveBalances]. *)
Definition isBalanceWrite (e : BalanceEffect) : bool :=
  match e with
  | OrdersUpdateBalances _ _ _ | CollectionsUpsert _ => true
  | Confirm _ | OrdersSelectAll | BalanceAlert _ => false
  end.

(** The collection records an effect pushes. *)
Definition upsertedRecords (e : BalanceEffect) : list CollectionRecord.t :=
  match e with
  | CollectionsUpsert records => records
  | _ => []
  end.

(** The lines of an order, the active ones first. *)
Definition allLines (order : Order.t) : list OrderItem.t :=
  (Order.orderItems order ++ nullish (Order.backorderedItems order) [])%list.

(** A line as a save writes it on the active list: an absent discount is
    written as 0. *)
Definition storedActive (i : OrderItem.t) : OrderItem.t :=
  OrderItem.mk (OrderItem.productId i) (OrderItem.quantity i)
               (OrderItem.price i) (Some (or0 (OrderItem.discount i))).

(** A line as a save writes it on the backordered list: without a
    discount. *)
Definition storedHeld (i : OrderItem.t) : OrderItem.t :=
  OrderItem.mk (OrderItem.productId i) (OrderItem.quantity i)
               (OrderItem.price i) None.

(** ** Sample data *)

Definition admin : User.t := User.mk "U1" "Asha" Admin.
Definition driver : User.t := User.mk "U7" "Dinesh" Driver.
Definition P1 (stock : Q) : Product.t := Product.mk "P1" "Rice 5kg" 100 stock.
Definition P2 (stock : Q) : Product.t := Product.mk "P2" "Sugar 1kg" 40 stock.

Definition shop (u : User.t) (ps : list Product.t)
    (allocations : list DriverAllocation.t) : Context :=
  mkContext (Some u) "2025-01-15" ps [Customer.mk "C1" "Corner Store"] []
            allocations.

Definition newOrderForm (items discounts prices : Obj.t Q)
    (held : StrSet.t) : Form :=
  mkForm create None "C1" items discounts prices held "" "" "".

Definition sampleOrder (st : OrderStatus) (tot : Q)
    (items : list OrderItem.t) (held : option (list OrderItem.t)) : Order.t :=
  Order.mk "ORD001" "C1" None None st tot items held None None.

(** * Properties *)

(** Splits a conjunction into its parts, and stops at a quantifier. *)
Ltac conjs := repeat match goal with |- _ /\ _ => split end.

(** ** Numbers *)

Lemma gtb_true (x y : Q) : gtb x y = true <-> y < x.
Proof.
  unfold gtb. rewrite negb_true_iff, <- not_true_iff_false, Qle_bool_iff.
  split; [apply Qnot_le_lt | apply Qlt_not_le].
Qed.

Lemma gtb_false (x y : Q) : gtb x y = false <-> x <= y.
Proof.
  unfold gtb. rewrite negb_false_iff. apply Qle_bool_iff.
Qed.

Lemma eqb_num_true (x y : Q) : eqb_num x y = true <-> x == y.
Proof. apply Qeq_bool_iff. Qed.

Lemma eqb_num_false (x y : Q) : eqb_num x y = false <-> ~ x == y.
Proof.
  unfold eqb_num. rewrite <- not_true_iff_false, Qeq_bool_iff. tauto.
Qed.

Lemma pos_or_zero_max (x : Q) : pos_or_zero x == Qmax 0 x.
Proof.
  unfold pos_or_zero. destruct (gtb x 0) eqn:E.
  - apply gtb_true in E. symmetry. apply Q.max_r. lra.
  - apply gtb_false in E. symmetry. apply Q.max_l. exact E.
Qed.

Lemma max0_max (x : Q) : max0 x == Qmax 0 x.
Proof.
  unfold max0. destruct (Qle_bool 0 x) eqn:E.
  - apply Qle_bool_iff in E. symmetry. apply Q.max_r. exact E.
  - assert (H : x < 0).
    { apply Qnot_le_lt. rewrite <- Qle_bool_iff, E. discriminate. }
    symmetry. apply Q.max_l. lra.
Qed.

Lemma min_bound_min (x b : Q) : min_bound x (Some b) == Qmin x b.
Proof.
  simpl. destruct (Qle_bool x b) eqn:E.
  - apply Qle_bool_iff in E. symmetry. apply Q.min_l. exact E.
  - assert (H : b < x).
    { apply Qnot_le_lt. rewrite <- Qle_bool_iff, E. discriminate. }
    symmetry. apply Q.min_r. lra.
Qed.

Lemma fold_left_sum {A : Type} (g : A -> Q) (l : list A) (a : Q) :
  fold_left (fun sum x => sum + g x) l a == a + sumQ (map g l).
Proof.
  revert a. induction l as [|x l IH]; intro a; simpl.
  - ring.
  - rewrite IH. ring.
Qed.

(** ** Objects *)

Lemma get_set_same {A : Type} (o : Obj.t A) (k : string) (v : A) :
  Obj.get (Obj.set o k v) k = Some v.
Proof.
  induction o as [|[k' v'] o IH]; simpl.
  - now rewrite String.eqb_refl.
  - destruct (String.eqb k' k) eqn:E; simpl; rewrite E; auto.
Qed.

(** ** C1: the aggregator *)

Section Aggregator.

Variables (c : Context) (f : Form).

(** One step of the reduce, by the cases of its guard. *)
Ltac step_cases pid q p :=
  unfold aggregateStep, activeLine, heldLine, countedLine, setAside,
    lineAmount; simpl;
  destruct (findProduct (products c) pid) as [p|]; simpl; [|ring];
  destruct (gtb q 0); simpl; [|ring];
  destruct (StrSet.has (heldItems f) pid
            || eqb_num (getEffectiveStock c p) 0);
  simpl; ring.

Lemma aggregateStep_total (acc : Totals.t) (entry : string * Q) :
  Totals.total (aggregateStep c f acc entry)
  == Totals.total acc
     + (if activeLine c f entry then lineAmount c f entry else 0).
Proof.
  destruct entry as [pid q]. step_cases pid q p.
Qed.

Lemma aggregateStep_inStock (acc : Totals.t) (entry : string * Q) :
  Totals.inStockItems (aggregateStep c f acc entry)
  == Totals.inStockItems acc + (if activeLine c f entry then snd entry else 0).
Proof.
  destruct entry as [pid q]. step_cases pid q p.
Qed.

Lemma aggregateStep_held (acc : Totals.t) (entry : string * Q) :
  Totals.heldItemsCount (aggregateStep c f acc entry)
  == Totals.heldItemsCount acc + (if heldLine c f entry then snd entry else 0).
Proof.
  destruct entry as [pid q]. step_cases pid q p.
Qed.

Lemma aggregate_fold (l : list (string * Q)) (acc : Totals.t) :
  Totals.total (fold_left (aggregateStep c f) l acc)
    == Totals.total acc + sumQ (map (lineAmount c f) (filter (activeLine c f) l))
  /\ Totals.inStockItems (fold_left (aggregateStep c f) l acc)
    == Totals.inStockItems acc + sumQ (map snd (filter (activeLine c f) l))
  /\ Totals.heldItemsCount (fold_left (aggregateStep c f) l acc)
    == Totals.heldItemsCount acc + sumQ (map snd (filter (heldLine c f) l)).
Proof.
  revert acc. induction l as [|e l IH]; intro acc; simpl.
  - repeat split; ring.
  - destruct (IH (aggregateStep c f acc e)) as (Ht & Hi & Hh).
    rewrite Ht, Hi, Hh.
    rewrite aggregateStep_total, aggregateStep_inStock, aggregateStep_held.
    destruct (activeLine c f e), (heldLine c f e); simpl; repeat split; ring.
Qed.

Lemma aggregate_sums :
  Totals.total (aggregate c f)
    == sumQ (map (lineAmount c f)
                 (filter (activeLine c f) (Obj.entries (orderItems f))))
  /\ Totals.inStockItems (aggregate c f)
    == sumQ (map snd (filter (activeLine c f) (Obj.entries (orderItems f))))
  /\ Totals.heldItemsCount (aggregate c f)
    == sumQ (map snd (filter (heldLine c f) (Obj.entries (orderItems f)))).
Proof.
  unfold aggregate.
  destruct (aggregate_fold (Obj.entries (orderItems f)) Totals.zero)
    as (Ht & Hi & Hh).
  rewrite Ht, Hi, Hh. simpl. repeat split; ring.
Qed.

End Aggregator.

(** C1 (as amended).  Over the lines whose product is in the catalogue and
    whose quantity is positive: the total is the sum of
    price × quantity × (1 − discount/100) over those that are neither held
    nor out of stock, which also give [inStockItems] their quantities; those
    that are held or out of stock give their quantity to [heldItemsCount]
    and to nothing else.  A line whose product is not in the catalogue is
    left out of all three.  One line of 5 at 100 with 10% off and 10 in stock
    gives 450, 5 and 0. *)
Theorem aggregate_sums_catalogue_lines :
  (forall (c : Context) (f : Form),
      let lines := Obj.entries (orderItems f) in
      Totals.total (aggregate c f)
        == sumQ (map (lineAmount c f) (filter (activeLine c f) lines))
      /\ Totals.inStockItems (aggregate c f)
        == sumQ (map snd (filter (activeLine c f) lines))
      /\ Totals.heldItemsCount (aggregate c f)
        == sumQ (map snd (filter (heldLine c f) lines)))
  /\ (let r := aggregate (shop admin [P1 10] [])
                 (newOrderForm [("P1", 5)] [("P1", 10)] [("P1", 100)] []) in
      Totals.total r == 450 /\ Totals.inStockItems r == 5
      /\ Totals.heldItemsCount r == 0).
Proof.
  split.
  - intros c f lines. subst lines. apply aggregate_sums.
  - vm_compute. repeat split.
Qed.

(** C1, as stated, fails: with an empty catalogue the line P1 × 5 is in the
    held set and has a positive quantity, yet [heldItemsCount] is 0. *)
Lemma aggregate_drops_line_without_product :
  let c := shop admin [] [] in
  let f := newOrderForm [("P1", 5)] [] [] ["P1"] in
  Obj.entries (orderItems f) = [("P1", 5)]
  /\ StrSet.has (heldItems f) "P1" = true
  /\ Totals.heldItemsCount (aggregate c f) == 0
  /\ ~ Totals.heldItemsCount (aggregate c f) == 5.
Proof.
  vm_compute. repeat split; intro H; discriminate H.
Qed.

(** ** C4 and C5: the balance fields *)

(** C4.  A number typed into the cheque field is stored there and sets the
    credit balance to max(0, total − amountPaid − chequeBalance); a number
    typed into the amount-paid field is stored there and sets the credit
    balance to max(0, total − chequeBalance − amountPaid); an empty other
    field counts as 0.  With total 1000 and 200 paid, a cheque of 300 gives a
    credit balance of 500. *)
Theorem credit_balance_recomputed_on_edit :
  (forall (o : Order.t) (b : Balances) (x : Q),
      let b' := onChequeBalanceChange o b (Typed (Some x)) in
      editableChequeBalance b' = Some x
      /\ editableAmountPaid b' = editableAmountPaid b
      /\ exists credit,
           editableCreditBalance b' = Some credit
           /\ credit == Qmax 0 (Order.total o - or0 (editableAmountPaid b) - x))
  /\ (forall (o : Order.t) (b : Balances) (x : Q),
      let b' := onAmountPaidChange o b (Typed (Some x)) in
      editableAmountPaid b' = Some x
      /\ editableChequeBalance b' = editableChequeBalance b
      /\ exists credit,
           editableCreditBalance b' = Some credit
           /\ credit == Qmax 0 (Order.total o - or0 (editableChequeBalance b) - x))
  /\ (let o := sampleOrder Pending 1000 [] None in
      let b := openViewModal (Order.mk "ORD001" "C1" None None Pending 1000
                                       [] None None (Some 800)) in
      editableAmountPaid b = Some 200
      /\ exists credit,
           editableCreditBalance (onChequeBalanceChange o b (Typed (Some 300)))
             = Some credit
           /\ credit == 500).
Proof.
  split; [|split].
  - intros o b x b'. subst b'. simpl. repeat split.
    eexists. split; [reflexivity|]. apply pos_or_zero_max.
  - intros o b x b'. subst b'. simpl. repeat split.
    eexists. split; [reflexivity|].
    rewrite pos_or_zero_max. apply Q.max_compat; [reflexivity | ring].
  - split; [reflexivity|]. eexists. split; [reflexivity|]. reflexivity.
Qed.

Lemma pos_or_zero_cases (x : Q) :
  (0 < x /\ pos_or_zero x = x) \/ (x <= 0 /\ pos_or_zero x = 0).
Proof.
  unfold pos_or_zero. destruct (gtb x 0) eqn:E.
  - left. split; [now apply gtb_true | reflexivity].
  - right. split; [now apply gtb_false | reflexivity].
Qed.

(** C5 (as amended).  After a number is typed into the cheque or the
    amount-paid field, amountPaid + chequeBalance + creditBalance equals the
    order total exactly when amountPaid + chequeBalance does not exceed the
    total; when it does, the credit balance is 0 and the three add up to
    more than the total. *)
Theorem balances_add_up_unless_overpaid :
  forall (o : Order.t) (b : Balances) (x : Q) (b' : Balances),
    b' = onChequeBalanceChange o b (Typed (Some x))
    \/ b' = onAmountPaidChange o b (Typed (Some x)) ->
    let paid := or0 (editableAmountPaid b') in
    let cheque := or0 (editableChequeBalance b') in
    let credit := or0 (editableCreditBalance b') in
    (paid + cheque + credit == Order.total o <-> paid + cheque <= Order.total o)
    /\ (Order.total o < paid + cheque ->
        credit == 0 /\ Order.total o < paid + cheque + credit).
Proof.
  intros o b x b' [E | E]; subst b'; simpl.
  - destruct (pos_or_zero_cases
                (Order.total o - or0 (editableAmountPaid b) - x))
      as [[H ->] | [H ->]]; repeat split; intros; lra.
  - destruct (pos_or_zero_cases
                (Order.total o - x - or0 (editableChequeBalance b)))
      as [[H ->] | [H ->]]; repeat split; intros; lra.
Qed.

Lemma balances_add_up_unless_overpaid_witness :
  let o := sampleOrder Pending 1000 [] None in
  let b' := onChequeBalanceChange o (mkBalances (Some 0) (Some 800) (Some 200))
                                  (Typed (Some 300)) in
  or0 (editableAmountPaid b') + or0 (editableChequeBalance b')
    + or0 (editableCreditBalance b') == 1000.
Proof.
  intros o b'.
  destruct (balances_add_up_unless_overpaid o
              (mkBalances (Some 0) (Some 800) (Some 200)) 300 b'
              (or_introl eq_refl)) as [[_ H] _].
  apply H. vm_compute. discriminate.
Defined.

(** C5, as stated, fails: total 1000 with 800 paid, then a cheque of 300 is
    typed in; the credit balance becomes 0 and the three fields add up to
    1100. *)
Lemma balances_exceed_total_when_overpaid :
  let o := sampleOrder Pending 1000 [] None in
  let b' := onChequeBalanceChange o (mkBalances (Some 0) (Some 200) (Some 800))
                                  (Typed (Some 300)) in
  editableAmountPaid b' = Some 800
  /\ editableChequeBalance b' = Some 300
  /\ editableCreditBalance b' = Some 0
  /\ ~ or0 (editableAmountPaid b') + or0 (editableChequeBalance b')
       + or0 (editableCreditBalance b') == Order.total o.
Proof.
  vm_compute. repeat split. intro H. discriminate H.
Qed.

(** ** C6: quantity entry *)

(** C6 (as amended).  For a product of the catalogue and any acting user,
    the quantity stored for a line that is not held and whose product has
    effective stock above 0 is clamp(requested, 0, effectiveStock), hence
    never above the effective stock; for a held line, and for a product
    whose effective stock is 0 (or less), it is max(0, requested). *)
Theorem quantity_clamped_when_in_stock :
  forall (c : Context) (f : Form) (productId : string) (requested : Q)
         (product : Product.t),
    findProduct (products c) productId = Some product ->
    exists stored,
      Obj.get (handleQuantityChange c f productId requested) productId
        = Some stored
      /\ (StrSet.has (heldItems f) productId = false ->
          0 < getEffectiveStock c product ->
          stored == clamp0 requested (getEffectiveStock c product)
          /\ stored <= getEffectiveStock c product)
      /\ (StrSet.has (heldItems f) productId = true
          \/ getEffectiveStock c product <= 0 ->
          stored == Qmax 0 requested).
Proof.
  intros c f pid q p Hp. unfold handleQuantityChange. rewrite Hp.
  eexists. split; [apply get_set_same|]. split.
  - intros Hh Hs. rewrite Hh. apply gtb_true in Hs. rewrite Hs. simpl andb.
    cbv iota. apply gtb_true in Hs.
    assert (E : max0 (min_bound q (Some (getEffectiveStock c p)))
                == clamp0 q (getEffectiveStock c p)).
    { unfold clamp0. rewrite max0_max.
      apply Q.max_compat; [reflexivity | apply min_bound_min]. }
    split; [exact E|]. rewrite E. unfold clamp0.
    apply Q.max_lub; [lra | apply Q.le_min_r].
  - intros [Hh | Hs].
    + rewrite Hh, andb_false_r. simpl. apply max0_max.
    + apply gtb_false in Hs. rewrite Hs. simpl. apply max0_max.
Qed.

Lemma quantity_clamped_when_in_stock_witness :
  exists stored,
    Obj.get (handleQuantityChange (shop admin [P1 10] [])
               (newOrderForm [] [] [] []) "P1" 50) "P1" = Some stored
    /\ stored <= 10.
Proof.
  destruct (quantity_clamped_when_in_stock (shop admin [P1 10] [])
              (newOrderForm [] [] [] []) "P1" 50 (P1 10) eq_refl)
    as (stored & Hget & Hactive & _).
  exists stored. split; [exact Hget|].
  apply Hactive; [reflexivity | vm_compute; reflexivity].
Defined.

(** C6, as stated, fails: P1 has effective stock 0 and is not held; asking
    for 5 stores 5, which is above the stock and is not clamp(5, 0, 0). *)
Lemma quantity_unbounded_when_out_of_stock :
  let c := shop admin [P1 0] [] in
  let f := newOrderForm [] [] [] [] in
  StrSet.has (heldItems f) "P1" = false
  /\ getEffectiveStock c (P1 0) == 0
  /\ Obj.get (handleQuantityChange c f "P1" 5) "P1" = Some 5
  /\ ~ 5 == clamp0 5 (getEffectiveStock c (P1 0))
  /\ getEffectiveStock c (P1 0) < 5.
Proof.
  vm_compute. repeat split; intro H; discriminate H.
Qed.

(** ** C7 and C8: hold and unhold *)

Lemma findIndex_none (productId : string) (l : list OrderItem.t) :
  ~ In productId (map OrderItem.productId l) ->
  findIndex (hasProductId productId) l = None.
Proof.
  induction l as [|x l IH]; simpl; intro H; [reflexivity|].
  unfold hasProductId at 1.
  destruct (String.eqb (OrderItem.productId x) productId) eqn:E.
  - apply String.eqb_eq in E. tauto.
  - rewrite IH; tauto.
Qed.

Lemma findIndex_first (productId : string) (l : list OrderItem.t) :
  In productId (map OrderItem.productId l) ->
  exists pre item post,
    l = (pre ++ item :: post)%list
    /\ OrderItem.productId item = productId
    /\ ~ In productId (map OrderItem.productId pre)
    /\ findIndex (hasProductId productId) l = Some (List.length pre)
    /\ nth_error l (List.length pre) = Some item
    /\ removeAt (List.length pre) l = (pre ++ post)%list.
Proof.
  induction l as [|x l IH]; simpl; intro H; [contradiction|].
  unfold hasProductId at 1.
  destruct (String.eqb (OrderItem.productId x) productId) eqn:E.
  - apply String.eqb_eq in E. exists [], x, l. simpl. tauto.
  - assert (Hin : In productId (map OrderItem.productId l)).
    { destruct H as [H | H]; [|exact H].
      rewrite H, String.eqb_refl in E. discriminate. }
    destruct (IH Hin) as (pre & item & post & -> & Hid & Hpre & Hfi & Hnth & Hrm).
    exists (x :: pre), item, post. simpl. rewrite Hfi, Hnth, Hrm.
    repeat split; auto.
    intros [F | F]; [|tauto].
    rewrite F, String.eqb_refl in E. discriminate.
Qed.

Lemma findIndex_last (productId : string) (l : list OrderItem.t)
    (item : OrderItem.t) :
  ~ In productId (map OrderItem.productId l) ->
  OrderItem.productId item = productId ->
  findIndex (hasProductId productId) (l ++ [item]) = Some (List.length l)
  /\ nth_error (l ++ [item]) (List.length l) = Some item
  /\ removeAt (List.length l) (l ++ [item]) = l.
Proof.
  intros Hl Hid. induction l as [|x l IH]; simpl.
  - unfold hasProductId. rewrite Hid, String.eqb_refl. auto.
  - simpl in Hl. unfold hasProductId at 1.
    destruct (String.eqb (OrderItem.productId x) productId) eqn:E.
    + apply String.eqb_eq in E. tauto.
    + destruct IH as (-> & -> & ->); tauto.
Qed.

Lemma orderTotal_sum (items : list OrderItem.t) :
  orderTotal items == sumQ (map lineSubtotal items).
Proof.
  unfold orderTotal. rewrite fold_left_sum. ring.
Qed.

Lemma sumQ_app (l1 l2 : list Q) : sumQ (l1 ++ l2) == sumQ l1 + sumQ l2.
Proof.
  induction l1 as [|x l1 IH]; simpl; [ring | rewrite IH; ring].
Qed.

Lemma orderTotal_moved_last (pre post : list OrderItem.t) (item : OrderItem.t) :
  orderTotal ((pre ++ post) ++ [item]) == orderTotal (pre ++ item :: post).
Proof.
  rewrite !orderTotal_sum, !map_app, !sumQ_app. simpl. ring.
Qed.

(** C7.  A hold of a product that is not in the active list, an unhold of a
    product that is not in the backordered list, and an unhold of a product
    whose effective stock is 0 all return before any state setter is
    reached: the order on display, with its item lists and total, and the
    order list stay as they were. *)
Theorem invalid_transition_changes_nothing :
  forall (c : Context) (o : Order.t) (productId : string) (action : HoldAction),
    invalidTransition c o productId action ->
    handleToggleHoldInView c (Some o) productId action = None
    /\ toggleHold c (Some o) productId action = (Some o, orders c).
Proof.
  intros c o pid action H.
  assert (E : handleToggleHoldInView c (Some o) pid action = None).
  { unfold handleToggleHoldInView, jsonClone. destruct action; simpl in H.
    - now rewrite (findIndex_none pid (Order.orderItems o) H).
    - destruct (findProduct (products c) pid) as [p|] eqn:Hp; [|reflexivity].
      destruct (eqb_num (getEffectiveStock c p) 0) eqn:Hs; [reflexivity|].
      destruct H as [H | (p' & Hp' & H0)].
      + now rewrite (findIndex_none pid _ H).
      + injection Hp' as <-. apply eqb_num_false in Hs. contradiction. }
  split; [exact E|]. unfold toggleHold. now rewrite E.
Qed.

Lemma invalid_transition_changes_nothing_witness :
  let c := shop admin [P1 0; P2 3] [] in
  let o := sampleOrder Pending 40 [OrderItem.mk "P2" 1 40 None]
             (Some [OrderItem.mk "P1" 5 100 None]) in
  toggleHold c (Some o) "P1" unhold = (Some o, orders c).
Proof.
  intros c o.
  apply (invalid_transition_changes_nothing c o "P1" unhold).
  right. exists (P1 0). split; reflexivity.
Defined.

(** C8 (as amended).  For a product that is in the active list and not in
    the backordered list, in the catalogue with effective stock above 0,
    hold followed by unhold both go through; the first active line of that
    product comes back unchanged, at the end of the active list, and the
    backordered list is as before.  After each of the two transitions the
    total is the sum of price × quantity × (1 − discount/100) over the
    active list of that moment, so the final total is that sum over the
    original active list; it is the total the order had before the hold
    whenever that total was this sum. *)
Theorem hold_then_unhold_restores_line :
  forall (c : Context) (o : Order.t) (productId : string) (product : Product.t),
    In productId (activeIds o) ->
    ~ In productId (heldIds o) ->
    findProduct (products c) productId = Some product ->
    0 < getEffectiveStock c product ->
    exists (pre post : list OrderItem.t) (item : OrderItem.t) (o1 o2 : Order.t),
      Order.orderItems o = (pre ++ item :: post)%list
      /\ OrderItem.productId item = productId
      /\ ~ In productId (map OrderItem.productId pre)
      /\ handleToggleHoldInView c (Some o) productId hold = Some o1
      /\ Order.orderItems o1 = (pre ++ post)%list
      /\ Order.backorderedItems o1
         = Some (nullish (Order.backorderedItems o) [] ++ [item])%list
      /\ Order.total o1 = orderTotal (Order.orderItems o1)
      /\ handleToggleHoldInView c (Some o1) productId unhold = Some o2
      /\ Order.orderItems o2 = ((pre ++ post) ++ [item])%list
      /\ Order.backorderedItems o2
         = Some (nullish (Order.backorderedItems o) [])
      /\ Order.total o2 = orderTotal (Order.orderItems o2)
      /\ orderTotal (Order.orderItems o1)
         == sumQ (map lineSubtotal (Order.orderItems o1))
      /\ orderTotal (Order.orderItems o2)
         == sumQ (map lineSubtotal (Order.orderItems o2))
      /\ Order.total o2 == orderTotal (Order.orderItems o)
      /\ (Order.total o == orderTotal (Order.orderItems o) ->
          Order.total o2 == Order.total o).
Proof.
  intros c o pid p Hact Hheld Hp Hstock.
  destruct (findIndex_first pid (Order.orderItems o) Hact)
    as (pre & item & post & Hsplit & Hid & Hpre & Hfi & Hnth & Hrm).
  destruct (findIndex_last pid (nullish (Order.backorderedItems o) []) item
              Hheld Hid) as (Hfi2 & Hnth2 & Hrm2).
  assert (Hne : eqb_num (getEffectiveStock c p) 0 = false).
  { apply eqb_num_false. intro E. rewrite E in Hstock. discriminate Hstock. }
  set (o1 := Order.with_lines o (pre ++ post)%list
               (Some (nullish (Order.backorderedItems o) [] ++ [item])%list)
               (orderTotal (pre ++ post))).
  set (o2 := Order.with_lines o1 ((pre ++ post) ++ [item])%list
               (Some (nullish (Order.backorderedItems o) []))
               (orderTotal ((pre ++ post) ++ [item]))).
  assert (H1 : handleToggleHoldInView c (Some o) pid hold = Some o1).
  { unfold handleToggleHoldInView, jsonClone. now rewrite Hfi, Hnth, Hrm. }
  assert (H2 : handleToggleHoldInView c (Some o1) pid unhold = Some o2).
  { unfold handleToggleHoldInView, jsonClone. rewrite Hp, Hne.
    subst o1. simpl. now rewrite Hfi2, Hnth2, Hrm2. }
  assert (Ht : Order.total o2 == orderTotal (Order.orderItems o)).
  { subst o2. simpl. rewrite Hsplit. apply orderTotal_moved_last. }
  exists pre, post, item, o1, o2.
  conjs; auto;
    try apply orderTotal_sum.
  intro E. rewrite Ht. symmetry. exact E.
Qed.

Lemma hold_then_unhold_restores_line_witness :
  let c := shop admin [P1 10; P2 3] [] in
  let o := sampleOrder Pending 490
             [OrderItem.mk "P1" 5 100 (Some 10); OrderItem.mk "P2" 1 40 None]
             None in
  exists o1 o2,
    handleToggleHoldInView c (Some o) "P1" hold = Some o1
    /\ handleToggleHoldInView c (Some o1) "P1" unhold = Some o2
    /\ In (OrderItem.mk "P1" 5 100 (Some 10)) (Order.orderItems o2)
    /\ Order.total o2 == 490.
Proof.
  intros c o.
  destruct (hold_then_unhold_restores_line c o "P1" (P1 10))
    as (pre & post & item & o1 & o2 & Hsplit & Hid & Hpre & H1 & _ & _ & _
        & H2 & Hitems & _ & _ & _ & _ & _ & Htot).
  - simpl. auto.
  - simpl. auto.
  - reflexivity.
  - vm_compute. reflexivity.
  - exists o1, o2. split; [exact H1|]. split; [exact H2|]. split.
    + rewrite Hitems. apply in_or_app. right. left.
      destruct pre as [|x pre].
      * simpl in Hsplit. now injection Hsplit as <- _.
      * simpl in Hsplit. injection Hsplit as <- _. simpl in Hpre. tauto.
    + rewrite Htot; [reflexivity | vm_compute; reflexivity].
Defined.

(** C8, as stated, fails: an order holding one line of 5 at 100 with 10% off
    is on record with a total of 999; hold and then unhold of P1 give the
    line back and leave a total of 450. *)
Lemma hold_then_unhold_recomputes_total :
  let c := shop admin [P1 10] [] in
  let line := OrderItem.mk "P1" 5 100 (Some 10) in
  let o := sampleOrder Pending 999 [line] None in
  exists o1 o2,
    handleToggleHoldInView c (Some o) "P1" hold = Some o1
    /\ handleToggleHoldInView c (Some o1) "P1" unhold = Some o2
    /\ Order.orderItems o2 = [line]
    /\ Order.total o2 == 450
    /\ ~ Order.total o2 == Order.total o.
Proof.
  eexists. eexists. split; [reflexivity|]. split; [reflexivity|].
  vm_compute. repeat split. intro H. discriminate H.
Qed.

(** ** C10: an order of backorders only is not created *)

Lemma partitionStep_cases (c : Context) (f : Form)
    (active held : list OrderItem.t) (entry : string * Q) :
  gtb (snd entry) 0 = true ->
  (activeLine c f entry = false
   -> fst (partitionStep c f (active, held) entry) = active)
  /\ (heldLine c f entry = true
      -> exists item, snd (partitionStep c f (active, held) entry)
                      = (held ++ [item])%list)
  /\ (List.length held
      <= List.length (snd (partitionStep c f (active, held) entry)))%nat.
Proof.
  destruct entry as [pid q]. simpl. intro Hq.
  unfold partitionStep, activeLine, heldLine, countedLine, setAside. simpl.
  destruct (findProduct (products c) pid) as [p|]; simpl.
  - rewrite Hq. simpl.
    destruct (StrSet.has (heldItems f) pid || eqb_num (getEffectiveStock c p) 0);
      simpl; repeat split; intros; try discriminate; auto.
    + eexists. reflexivity.
    + rewrite length_app. simpl. lia.
  - repeat split; intros; try discriminate; auto.
Qed.

Lemma partition_fold (c : Context) (f : Form) (l : list (string * Q)) :
  forall active held,
    (forall entry, In entry l -> gtb (snd entry) 0 = true) ->
    ((forall entry, In entry l -> activeLine c f entry = false) ->
     fst (fold_left (partitionStep c f) l (active, held)) = active)
    /\ (List.length held
        <= List.length (snd (fold_left (partitionStep c f) l (active, held))))%nat
    /\ ((exists entry, In entry l /\ heldLine c f entry = true) ->
        (List.length held
         < List.length (snd (fold_left (partitionStep c f) l (active, held))))%nat).
Proof.
  induction l as [|e l IH]; intros active held Hpos; cbn [fold_left].
  - simpl. repeat split; auto. intros (e & [] & _).
  - assert (He : gtb (snd e) 0 = true) by (apply Hpos; now left).
    destruct (partitionStep_cases c f active held e He) as (Ha & Hh & Hlen).
    destruct (partitionStep c f (active, held) e) as [active' held'] eqn:E.
    simpl in Ha, Hh, Hlen.
    destruct (IH active' held' (fun x Hx => Hpos x (or_intror Hx)))
      as (IHa & IHlen & IHh).
    repeat split.
    + intro Hall. rewrite IHa; [|intros x Hx; apply Hall; now right].
      apply Ha. apply Hall. now left.
    + lia.
    + intros (x & [-> | Hx] & Hheld).
      * destruct (Hh Hheld) as (item & ->). rewrite length_app in IHlen.
        simpl in IHlen. lia.
      * assert (List.length held'
                < List.length (snd (fold_left (partitionStep c f) l
                                      (active', held'))))%nat
          by (apply IHh; eauto).
        lia.
Qed.

Lemma onlyBackorders_no_active_line (c : Context) (f : Form) :
  onlyBackorders c f ->
  forall entry, In entry (Obj.entries (orderItems f)) ->
                activeLine c f entry = false.
Proof.
  intros H entry Hin. unfold activeLine.
  destruct (countedLine c entry) eqn:E; [|reflexivity].
  now rewrite (H entry Hin E).
Qed.

Lemma filter_all_false {A : Type} (g : A -> bool) (l : list A) :
  (forall x, In x l -> g x = false) -> filter g l = [].
Proof.
  induction l as [|x l IH]; simpl; intro H; [reflexivity|].
  rewrite (H x (or_introl eq_refl)). apply IH. intros y Hy. apply H. now right.
Qed.

Lemma partitionLines_onlyBackorders (c : Context) (f : Form) :
  onlyBackorders c f ->
  fst (partitionLines c f) = []
  /\ Totals.inStockItems (aggregate c f) == 0
  /\ (0 < Totals.heldItemsCount (aggregate c f) ->
      snd (partitionLines c f) <> []).
Proof.
  intro H. pose proof (onlyBackorders_no_active_line c f H) as Hna.
  destruct (aggregate_sums c f) as (_ & Hin & Hheld).
  set (l := filter (fun entry => gtb (snd entry) 0) (Obj.entries (orderItems f))).
  assert (Hpos : forall entry, In entry l -> gtb (snd entry) 0 = true).
  { intros e He. apply filter_In in He. tauto. }
  destruct (partition_fold c f l [] [] Hpos) as (Ha & _ & Hh).
  repeat split.
  - apply Ha. intros e He. apply filter_In in He. apply Hna. tauto.
  - rewrite Hin, (filter_all_false _ _ Hna). reflexivity.
  - intro Hcount. rewrite Hheld in Hcount.
    assert (Hne : filter (heldLine c f) (Obj.entries (orderItems f)) <> []).
    { intro E. rewrite E in Hcount. discriminate Hcount. }
    destruct (filter (heldLine c f) (Obj.entries (orderItems f)))
      as [|e rest] eqn:E; [congruence|].
    assert (He : In e (filter (heldLine c f) (Obj.entries (orderItems f))))
      by (rewrite E; now left).
    apply filter_In in He. destruct He as [He1 He2].
    assert (Hlt : (List.length (@nil OrderItem.t)
                   < List.length (snd (partitionLines c f)))%nat).
    { apply Hh. exists e. split; [|exact He2]. apply filter_In. split; [exact He1|].
      unfold heldLine, countedLine in He2.
      destruct (findProduct (products c) (fst e)); [|discriminate].
      now apply andb_true_iff in He2. }
    intro E0. rewrite E0 in Hlt. simpl in Hlt. lia.
Qed.

(** C10 (as amended).  In create mode, when every line of the form with a
    positive quantity is held or out of stock, the active list computed by
    the save is empty and the save inserts nothing, writes nothing and
    leaves the form open.  It ends with one alert, except that it returns
    without one when the selected customer is not among the customers.  For
    a selected customer that is among them and a positive held-item count,
    the first guard lets the save through although the in-stock count is 0,
    the backordered list is not empty, and the alert is the one that asks
    for at least one item. *)
Theorem backorder_only_order_is_not_created :
  forall (c : Context) (f : Form) (b : Backend),
    modalState f = create ->
    onlyBackorders c f ->
    let r := handleSaveOrder c f b in
    existsb isInsert (saveEffects r) = false
    /\ filter isWrite (saveEffects r) = []
    /\ modalClosed r = false
    /\ savedOrders r = None
    /\ fst (partitionLines c f) = []
    /\ ((exists message, saveEffects r = [Alert message])
        \/ (findCustomer c f = None /\ saveEffects r = []))
    /\ (forall customer,
          selectedCustomer f <> "" ->
          findCustomer c f = Some customer ->
          0 < Totals.heldItemsCount (aggregate c f) ->
          Totals.inStockItems (aggregate c f) == 0
          /\ (eqb_num (Totals.inStockItems (aggregate c f)) 0
              && eqb_num (Totals.heldItemsCount (aggregate c f)) 0) = false
          /\ snd (partitionLines c f) <> []
          /\ saveEffects r
             = [Alert "Please add at least one item to the order"]).
Proof.
  intros c f b Hmode Hback r.
  destruct (partitionLines_onlyBackorders c f Hback) as (Hact & Hin & Hheld).
  assert (Hcreate : forall customer total,
             let r' := createOrder c f b customer (fst (partitionLines c f))
                         (snd (partitionLines c f)) total in
             (exists message, r' = rejected [Alert message])
             /\ (Customer.id customer <> ""
                 -> r' = rejected
                           [Alert "Please add at least one item to the order"])).
  { intros customer total. rewrite Hact. unfold createOrder. simpl.
    destruct (String.eqb (Customer.id customer) "") eqn:E.
    - split; [eexists; reflexivity|]. apply String.eqb_eq in E. tauto.
    - split; [eexists; reflexivity | reflexivity]. }
  assert (Hguard : 0 < Totals.heldItemsCount (aggregate c f) ->
                   (eqb_num (Totals.inStockItems (aggregate c f)) 0
                    && eqb_num (Totals.heldItemsCount (aggregate c f)) 0)
                   = false).
  { intro Hcount. apply andb_false_iff. right. apply eqb_num_false.
    intro E. rewrite E in Hcount. discriminate Hcount. }
  subst r. unfold handleSaveOrder.
  destruct (String.eqb (selectedCustomer f) "") eqn:Esel; simpl orb; cbv iota.
  { simpl. refine (conj _ (conj _ (conj _ (conj _ (conj _ (conj _ _))))));
      auto.
    - left. eexists. reflexivity.
    - intros customer Hsel. apply String.eqb_eq in Esel. contradiction. }
  destruct (eqb_num (Totals.inStockItems (aggregate c f)) 0
            && eqb_num (Totals.heldItemsCount (aggregate c f)) 0) eqn:Eguard.
  { simpl. refine (conj _ (conj _ (conj _ (conj _ (conj _ (conj _ _))))));
      auto.
    - left. eexists. reflexivity.
    - intros customer _ _ Hcount. specialize (Hguard Hcount).
      discriminate Hguard. }
  destruct (findCustomer c f) as [customer|] eqn:Ecust.
  - destruct (Hcreate customer (Totals.total (aggregate c f)))
      as ((message & Hrej) & Hmsg).
    destruct (partitionLines c f) as [active held] eqn:Epart.
    rewrite Hmode. simpl in Hact, Hheld, Hrej, Hmsg. rewrite Hrej.
    simpl. refine (conj _ (conj _ (conj _ (conj _ (conj _ (conj _ _))))));
      auto.
    + left. eexists. reflexivity.
    + intros cu Hsel Hcu Hcount. injection Hcu as <-.
      assert (Hid : Customer.id customer <> "").
      { unfold findCustomer in Ecust. apply find_some in Ecust.
        destruct Ecust as [_ E]. apply String.eqb_eq in E. congruence. }
      specialize (Hmsg Hid). rewrite Hrej in Hmsg. injection Hmsg as ->.
      repeat split; auto.
  - simpl. refine (conj _ (conj _ (conj _ (conj _ (conj _ (conj _ _))))));
      auto.
    intros customer _ Hcu. discriminate Hcu.
Qed.

Lemma backorder_only_order_is_not_created_witness :
  let c := shop admin [P1 10; P2 0] [] in
  let f := newOrderForm [("P1", 5); ("P2", 2)] [] [] ["P1"] in
  saveEffects (handleSaveOrder c f (mkBackend Succeeds (FetchReturns None) false))
  = [Alert "Please add at least one item to the order"].
Proof.
  intros c f.
  assert (Hback : onlyBackorders c f).
  { intros entry [<- | [<- | []]] _; reflexivity. }
  destruct (backorder_only_order_is_not_created c f (mkBackend Succeeds (FetchReturns None) false)
              eq_refl Hback) as (_ & _ & _ & _ & _ & _ & H).
  apply (H (Customer.mk "C1" "Corner Store")).
  - discriminate.
  - reflexivity.
  - vm_compute. reflexivity.
Defined.

(** C10, as stated, fails: the form holds P1 × 5, held, for a customer id
    that is not among the customers.  The first guard passes, the active
    list is empty and the backordered list is not, nothing is inserted, and
    the save returns without any alert. *)
Lemma save_returns_silently_for_unknown_customer :
  let c := shop admin [P1 10] [] in
  let f := mkForm create None "C9" [("P1", 5)] [] [] ["P1"] "" "" "" in
  let r := handleSaveOrder c f (mkBackend Succeeds (FetchReturns None) false) in
  Totals.inStockItems (aggregate c f) == 0
  /\ Totals.heldItemsCount (aggregate c f) == 5
  /\ fst (partitionLines c f) = []
  /\ snd (partitionLines c f) = [OrderItem.mk "P1" 5 100 None]
  /\ findCustomer c f = None
  /\ saveEffects r = []
  /\ modalClosed r = false.
Proof.
  vm_compute. repeat split.
Qed.

(** ** C2, C3 and C9: finalization *)

Lemma find_first {A : Type} (g : A -> bool) (l : list A) (x : A) :
  find g l = Some x ->
  exists pre post,
    l = (pre ++ x :: post)%list
    /\ (forall y, In y pre -> g y = false)
    /\ g x = true.
Proof.
  induction l as [|y l IH]; simpl; [discriminate|].
  destruct (g y) eqn:E.
  - intros [= ->]. exists [], l. simpl. repeat split; auto. contradiction.
  - intro H. destruct (IH H) as (pre & post & -> & Hpre & Hx).
    exists (y :: pre), post. simpl. repeat split; auto.
    intros z [<- | Hz]; auto.
Qed.

Lemma find_exists {A : Type} (g : A -> bool) (l : list A) (x : A) :
  In x l -> g x = true -> exists y, find g l = Some y.
Proof.
  intros Hin Hx. destruct (find g l) as [y|] eqn:E; [eauto|].
  rewrite (find_none g l E x Hin) in Hx. discriminate.
Qed.

(** C2 (as amended).  When some active line asks for more than the
    effective stock of its product, finalization stops at the first line
    that fails the stock check, and no line before it fails; a line whose
    product is not in the catalogue fails the check as well.  The only
    effect is the insufficient-stock alert for that line: it carries the
    name of the line's product when the product is in the catalogue under a
    name, and says "an item" when the product is not in the catalogue.
    Nothing is written: no stock, order, allocation or customer update is
    issued, and the order list (so every order's status), the allocations
    and the order on display stay as they were. *)
Theorem insufficient_stock_aborts_finalize :
  forall (c : Context) (v : View) (orderToProcess : option Order.t)
         (targetOrder : Order.t) (item : OrderItem.t) (product : Product.t),
    targetOf v orderToProcess = Some targetOrder ->
    In item (Order.orderItems targetOrder) ->
    findProduct (products c) (OrderItem.productId item) = Some product ->
    getEffectiveStock c product < OrderItem.quantity item ->
    let r := handleConfirmFinalize c v orderToProcess in
    exists (pre post : list OrderItem.t) (failing : OrderItem.t),
      Order.orderItems targetOrder = (pre ++ failing :: post)%list
      /\ (forall x, In x pre -> lacksStock c x = false)
      /\ lacksStock c failing = true
      /\ finEffects r = [insufficientStockAlert c failing]
      /\ (forall p,
            findProduct (products c) (OrderItem.productId failing) = Some p ->
            Product.name p <> "" ->
            finEffects r
            = [Alert ("Insufficient stock for " ++ Product.name p
                        ++ ". Cannot finalize order.")])
      /\ (findProduct (products c) (OrderItem.productId failing) = None ->
          finEffects r
          = [Alert "Insufficient stock for an item. Cannot finalize order."])
      /\ filter isWrite (finEffects r) = []
      /\ runEffects (products c) (finEffects r) = products c
      /\ finContext r = c
      /\ viewingOrder (finView r) = viewingOrder v
      /\ isPrintPreviewOpen (finView r) = isPrintPreviewOpen v.
Proof.
  intros c v otp target item p Htarget Hin Hp Hlt r.
  assert (Hlack : lacksStock c item = true).
  { unfold lacksStock. rewrite Hp. now apply gtb_true. }
  destruct (find_exists (lacksStock c) _ item Hin Hlack) as (failing & Hfind).
  destruct (find_first _ _ _ Hfind) as (pre & post & Hsplit & Hpre & Hfail).
  assert (Hr : r = mkFinalizeResult [insufficientStockAlert c failing] c
                     (dismissFinalize v otp)).
  { subst r. unfold handleConfirmFinalize. rewrite Htarget.
    destruct (Order.orderItems target) as [|x rest] eqn:E; [contradiction|].
    now rewrite Hfind. }
  exists pre, post, failing. rewrite Hr. simpl.
  conjs; auto.
  - intros p' Hp' Hname. unfold insufficientStockAlert, productLabel.
    rewrite Hp'. unfold nonEmptyOr.
    destruct (String.eqb (Product.name p') "") eqn:E; [|reflexivity].
    apply String.eqb_eq in E. contradiction.
  - intro Hnone. unfold insufficientStockAlert, productLabel.
    now rewrite Hnone.
  - destruct otp; reflexivity.
  - destruct otp; reflexivity.
Qed.

Lemma insufficient_stock_aborts_finalize_witness :
  let c := shop admin [P1 3] [] in
  let o := sampleOrder Pending 450 [OrderItem.mk "P1" 5 100 (Some 10)] None in
  let v := mkView (Some o) None false in
  exists pre post failing,
    Order.orderItems o = (pre ++ failing :: post)%list
    /\ finEffects (handleConfirmFinalize c v (Some o))
       = [insufficientStockAlert c failing]
    /\ filter isWrite (finEffects (handleConfirmFinalize c v (Some o))) = []
    /\ finContext (handleConfirmFinalize c v (Some o)) = c.
Proof.
  intros c o v.
  destruct (insufficient_stock_aborts_finalize c v (Some o) o
              (OrderItem.mk "P1" 5 100 (Some 10)) (P1 3))
    as (pre & post & failing & Hsplit & _ & _ & Heff & _ & _ & Hw & _ & Hc
        & _).
  - reflexivity.
  - simpl. auto.
  - reflexivity.
  - vm_compute. reflexivity.
  - exists pre, post, failing. auto.
Defined.

(** C2, as stated, fails: the first line is for P9, which is not in the
    catalogue, the second asks for 5 of P2 with 3 in stock.  P2 is the first
    product whose stock is below the quantity asked for, yet the alert does
    not name it: it reports "an item", for the first line. *)
Lemma insufficient_stock_alert_for_missing_product :
  let c := shop admin [P2 3] [] in
  let o := sampleOrder Pending 240
             [OrderItem.mk "P9" 1 40 None; OrderItem.mk "P2" 5 40 None] None in
  let r := handleConfirmFinalize c (mkView (Some o) None false) (Some o) in
  findProduct (products c) "P9" = None
  /\ findProduct (products c) "P2" = Some (P2 3)
  /\ getEffectiveStock c (P2 3) < 5
  /\ finEffects r
     = [Alert "Insufficient stock for an item. Cannot finalize order."]
  /\ finEffects r
     <> [Alert "Insufficient stock for Sugar 1kg. Cannot finalize order."].
Proof.
  vm_compute. repeat split. intro H. discriminate H.
Qed.

Lemma applyEffect_other (table : list Product.t) (e : Effect) :
  isStockWrite e = false -> applyEffect table e = table.
Proof. destruct e; simpl; intro H; try reflexivity; discriminate. Qed.

Lemma runEffects_app (table : list Product.t) (es1 es2 : list Effect) :
  runEffects table (es1 ++ es2) = runEffects (runEffects table es1) es2.
Proof. apply fold_left_app. Qed.

Lemma runEffects_stock_writes (es : list Effect) (table : list Product.t) :
  runEffects table es = runEffects table (filter isStockWrite es).
Proof.
  revert table. induction es as [|e es IH]; intro table; simpl; [reflexivity|].
  destruct (isStockWrite e) eqn:E; simpl.
  - apply IH.
  - rewrite (applyEffect_other table e E). apply IH.
Qed.

Lemma deductStock_all_stock_writes (c : Context) (items : list OrderItem.t) :
  filter isStockWrite (flat_map (deductLine c) items)
  = flat_map (deductLine c) items.
Proof.
  induction items as [|x items IH]; simpl; [reflexivity|].
  rewrite filter_app, IH. f_equal. unfold deductLine.
  destruct (findProduct (products c) (OrderItem.productId x)); [|reflexivity].
  destruct (geb _ _); reflexivity.
Qed.

Lemma syncAllocation_no_stock_write (c : Context) (o : Order.t) :
  filter isStockWrite (fst (syncAllocation c o)) = [].
Proof.
  unfold syncAllocation. destruct (allocationToSync c); reflexivity.
Qed.

Lemma finalize_carried_out (c : Context) (v : View)
    (orderToProcess : option Order.t) (o : Order.t) :
  targetOf v orderToProcess = Some o ->
  passesChecks c o ->
  let r := handleConfirmFinalize c v orderToProcess in
  finEffects r
  = ([OrdersSetDelivered (Order.id o) (Some (soldQty (Order.orderItems o)))]
       ++ fst (syncAllocation c o)
       ++ deductStock c o
       ++ [OrdersSetDelivered (Order.id o) None;
           customerTotals c (Order.with_status o Delivered)]
       ++ (if negb (OrderStatus_eqb (Order.status o) Delivered)
           then [RefreshData] else []))%list
  /\ driverAllocations (finContext r) = snd (syncAllocation c o)
  /\ orders (finContext r)
     = replaceOrder (Order.with_status o Delivered) (orders c)
  /\ products (finContext r) = products c
  /\ viewingOrder (finView r) = Some (Order.with_status o Delivered).
Proof.
  intros Ht [Hne Hfind] r. subst r. unfold handleConfirmFinalize.
  rewrite Ht, Hfind.
  destruct (Order.orderItems o) as [|x rest] eqn:E; [congruence|].
  destruct (syncAllocation c o) as [es allocs].
  destruct orderToProcess; simpl; repeat split; rewrite ?E; reflexivity.
Qed.

Lemma finalize_stock_writes (c : Context) (v : View)
    (orderToProcess : option Order.t) (o : Order.t) :
  targetOf v orderToProcess = Some o ->
  filter isStockWrite (finEffects (handleConfirmFinalize c v orderToProcess))
  = match Order.orderItems o, find (lacksStock c) (Order.orderItems o) with
    | _ :: _, None => deductStock c o
    | _, _ => []
    end.
Proof.
  intro Ht.
  destruct (Order.orderItems o) as [|x rest] eqn:E.
  - unfold handleConfirmFinalize. rewrite Ht, E. reflexivity.
  - destruct (find (lacksStock c) (x :: rest)) as [bad|] eqn:Hfind.
    + unfold handleConfirmFinalize. rewrite Ht, E, Hfind. reflexivity.
    + assert (Hp : passesChecks c o).
      { split; rewrite E; [discriminate | exact Hfind]. }
      destruct (finalize_carried_out c v orderToProcess o Ht Hp) as (-> & _).
      simpl. rewrite !filter_app, syncAllocation_no_stock_write. simpl.
      assert (Hd : filter isStockWrite (deductStock c o) = deductStock c o).
      { unfold deductStock. destruct (negb _); [|reflexivity].
        apply deductStock_all_stock_writes. }
      rewrite Hd.
      destruct (negb (OrderStatus_eqb (Order.status o) Delivered)); simpl;
        now rewrite app_nil_r.
Qed.

Lemma findProduct_map (g : Product.t -> Product.t) (table : list Product.t)
    (id : string) :
  (forall p, Product.id (g p) = Product.id p) ->
  findProduct (map g table) id = option_map g (findProduct table id).
Proof.
  intro Hg. unfold findProduct.
  induction table as [|p table IH]; simpl; [reflexivity|].
  rewrite Hg. destruct (String.eqb (Product.id p) id); [reflexivity | exact IH].
Qed.

Lemma findProduct_id (table : list Product.t) (id : string) (p : Product.t) :
  findProduct table id = Some p -> Product.id p = id.
Proof.
  intro H. apply find_some in H. destruct H as [_ H].
  now apply String.eqb_eq.
Qed.

Lemma warehouseStock_update (table : list Product.t) (id id' : string)
    (s : Q) :
  warehouseStock (applyEffect table (ProductsUpdateStock id s)) id'
  = if String.eqb id' id
    then option_map (fun _ => s) (warehouseStock table id')
    else warehouseStock table id'.
Proof.
  unfold warehouseStock. simpl. rewrite findProduct_map.
  - destruct (findProduct table id') as [p|] eqn:Hp; simpl.
    + rewrite (findProduct_id table id' p Hp).
      destruct (String.eqb id' id); reflexivity.
    + destruct (String.eqb id' id); reflexivity.
  - intro p. destruct (String.eqb (Product.id p) id); reflexivity.
Qed.

Lemma runEffects_one (table : list Product.t) (e : Effect) :
  runEffects table [e] = applyEffect table e.
Proof. reflexivity. Qed.

Lemma deductLine_untouched (c : Context) (items : list OrderItem.t) :
  forall (table : list Product.t) (id : string),
    ~ In id (map OrderItem.productId items) ->
    warehouseStock (runEffects table (flat_map (deductLine c) items)) id
    = warehouseStock table id.
Proof.
  induction items as [|x items IH]; intros table id Hid; simpl;
    [reflexivity|].
  simpl in Hid. unfold runEffects. rewrite fold_left_app.
  fold (runEffects table (deductLine c x)).
  fold (runEffects (runEffects table (deductLine c x))
                   (flat_map (deductLine c) items)).
  rewrite IH by tauto.
  unfold deductLine.
  destruct (findProduct (products c) (OrderItem.productId x)); [|reflexivity].
  destruct (geb _ _); [|reflexivity].
  rewrite runEffects_one, warehouseStock_update.
  destruct (String.eqb id (OrderItem.productId x)) eqn:E; [|reflexivity].
  apply String.eqb_eq in E. subst id. tauto.
Qed.

Lemma deductLine_other (c : Context) (x : OrderItem.t)
    (table : list Product.t) (id : string) :
  id <> OrderItem.productId x ->
  warehouseStock (runEffects table (deductLine c x)) id
  = warehouseStock table id.
Proof.
  intro Hid. unfold deductLine.
  destruct (findProduct (products c) (OrderItem.productId x)); [|reflexivity].
  destruct (geb _ _); [|reflexivity].
  rewrite runEffects_one, warehouseStock_update.
  destruct (String.eqb id (OrderItem.productId x)) eqn:E; [|reflexivity].
  apply String.eqb_eq in E. contradiction.
Qed.

Lemma deduct_line_by_line (c : Context) (items : list OrderItem.t) :
  NoDup (map OrderItem.productId items) ->
  forall (table : list Product.t) (item : OrderItem.t) (p : Product.t),
    In item items ->
    findProduct (products c) (OrderItem.productId item) = Some p ->
    warehouseStock table (OrderItem.productId item) = Some (Product.stock p) ->
    warehouseStock (runEffects table (flat_map (deductLine c) items))
                   (OrderItem.productId item)
    = Some (stockAfterLine p (OrderItem.quantity item)).
Proof.
  induction items as [|x items IH]; intros Hnd table item p Hin Hp Htable;
    [contradiction|].
  inversion Hnd as [|? ? Hx Hnd']; subst.
  cbn [flat_map]. rewrite runEffects_app.
  destruct Hin as [<- | Hin].
  - rewrite deductLine_untouched by exact Hx.
    unfold deductLine, stockAfterLine. rewrite Hp.
    destruct (geb (Product.stock p) (OrderItem.quantity x)).
    + rewrite runEffects_one, warehouseStock_update, String.eqb_refl, Htable.
      reflexivity.
    + exact Htable.
  - apply IH; auto.
    rewrite deductLine_other; [exact Htable|].
    intro E. apply Hx. rewrite <- E. now apply in_map.
Qed.

Lemma passed_line_in_catalogue (c : Context) (items : list OrderItem.t)
    (item : OrderItem.t) :
  find (lacksStock c) items = None ->
  In item items ->
  exists p,
    findProduct (products c) (OrderItem.productId item) = Some p
    /\ OrderItem.quantity item <= getEffectiveStock c p.
Proof.
  intros Hfind Hin.
  pose proof (find_none _ _ Hfind item Hin) as H. unfold lacksStock in H.
  destruct (findProduct (products c) (OrderItem.productId item)) as [p|];
    [|discriminate].
  exists p. split; [reflexivity|]. unfold ltb in H. now apply gtb_false in H.
Qed.

Lemma replaceOrder_same_id (updated o' : Order.t) (prev : list Order.t) :
  In o' (replaceOrder updated prev) ->
  Order.id o' = Order.id updated ->
  o' = updated.
Proof.
  unfold replaceOrder. intros Hin Hid. apply in_map_iff in Hin.
  destruct Hin as (o & Ho & _).
  destruct (String.eqb (Order.id o) (Order.id updated)) eqn:E.
  - now symmetry.
  - subst o'. rewrite Hid, String.eqb_refl in E. discriminate.
Qed.

(** C3 (as amended).  A finalization of an order that is already Delivered
    issues no stock write and leaves the products table as it is.  A
    finalization that is carried out puts the order on display, and in the
    order list, with status Delivered; finalizing that order again, whatever
    the state of the page by then, issues no stock write, so the two calls
    leave the table as the first one alone does.  When the order was not
    Delivered before the first call and names each product once, every
    line's quantity has then been taken from its product's warehouse stock at
    most once: exactly once when the warehouse holds the quantity, which the
    stock check has established for every role but Driver, and not at all
    when it does not. *)
Theorem finalize_deducts_stock_once :
  (forall (c : Context) (v : View) (orderToProcess : option Order.t)
          (o : Order.t),
      targetOf v orderToProcess = Some o ->
      Order.status o = Delivered ->
      filter isStockWrite (finEffects (handleConfirmFinalize c v orderToProcess))
      = []
      /\ forall table,
           runEffects table (finEffects (handleConfirmFinalize c v orderToProcess))
           = table)
  /\ (forall (c : Context) (v : View) (orderToProcess : option Order.t)
             (o : Order.t),
      targetOf v orderToProcess = Some o ->
      passesChecks c o ->
      let r1 := handleConfirmFinalize c v orderToProcess in
      viewingOrder (finView r1) = Some (Order.with_status o Delivered)
      /\ (forall o', In o' (orders (finContext r1)) ->
                     Order.id o' = Order.id o ->
                     Order.status o' = Delivered)
      /\ forall (c' : Context) (v' : View),
           let r2 := handleConfirmFinalize c' v' (viewingOrder (finView r1)) in
           filter isStockWrite (finEffects r2) = []
           /\ (forall table,
                 runEffects table (finEffects r1 ++ finEffects r2)
                 = runEffects table (finEffects r1))
           /\ (Order.status o <> Delivered ->
               NoDup (activeIds o) ->
               forall item,
                 In item (Order.orderItems o) ->
                 exists p,
                   findProduct (products c) (OrderItem.productId item) = Some p
                   /\ warehouseStock
                        (runEffects (products c)
                                    (finEffects r1 ++ finEffects r2))
                        (OrderItem.productId item)
                      = Some (stockAfterLine p (OrderItem.quantity item))
                   /\ (OrderItem.quantity item <= Product.stock p ->
                       stockAfterLine p (OrderItem.quantity item)
                       = Product.stock p - OrderItem.quantity item)
                   /\ (Product.stock p < OrderItem.quantity item ->
                       stockAfterLine p (OrderItem.quantity item)
                       = Product.stock p)
                   /\ (isDriver c = false ->
                       OrderItem.quantity item <= Product.stock p))).
Proof.
  assert (Hdelivered :
            forall c v otp o,
              targetOf v otp = Some o ->
              Order.status o = Delivered ->
              filter isStockWrite (finEffects (handleConfirmFinalize c v otp))
              = []).
  { intros c v otp o Ht Hs. rewrite (finalize_stock_writes c v otp o Ht).
    unfold deductStock. rewrite Hs. simpl.
    destruct (Order.orderItems o); [reflexivity|].
    destruct (find _ _); reflexivity. }
  split.
  - intros c v otp o Ht Hs. split; [now apply (Hdelivered c v otp o)|].
    intro table. rewrite runEffects_stock_writes.
    now rewrite (Hdelivered c v otp o).
  - intros c v otp o Ht Hp r1.
    destruct (finalize_carried_out c v otp o Ht Hp)
      as (Heff & _ & Horders & _ & Hview).
    fold r1 in Heff, Horders, Hview.
    split; [exact Hview|]. split.
    { intros o' Hin Hid. rewrite Horders in Hin.
      now rewrite (replaceOrder_same_id _ o' _ Hin Hid). }
    intros c' v' r2.
    assert (H2 : filter isStockWrite (finEffects r2) = []).
    { subst r2. rewrite Hview.
      now apply (Hdelivered c' v' _ (Order.with_status o Delivered)). }
    assert (Hboth : forall table,
               runEffects table (finEffects r1 ++ finEffects r2)
               = runEffects table (finEffects r1)).
    { intro table. rewrite runEffects_app.
      now rewrite (runEffects_stock_writes (finEffects r2)), H2. }
    split; [exact H2|]. split; [exact Hboth|].
    intros Hs Hnd item Hin. rewrite Hboth.
    destruct Hp as [Hne Hfind].
    destruct (passed_line_in_catalogue c _ item Hfind Hin) as (p & Hfp & Hle).
    exists p. split; [exact Hfp|].
    split; [|split; [|split]].
    + rewrite runEffects_stock_writes.
      subst r1. rewrite (finalize_stock_writes c v otp o Ht), Hfind.
      destruct (Order.orderItems o) as [|x rest] eqn:E; [contradiction|].
      unfold deductStock.
      assert (Hn : negb (OrderStatus_eqb (Order.status o) Delivered) = true).
      { destruct (Order.status o); try reflexivity. congruence. }
      rewrite Hn, E.
      unfold activeIds in Hnd. rewrite E in Hnd.
      apply (deduct_line_by_line c (x :: rest) Hnd (products c) item p Hin Hfp).
      unfold warehouseStock. now rewrite Hfp.
    + intro Hcov. unfold stockAfterLine, geb.
      apply Qle_bool_iff in Hcov. now rewrite Hcov.
    + intro Hlow. unfold stockAfterLine, geb.
      destruct (Qle_bool (OrderItem.quantity item) (Product.stock p)) eqn:E;
        [|reflexivity].
      apply Qle_bool_iff in E. lra.
    + intro Hrole. unfold getEffectiveStock in Hle. now rewrite Hrole in Hle.
Qed.

Lemma finalize_deducts_stock_once_witness :
  let c := shop admin [P1 10; P2 3] [] in
  let o := sampleOrder Pending 490
             [OrderItem.mk "P1" 5 100 (Some 10); OrderItem.mk "P2" 1 40 None]
             None in
  let v := mkView (Some o) None false in
  let r1 := handleConfirmFinalize c v (Some o) in
  let r2 := handleConfirmFinalize (finContext r1) (finView r1)
              (viewingOrder (finView r1)) in
  filter isStockWrite (finEffects r2) = []
  /\ runEffects (products c) (finEffects r1 ++ finEffects r2)
     = runEffects (products c) (finEffects r1)
  /\ exists p,
       findProduct (products c) "P1" = Some p
       /\ warehouseStock (runEffects (products c)
                                     (finEffects r1 ++ finEffects r2)) "P1"
          = Some (stockAfterLine p 5).
Proof.
  intros c o v r1 r2.
  destruct finalize_deducts_stock_once as [_ H].
  destruct (H c v (Some o) o eq_refl) as (_ & _ & H2).
  - split; [discriminate | reflexivity].
  - destruct (H2 (finContext r1) (finView r1)) as (Hnone & Hsame & Hlines).
    split; [exact Hnone|]. split; [apply Hsame|].
    destruct (Hlines ltac:(discriminate)
                     ltac:(repeat constructor; simpl; intuition discriminate)
                     (OrderItem.mk "P1" 5 100 (Some 10)) (or_introl eq_refl))
      as (p & Hp & Hstock & _).
    exists p. split; [exact Hp | exact Hstock].
Defined.

(** C3, as stated, fails: a driver with 5 of P1 allocated for today delivers
    an order of 5 while the warehouse holds 3.  The stock check passes on the
    allocation, the deduction loop skips the line, and after two calls the
    warehouse stock of P1 is still 3: the quantity was deducted not once but
    never. *)
Lemma driver_delivery_deducts_nothing_when_warehouse_short :
  let allocation :=
    DriverAllocation.mk "A1" "U7" "2025-01-15" (Some 0)
      [AllocatedItem.mk "P1" 5] in
  let c := shop driver [P1 3] [allocation] in
  let o := sampleOrder Pending 450 [OrderItem.mk "P1" 5 100 (Some 10)] None in
  let r1 := handleConfirmFinalize c (mkView (Some o) None false) (Some o) in
  let r2 := handleConfirmFinalize (finContext r1) (finView r1)
              (viewingOrder (finView r1)) in
  find (lacksStock c) (Order.orderItems o) = None
  /\ viewingOrder (finView r1) = Some (Order.with_status o Delivered)
  /\ filter isStockWrite (finEffects r1 ++ finEffects r2) = []
  /\ warehouseStock (products c) "P1" = Some 3
  /\ warehouseStock (runEffects (products c) (finEffects r1 ++ finEffects r2))
                    "P1" = Some 3.
Proof.
  vm_compute. repeat split.
Qed.

(** ** C9: the driver's allocation *)

Lemma deductStock_filtered (f : Effect -> bool) (c : Context) (o : Order.t) :
  (forall pid stock, f (ProductsUpdateStock pid stock) = false) ->
  filter f (deductStock c o) = [].
Proof.
  intro Hf. unfold deductStock. destruct (negb _); [|reflexivity].
  induction (Order.orderItems o) as [|x l IH]; [reflexivity|].
  cbn [flat_map]. rewrite filter_app, IH, app_nil_r. unfold deductLine.
  destruct (findProduct _ _); [|reflexivity].
  destruct (geb _ _); [|reflexivity].
  cbn [filter]. now rewrite Hf.
Qed.

Lemma ownTodayb_spec (c : Context) (u : User.t) (a : DriverAllocation.t) :
  ownTodayb c u a = true <-> ownToday c u a.
Proof.
  unfold ownTodayb, ownToday. rewrite andb_true_iff, !String.eqb_eq. tauto.
Qed.

Lemma todaysAllocation_first (c : Context) (u : User.t)
    (allocation : DriverAllocation.t) :
  firstOwnToday c u allocation <-> todaysAllocation c u = Some allocation.
Proof.
  unfold todaysAllocation. fold (ownTodayb c u). split.
  - intros (Hown & pre & post & -> & Hpre).
    induction pre as [|x pre IH]; cbn [app find].
    + apply ownTodayb_spec in Hown. now rewrite Hown.
    + destruct (ownTodayb c u x) eqn:E.
      * apply ownTodayb_spec in E. destruct (Hpre x); [now left | exact E].
      * apply IH. intros a Ha. apply Hpre. now right.
  - intro H. destruct (find_first _ _ _ H) as (pre & post & Hl & Hpre & Hx).
    split; [now apply ownTodayb_spec|].
    exists pre, post. split; [exact Hl|].
    intros a Ha Hown. apply ownTodayb_spec in Hown.
    rewrite (Hpre a Ha) in Hown. discriminate.
Qed.

Lemma todaysAllocation_none (c : Context) (u : User.t) :
  noneOwnToday c u <-> todaysAllocation c u = None.
Proof.
  unfold todaysAllocation. fold (ownTodayb c u). split.
  - intro H. destruct (find (ownTodayb c u) (driverAllocations c)) as [a|] eqn:E;
      [|reflexivity].
    apply find_some in E. destruct E as [Hin E].
    apply ownTodayb_spec in E. destruct (H a Hin E).
  - intros H a Hin Hown. apply ownTodayb_spec in Hown.
    rewrite (find_none _ _ H a Hin) in Hown. discriminate.
Qed.

(** C9.  When a driver finalizes an order and the finalization is carried
    out, the allocation that is updated is the driver's own for today: the
    first record of the list of allocations with the driver's id and
    today's date, whatever records of other drivers or of other days the
    list holds.  One allocation update is issued, for the id of that record,
    and applied to the local allocations; records with another id stay as
    they are.  Its salesTotal is the old one plus the sum of the delivered
    quantities.  Each allocated entry whose product has an active line gets
    max(0, quantity − delivered quantity), the delivered quantity being that
    of the product's (first) active line; an entry without such a line is
    unchanged; and the new allocated items are exactly those resulting
    entries whose quantity is above 0, in the old order. *)
Theorem driver_allocation_decremented :
  forall (c : Context) (v : View) (orderToProcess : option Order.t)
         (o : Order.t) (u : User.t) (allocation : DriverAllocation.t),
    currentUser c = Some u ->
    User.role u = Driver ->
    firstOwnToday c u allocation ->
    targetOf v orderToProcess = Some o ->
    passesChecks c o ->
    let r := handleConfirmFinalize c v orderToProcess in
    exists (newSalesTotal : Q) (newItems : list AllocatedItem.t),
      In (DriverAllocationsUpdate (DriverAllocation.id allocation)
                                  newSalesTotal newItems) (finEffects r)
      /\ filter isAllocationUpdate (finEffects r)
         = [DriverAllocationsUpdate (DriverAllocation.id allocation)
                                    newSalesTotal newItems]
      /\ DriverAllocation.driverId allocation = User.id u
      /\ DriverAllocation.date allocation = today c
      /\ (forall a, In a (driverAllocations (finContext r)) ->
                    DriverAllocation.id a = DriverAllocation.id allocation ->
                    DriverAllocation.salesTotal a = Some newSalesTotal
                    /\ DriverAllocation.allocatedItems a = newItems)
      /\ (forall a, In a (driverAllocations c) ->
                    DriverAllocation.id a <> DriverAllocation.id allocation ->
                    In a (driverAllocations (finContext r)))
      /\ newSalesTotal
         == or0 (DriverAllocation.salesTotal allocation)
            + sumQ (map OrderItem.quantity (Order.orderItems o))
      /\ (forall b,
            In b newItems <->
            exists a,
              In a (DriverAllocation.allocatedItems allocation)
              /\ b = deliverAllocated (Order.orderItems o) a
              /\ 0 < AllocatedItem.quantity b)
      /\ (forall a,
            AllocatedItem.productId (deliverAllocated (Order.orderItems o) a)
            = AllocatedItem.productId a
            /\ match deliveredLine o (AllocatedItem.productId a) with
               | Some delivered =>
                   AllocatedItem.quantity
                     (deliverAllocated (Order.orderItems o) a)
                   == Qmax 0 (AllocatedItem.quantity a
                              - OrderItem.quantity delivered)
               | None => deliverAllocated (Order.orderItems o) a = a
               end).
Proof.
  intros c v otp o u allocation Hu Hrole Hfirst Ht Hp r.
  assert (Halloc : todaysAllocation c u = Some allocation)
    by now apply todaysAllocation_first.
  destruct Hfirst as ((Hdriver & Hdate) & _).
  destruct (finalize_carried_out c v otp o Ht Hp) as (Heff & Hallocs & _).
  fold r in Heff, Hallocs.
  assert (Hsync : allocationToSync c = Some allocation).
  { unfold allocationToSync. rewrite Hu, Hrole. simpl.
    unfold todaysAllocation in Halloc.
    destruct (driverAllocations c) eqn:E; [discriminate|].
    simpl Nat.eqb. simpl negb. cbv iota.
    unfold todaysAllocation. now rewrite E. }
  unfold syncAllocation in Heff, Hallocs. rewrite Hsync in Heff, Hallocs.
  simpl in Heff, Hallocs.
  exists (or0 (DriverAllocation.salesTotal allocation)
          + soldQty (Order.orderItems o)),
         (updatedAllocatedItems allocation (Order.orderItems o)).
  split; [rewrite Heff; right; left; reflexivity|].
  split.
  { rewrite Heff. cbn [filter isAllocationUpdate]. f_equal.
    rewrite filter_app, deductStock_filtered by reflexivity.
    destruct (negb (OrderStatus_eqb (Order.status o) Delivered)); reflexivity. }
  split; [exact Hdriver|]. split; [exact Hdate|].
  split.
  { intros a Hin Hid. rewrite Hallocs in Hin. apply in_map_iff in Hin.
    destruct Hin as (a0 & Ha0 & _).
    destruct (String.eqb (DriverAllocation.id a0)
                         (DriverAllocation.id allocation)) eqn:E.
    - subst a. simpl. auto.
    - subst a. rewrite Hid, String.eqb_refl in E. discriminate. }
  split.
  { intros a Hin Hid. rewrite Hallocs. apply in_map_iff. exists a.
    split; [|exact Hin].
    destruct (String.eqb (DriverAllocation.id a)
                         (DriverAllocation.id allocation)) eqn:E;
      [|reflexivity].
    apply String.eqb_eq in E. contradiction. }
  split.
  { unfold soldQty. rewrite fold_left_sum. ring. }
  split.
  { intro b. unfold updatedAllocatedItems. rewrite filter_In, in_map_iff.
    rewrite gtb_true. split.
    - intros [(a & <- & Ha) Hq]. exists a. auto.
    - intros (a & Ha & -> & Hq). split; [eauto | exact Hq]. }
  intro a. unfold deliverAllocated, deliveredLine.
  destruct (find _ (Order.orderItems o)) as [d|]; simpl.
  - split; [reflexivity | apply pos_or_zero_max].
  - split; reflexivity.
Qed.

Lemma driver_allocation_decremented_witness :
  let other :=
    DriverAllocation.mk "A0" "U8" "2024-12-31" (Some 7)
      [AllocatedItem.mk "P1" 99] in
  let allocation :=
    DriverAllocation.mk "A1" "U7" "2025-01-15" (Some 4)
      [AllocatedItem.mk "P1" 5; AllocatedItem.mk "P2" 9] in
  let c := shop driver [P1 10; P2 3] [other; allocation] in
  let o := sampleOrder Pending 490
             [OrderItem.mk "P1" 5 100 (Some 10); OrderItem.mk "P2" 1 40 None]
             None in
  exists newSalesTotal newItems,
    In (DriverAllocationsUpdate "A1" newSalesTotal newItems)
       (finEffects (handleConfirmFinalize c (mkView (Some o) None false)
                                          (Some o)))
    /\ newSalesTotal == 10.
Proof.
  intros other allocation c o.
  destruct (driver_allocation_decremented c (mkView (Some o) None false)
              (Some o) o driver allocation eq_refl eq_refl)
    as (total & items & Hin & _ & _ & _ & _ & _ & Htotal & _).
  - split; [split; reflexivity|]. exists [other], []. split; [reflexivity|].
    intros a [<- | []] [H _]. discriminate H.
  - reflexivity.
  - split; [discriminate | reflexivity].
  - exists total, items. split; [exact Hin|]. rewrite Htotal. reflexivity.
Defined.

(** * Further properties of the page *)

(** ** Order ids *)

Lemma substring_whole (s : string) : String.substring 0 (String.length s) s = s.
Proof. induction s as [|ch s IH]; simpl; [reflexivity | now rewrite IH]. Qed.

Lemma removeFirst_ORD (s : string) : removeFirst "ORD" ("ORD" ++ s) = s.
Proof.
  destruct s as [|ch s]; [reflexivity|].
  cbn. f_equal. apply substring_whole.
Qed.

Lemma readDigits_step (ch : ascii) (rest : string) (acc v : Z) :
  digitValue ch = Some v ->
  readDigits (String ch rest) acc = readDigits rest (10 * acc + v)%Z.
Proof. intro H. cbn [readDigits]. now rewrite H. Qed.

Lemma readDigits_uint_acc (d : Decimal.uint) (p : positive) :
  readDigits (NilEmpty.string_of_uint d) (Z.pos p)
  = Z.pos (Pos.of_uint_acc d p).
Proof.
  revert p. induction d; intro p; cbn [NilEmpty.string_of_uint Pos.of_uint_acc];
    try reflexivity;
    (erewrite readDigits_step; [|vm_compute; reflexivity]);
    rewrite <- IHd; f_equal; lia.
Qed.

Lemma readDigits_uint (d : Decimal.uint) :
  readDigits (NilEmpty.string_of_uint d) 0 = Z.of_N (Pos.of_uint d).
Proof.
  induction d; cbn [NilEmpty.string_of_uint Pos.of_uint]; try reflexivity;
    (erewrite readDigits_step; [|vm_compute; reflexivity]);
    try exact IHd;
    apply readDigits_uint_acc.
Qed.

Lemma allDigits_uint (d : Decimal.uint) :
  allDigits (NilEmpty.string_of_uint d) = true.
Proof. induction d; cbn; auto. Qed.

Lemma toString_positive (p : positive) :
  let s := NilZero.string_of_int (Z.to_int (Z.pos p)) in
  allDigits s = true /\ s <> "" /\ readDigits s 0 = Z.pos p.
Proof.
  cbn [Z.to_int NilZero.string_of_int]. unfold NilZero.string_of_uint.
  pose proof (Unsigned.of_to p) as Hp.
  destruct (Pos.to_uint p) eqn:E; try discriminate Hp;
    (split; [apply allDigits_uint|]; split; [discriminate|];
     rewrite readDigits_uint, Hp; reflexivity).
Qed.

Lemma readDigits_zeros (k : nat) (s : string) :
  readDigits (zeros k ++ s) 0 = readDigits s 0.
Proof. induction k as [|k IH]; [reflexivity | exact IH]. Qed.

Lemma allDigits_zeros (k : nat) (s : string) :
  allDigits s = true -> allDigits (zeros k ++ s) = true.
Proof. intro H. induction k as [|k IH]; [exact H | exact IH]. Qed.

Lemma zeros_app_nonempty (k : nat) (s : string) :
  s <> "" -> (zeros k ++ s) <> "".
Proof. intro H. destruct k; [exact H | discriminate]. Qed.

Lemma parseInt_digits (s : string) :
  allDigits s = true -> s <> "" -> parseInt s = Some (readDigits s 0).
Proof.
  intros Hd Hne. destruct s as [|ch s]; [congruence|].
  cbn [allDigits] in Hd. unfold parseInt.
  destruct (digitValue ch) as [v|] eqn:Ev; [|discriminate].
  assert (Hws : isWhiteSpace ch = false).
  { unfold digitValue in Ev. unfold isWhiteSpace.
    destruct ((48 <=? N_of_ascii ch) && (N_of_ascii ch <=? 57))%N eqn:E;
      [|discriminate].
    apply andb_true_iff in E. destruct E as [E1 E2].
    apply N.leb_le in E1. apply N.leb_le in E2.
    apply orb_false_iff. split.
    - apply orb_false_iff. split; apply N.eqb_neq; lia.
    - apply andb_false_iff. right. apply N.leb_gt. lia. }
  cbn [skipWhiteSpace]. rewrite Hws.
  assert (Hsign : ch <> "-"%char /\ ch <> "+"%char).
  { split; intro E; subst ch; discriminate Ev. }
  destruct Hsign as [Hm Hp].
  assert (Hcase :
            match String ch s with
            | String "-"%char rest => (true, rest)
            | String "+"%char rest => (false, rest)
            | _ => (false, String ch s)
            end = (false, String ch s)).
  { destruct ch as [[] [] [] [] [] [] [] []]; try reflexivity; congruence. }
  rewrite Hcase. cbn [startsWithDigit]. now rewrite Ev.
Qed.

Lemma maxIdNum_fold_bounds (os : list Order.t) (start : Z) :
  let step := fun (max : Z) (order : Order.t) =>
                match parseInt (removeFirst "ORD" (Order.id order)) with
                | Some n => if (max <? n)%Z then n else max
                | None => max
                end in
  (start <= fold_left step os start)%Z
  /\ forall o n, In o os ->
                 parseInt (removeFirst "ORD" (Order.id o)) = Some n ->
                 (n <= fold_left step os start)%Z.
Proof.
  intro step. revert start. induction os as [|x os IH]; intro start; cbn.
  - split; [lia | contradiction].
  - destruct (IH (step start x)) as [Hge Hall].
    assert (Hstep : (start <= step start x)%Z).
    { unfold step. destruct (parseInt _) as [n|]; [|lia].
      destruct (start <? n)%Z eqn:E; [apply Z.ltb_lt in E|]; lia. }
    split; [lia|].
    intros o n [<- | Hin] Hparse.
    + assert (n <= step start x)%Z.
      { unfold step. rewrite Hparse.
        destruct (start <? n)%Z eqn:E; [lia | apply Z.ltb_ge in E; lia]. }
      lia.
    + now apply (Hall o n).
Qed.

Lemma maxIdNum_bounds (os : list Order.t) :
  (0 <= maxIdNum os)%Z
  /\ forall o n, In o os ->
                 parseInt (removeFirst "ORD" (Order.id o)) = Some n ->
                 (n <= maxIdNum os)%Z.
Proof. apply (maxIdNum_fold_bounds os 0). Qed.

Lemma nextOrderId_number (os : list Order.t) :
  parseInt (removeFirst "ORD" (nextOrderId os)) = Some (maxIdNum os + 1)%Z.
Proof.
  unfold nextOrderId. rewrite removeFirst_ORD. unfold padStart3.
  destruct (maxIdNum_bounds os) as [Hge _].
  destruct (maxIdNum os + 1)%Z as [|p|p] eqn:E; try lia.
  destruct (toString_positive p) as (Hd & Hne & Hread).
  rewrite parseInt_digits.
  - now rewrite readDigits_zeros, Hread.
  - now apply allDigits_zeros.
  - now apply zeros_app_nonempty.
Qed.

Lemma maxIdNum_fold_attained (os : list Order.t) (start : Z) :
  let step := fun (max : Z) (order : Order.t) =>
                match parseInt (removeFirst "ORD" (Order.id order)) with
                | Some n => if (max <? n)%Z then n else max
                | None => max
                end in
  fold_left step os start = start
  \/ exists o, In o os
               /\ parseInt (removeFirst "ORD" (Order.id o))
                  = Some (fold_left step os start).
Proof.
  intro step. revert start. induction os as [|x os IH]; intro start; cbn.
  - now left.
  - destruct (IH (step start x)) as [E | (o & Hin & E)].
    + rewrite E. unfold step.
      destruct (parseInt (removeFirst "ORD" (Order.id x))) as [n|] eqn:Hn;
        [|now left].
      destruct (start <? n)%Z; [|now left].
      right. exists x. split; [now left | exact Hn].
    + right. exists o. split; [now right | exact E].
Qed.

Lemma maxIdNum_safe (os : list Order.t) :
  safeIds os -> (maxIdNum os < 2 ^ 53)%Z.
Proof.
  intro Hsafe. destruct (maxIdNum_fold_attained os 0) as [E | (o & Hin & E)].
  - unfold maxIdNum. rewrite E. reflexivity.
  - exact (Hsafe o _ Hin E).
Qed.

(** X1.  Among orders whose ids read as numbers below 2^53 -- the range in
    which the doubles of the source are exact, so that the numbers here are
    the source's -- the id given to a new order reads back, by the page's
    own [parseInt] of what follows "ORD", as one more than the largest
    number read from the ids of the orders at hand (0 when none reads as a
    number).  That number is at most 2^53; it lies above every number read,
    so the new id is the id of no order in the list.  The ids are strings
    of code units below 256, as all strings here. *)
Theorem nextOrderId_is_fresh :
  forall (os : list Order.t),
    safeIds os ->
    parseInt (removeFirst "ORD" (nextOrderId os)) = Some (maxIdNum os + 1)%Z
    /\ (0 <= maxIdNum os)%Z
    /\ (maxIdNum os + 1 <= 2 ^ 53)%Z
    /\ (forall o n, In o os ->
                    parseInt (removeFirst "ORD" (Order.id o)) = Some n ->
                    (n < maxIdNum os + 1)%Z)
    /\ (forall o, In o os -> Order.id o <> nextOrderId os).
Proof.
  intros os Hsafe. destruct (maxIdNum_bounds os) as [Hge Hall].
  pose proof (nextOrderId_number os) as Hnext.
  pose proof (maxIdNum_safe os Hsafe) as Hmax.
  split; [exact Hnext|]. split; [exact Hge|]. split; [lia|]. split.
  - intros o n Hin Hparse. pose proof (Hall o n Hin Hparse). lia.
  - intros o Hin E. rewrite <- E in Hnext.
    pose proof (Hall o _ Hin Hnext). lia.
Qed.

Lemma nextOrderId_is_fresh_witness :
  let os := [sampleOrder Pending 0 [] None;
             Order.mk "ORD041" "C1" None None Pending 0 [] None None None;
             Order.mk "draft" "C1" None None Pending 0 [] None None None] in
  nextOrderId os = "ORD042"
  /\ forall o, In o os -> Order.id o <> nextOrderId os.
Proof.
  intro os. split; [reflexivity|].
  apply (nextOrderId_is_fresh os).
  intros o n [<- | [<- | [<- | []]]] H; vm_compute in H;
    try discriminate H; injection H as <-; reflexivity.
Defined.

(** ** The form's maps and the held set *)

Lemma get_set_other {A : Type} (o : Obj.t A) (k k' : string) (v : A) :
  k' <> k -> Obj.get (Obj.set o k v) k' = Obj.get o k'.
Proof.
  intro Hne. induction o as [|[k0 v0] o IH]; simpl.
  - destruct (String.eqb k k') eqn:E; [|reflexivity].
    apply String.eqb_eq in E. congruence.
  - destruct (String.eqb k0 k) eqn:E; simpl.
    + apply String.eqb_eq in E. subst k0.
      destruct (String.eqb k k') eqn:E'; [|reflexivity].
      apply String.eqb_eq in E'. congruence.
    + destruct (String.eqb k0 k'); [reflexivity | exact IH].
Qed.

Lemma in_set {A : Type} (o : Obj.t A) (k : string) (v : A)
    (entry : string * A) :
  In entry (Obj.set o k v) -> entry = (k, v) \/ In entry o.
Proof.
  induction o as [|[k0 v0] o IH]; simpl.
  - intros [<- | []]. now left.
  - destruct (String.eqb k0 k) eqn:E; simpl.
    + apply String.eqb_eq in E. subst k0. intros [<- | H]; auto.
    + intros [<- | H]; auto. destruct (IH H); auto.
Qed.

Lemma keys_set {A : Type} (o : Obj.t A) (k : string) (v : A) :
  map fst (Obj.set o k v)
  = if existsb (String.eqb k) (map fst o) then map fst o
    else (map fst o ++ [k])%list.
Proof.
  induction o as [|[k0 v0] o IH]; simpl; [reflexivity|].
  rewrite (String.eqb_sym k k0).
  destruct (String.eqb k0 k) eqn:E; simpl; [reflexivity|].
  rewrite IH. destruct (existsb _ _); reflexivity.
Qed.

Lemma set_keeps_keys_distinct {A : Type} (o : Obj.t A) (k : string) (v : A) :
  NoDup (map fst o) -> NoDup (map fst (Obj.set o k v)).
Proof.
  intro H. rewrite keys_set.
  destruct (existsb (String.eqb k) (map fst o)) eqn:E; [exact H|].
  apply NoDup_app; [exact H | repeat constructor; intros [] | ].
  intros x Hx [E' | []]. subst x.
  assert (existsb (String.eqb k) (map fst o) = true).
  { apply existsb_exists. exists k. split; [exact Hx | apply String.eqb_refl]. }
  congruence.
Qed.

Lemma get_in {A : Type} (o : Obj.t A) (k : string) (v : A) :
  Obj.get o k = Some v -> In (k, v) o.
Proof.
  induction o as [|[k0 v0] o IH]; simpl; [discriminate|].
  destruct (String.eqb k0 k) eqn:E.
  - apply String.eqb_eq in E. intros [= <-]. subst. now left.
  - intro H. right. now apply IH.
Qed.

Lemma max0_bounds (x : Q) : 0 <= max0 x /\ (0 <= x -> max0 x = x).
Proof.
  unfold max0. destruct (Qle_bool 0 x) eqn:E.
  - apply Qle_bool_iff in E. split; [exact E | reflexivity].
  - split; [lra|]. intro H. apply Qle_bool_iff in H. congruence.
Qed.

Lemma min_bound_le (x b : Q) :
  min_bound x (Some b) <= b /\ (x <= b -> min_bound x (Some b) = x).
Proof.
  simpl. destruct (Qle_bool x b) eqn:E.
  - apply Qle_bool_iff in E. split; [exact E | reflexivity].
  - split; [lra|]. intro H. apply Qle_bool_iff in H. congruence.
Qed.

(** X2.  Whatever number is asked for, the discount stored for the product
    lies between 0 and 100: it is the number itself when that lies in the
    range, 0 below it and 100 above.  The discounts of the other products
    stay as they were, and a form whose discounts were all percentages
    still has only percentages. *)
Theorem discount_is_a_percentage :
  forall (f : Form) (productId : string) (discount : Q),
    let stored := max0 (min_bound discount (Some 100)) in
    Obj.get (handleDiscountChange f productId discount) productId = Some stored
    /\ 0 <= stored <= 100
    /\ (0 <= discount <= 100 -> stored = discount)
    /\ (discount < 0 -> stored = 0)
    /\ (100 < discount -> stored = 100)
    /\ (forall other, other <> productId ->
          Obj.get (handleDiscountChange f productId discount) other
          = Obj.get (orderDiscounts f) other)
    /\ ((forall k v, In (k, v) (orderDiscounts f) -> 0 <= v <= 100) ->
        forall k v, In (k, v) (handleDiscountChange f productId discount) ->
                    0 <= v <= 100).
Proof.
  intros f pid d stored. unfold handleDiscountChange. fold stored.
  destruct (max0_bounds (min_bound d (Some 100))) as [Hge Hid].
  destruct (min_bound_le d 100) as [Hle Hmin].
  assert (Hrange : 0 <= stored <= 100).
  { split; [exact Hge|]. unfold stored, max0.
    destruct (Qle_bool 0 (min_bound d (Some 100))); [exact Hle | lra]. }
  split; [apply get_set_same|]. split; [exact Hrange|].
  split; [|split; [|split; [|split]]].
  - intros [H0 H100]. unfold stored. rewrite (Hmin H100). apply max0_bounds.
    exact H0.
  - intro Hneg. unfold stored. rewrite Hmin by lra. unfold max0.
    destruct (Qle_bool 0 d) eqn:E; [|reflexivity].
    apply Qle_bool_iff in E. lra.
  - intro Hbig. unfold stored. simpl.
    destruct (Qle_bool d 100) eqn:E; [apply Qle_bool_iff in E; lra|].
    reflexivity.
  - intros other Hne. now apply get_set_other.
  - intros Hall k v Hin. apply in_set in Hin.
    destruct Hin as [[= -> ->] | Hin]; [exact Hrange | now apply (Hall k)].
Qed.

(** X3.  The price stored for the product is never negative: it is the
    number asked for when that is 0 or more, and 0 otherwise.  The prices of
    the other products stay as they were, and a form without a negative
    price still has none. *)
Theorem price_is_never_negative :
  forall (f : Form) (productId : string) (price : Q),
    Obj.get (handlePriceChange f productId price) productId
    = Some (max0 price)
    /\ 0 <= max0 price
    /\ (0 <= price -> max0 price = price)
    /\ (price < 0 -> max0 price = 0)
    /\ (forall other, other <> productId ->
          Obj.get (handlePriceChange f productId price) other
          = Obj.get (orderItemPrices f) other)
    /\ ((forall k v, In (k, v) (orderItemPrices f) -> 0 <= v) ->
        forall k v, In (k, v) (handlePriceChange f productId price) -> 0 <= v).
Proof.
  intros f pid p. unfold handlePriceChange.
  destruct (max0_bounds p) as [Hge Hid].
  split; [apply get_set_same|]. split; [exact Hge|]. split; [exact Hid|].
  split; [|split].
  - intro Hneg. unfold max0. destruct (Qle_bool 0 p) eqn:E; [|reflexivity].
    apply Qle_bool_iff in E. lra.
  - intros other Hne. now apply get_set_other.
  - intros Hall k v Hin. apply in_set in Hin.
    destruct Hin as [[= -> ->] | Hin]; [exact Hge | now apply (Hall k)].
Qed.

Lemma has_delete (s : StrSet.t) (k k' : string) :
  StrSet.has (StrSet.delete s k) k'
  = StrSet.has s k' && negb (String.eqb k k').
Proof.
  unfold StrSet.has, StrSet.delete.
  induction s as [|x s IH]; simpl; [reflexivity|].
  destruct (String.eqb k x) eqn:E; simpl.
  - apply String.eqb_eq in E. subst x. rewrite IH.
    rewrite (String.eqb_sym k' k).
    destruct (String.eqb k k'); simpl; [now rewrite andb_false_r | reflexivity].
  - rewrite IH. destruct (String.eqb k' x) eqn:E'; simpl; [|reflexivity].
    apply String.eqb_eq in E'. subst x. now rewrite E.
Qed.

Lemma has_add (s : StrSet.t) (k k' : string) :
  StrSet.has (StrSet.add s k) k' = StrSet.has s k' || String.eqb k k'.
Proof.
  unfold StrSet.add. destruct (StrSet.has s k) eqn:E.
  - destruct (String.eqb k k') eqn:E'; [|now rewrite orb_false_r].
    apply String.eqb_eq in E'. subst k'. now rewrite E.
  - unfold StrSet.has. rewrite existsb_app. simpl.
    now rewrite orb_false_r, (String.eqb_sym k' k).
Qed.

Lemma has_toggle (f : Form) (k k' : string) :
  StrSet.has (toggleHoldItem f k) k'
  = if String.eqb k k' then negb (StrSet.has (heldItems f) k)
    else StrSet.has (heldItems f) k'.
Proof.
  unfold toggleHoldItem. destruct (StrSet.has (heldItems f) k) eqn:E.
  - rewrite has_delete. destruct (String.eqb k k') eqn:E'; simpl;
      [apply andb_false_r | apply andb_true_r].
  - rewrite has_add. destruct (String.eqb k k') eqn:E'; simpl;
      [apply orb_true_r | apply orb_false_r].
Qed.

(** X4.  The Hold button of the form flips the product between held and not
    held and changes this for no other product; pressed twice, it leaves
    every product as it was. *)
Theorem toggle_hold_flips_one_product :
  forall (f : Form) (productId : string),
    StrSet.has (toggleHoldItem f productId) productId
    = negb (StrSet.has (heldItems f) productId)
    /\ (forall other, other <> productId ->
          StrSet.has (toggleHoldItem f productId) other
          = StrSet.has (heldItems f) other)
    /\ (forall any,
          StrSet.has (toggleHoldItem
                        (withHeldItems f (toggleHoldItem f productId))
                        productId) any
          = StrSet.has (heldItems f) any).
Proof.
  intros f pid. split; [|split].
  - now rewrite has_toggle, String.eqb_refl.
  - intros other Hne. rewrite has_toggle.
    destruct (String.eqb pid other) eqn:E; [|reflexivity].
    apply String.eqb_eq in E. congruence.
  - intro any. rewrite has_toggle. cbn [withHeldItems heldItems].
    rewrite !has_toggle, String.eqb_refl.
    destruct (String.eqb pid any) eqn:E.
    + apply String.eqb_eq in E. subst any. apply negb_involutive.
    + reflexivity.
Qed.

(** X5.  A change of quantity touches the line of that product only: the
    other quantities stay, the keys of the map stay distinct, no quantity
    becomes negative, and a product that is not in the catalogue leaves the
    map as it is. *)
Theorem quantity_change_touches_one_line :
  forall (c : Context) (f : Form) (productId : string) (quantity : Q),
    let items := handleQuantityChange c f productId quantity in
    (forall other, other <> productId ->
       Obj.get items other = Obj.get (orderItems f) other)
    /\ (NoDup (map fst (orderItems f)) -> NoDup (map fst items))
    /\ ((forall k v, In (k, v) (orderItems f) -> 0 <= v) ->
        forall k v, In (k, v) items -> 0 <= v)
    /\ (findProduct (products c) productId = None -> items = orderItems f).
Proof.
  intros c f pid q items. subst items. unfold handleQuantityChange.
  destruct (findProduct (products c) pid) as [p|].
  - split; [|split; [|split]].
    + intros other Hne. now apply get_set_other.
    + apply set_keeps_keys_distinct.
    + intros Hall k v Hin. apply in_set in Hin.
      destruct Hin as [[= -> ->] | Hin]; [apply max0_bounds | now apply (Hall k)].
    + discriminate.
  - repeat split; auto.
Qed.

(** ** What a save writes *)

Lemma partitionStep_line (c : Context) (f : Form)
    (active held : list OrderItem.t) (entry : string * Q) :
  gtb (snd entry) 0 = true ->
  partitionStep c f (active, held) entry
  = ((active ++ (if activeLine c f entry
                 then [savedLine c f true entry] else []))%list,
     (held ++ (if heldLine c f entry
               then [savedLine c f false entry] else []))%list).
Proof.
  destruct entry as [pid q]. simpl. intro Hq.
  unfold partitionStep, activeLine, heldLine, countedLine, setAside, savedLine.
  simpl. rewrite Hq.
  destruct (findProduct (products c) pid) as [p|]; simpl.
  - destruct (StrSet.has (heldItems f) pid
              || eqb_num (getEffectiveStock c p) 0);
      simpl; now rewrite app_nil_r.
  - now rewrite !app_nil_r.
Qed.

Lemma line_has_positive_quantity (c : Context) (f : Form)
    (entry : string * Q) :
  gtb (snd entry) 0 = false ->
  activeLine c f entry = false /\ heldLine c f entry = false.
Proof.
  intro Hq. unfold activeLine, heldLine, countedLine. rewrite Hq.
  destruct (findProduct (products c) (fst entry)); auto.
Qed.

Lemma partition_fold_lines (c : Context) (f : Form) (l : list (string * Q)) :
  forall active held,
    fold_left (partitionStep c f)
              (filter (fun entry => gtb (snd entry) 0) l) (active, held)
    = ((active ++ map (savedLine c f true) (filter (activeLine c f) l))%list,
       (held ++ map (savedLine c f false) (filter (heldLine c f) l))%list).
Proof.
  induction l as [|e l IH]; intros active held; cbn [filter].
  - simpl. now rewrite !app_nil_r.
  - destruct (gtb (snd e) 0) eqn:Hq.
    + cbn [fold_left]. rewrite (partitionStep_line c f active held e Hq), IH.
      destruct (activeLine c f e), (heldLine c f e); simpl;
        now rewrite <- ?app_assoc, ?app_nil_r.
    + destruct (line_has_positive_quantity c f e Hq) as [-> ->]. apply IH.
Qed.

Lemma partitionLines_lines (c : Context) (f : Form) :
  partitionLines c f
  = (map (savedLine c f true)
         (filter (activeLine c f) (Obj.entries (orderItems f))),
     map (savedLine c f false)
         (filter (heldLine c f) (Obj.entries (orderItems f)))).
Proof. unfold partitionLines. now rewrite partition_fold_lines. Qed.

Lemma savedLine_subtotal (c : Context) (f : Form) (entry : string * Q) :
  lineSubtotal (savedLine c f true entry) == lineAmount c f entry.
Proof. unfold lineSubtotal, savedLine, lineAmount. simpl. ring. Qed.

Lemma sumQ_map_ext {A : Type} (g h : A -> Q) (l : list A) :
  (forall x, g x == h x) -> sumQ (map g l) == sumQ (map h l).
Proof.
  intro H. induction l as [|x l IH]; simpl; [reflexivity|].
  now rewrite H, IH.
Qed.

Lemma saved_total (c : Context) (f : Form) :
  Totals.total (aggregate c f) == orderTotal (fst (partitionLines c f)).
Proof.
  rewrite partitionLines_lines. simpl.
  destruct (aggregate_sums c f) as (Ht & _). rewrite Ht.
  rewrite orderTotal_sum, map_map. symmetry.
  apply sumQ_map_ext. apply savedLine_subtotal.
Qed.

Lemma not_write_no_row (e : Effect) : isWrite e = false -> writtenRow e = None.
Proof. destruct e; simpl; intro H; try reflexivity; discriminate. Qed.

Lemma createOrder_effects (c : Context) (f : Form) (b : Backend)
    (customer : Customer.t) (x : OrderItem.t) (active held : list OrderItem.t)
    (total : Q) :
  String.eqb (Customer.id customer) "" = false ->
  exists tail,
    saveEffects (createOrder c f b customer (x :: active) held total)
    = OrdersInsert
        (OrderRow.mk (Some (nextOrderId (orders c)))
           (Customer.id customer) (Customer.name customer)
           (match currentUser c with Some u => User.id u | None => "" end)
           (x :: active) held (orderMethod f)
           (if String.eqb (expectedDeliveryDate f) "" then None
            else Some (expectedDeliveryDate f))
           (nonEmptyOr (expectedDeliveryDate f) (today c))
           total Pending (orderNotes f) 0 0)
      :: tail
    /\ forall e, In e tail -> isWrite e = false.
Proof.
  intro Hid. unfold createOrder. rewrite Hid.
  destruct (writeResponse b);
    [destruct (fetchResponse b) as [|fresh];
     [|destruct (match fresh with Some _ => _ | None => _ end);
       destruct (currentUser c); try destruct (notificationThrows b)]| |];
    eexists; (split; [reflexivity|]);
    intros e H; cbn in H;
    repeat (destruct H as [<- | H]; [reflexivity|]); contradiction.
Qed.

Lemma updateOrder_effects (c : Context) (f : Form) (b : Backend)
    (cur : Order.t) (customer : Customer.t) (active held : list OrderItem.t)
    (total : Q) :
  exists tail,
    saveEffects (updateOrder c f b cur customer active held total)
    = OrdersUpdate (Order.id cur)
        (OrderRow.mk None
           (Customer.id customer) (Customer.name customer)
           (nullish (Order.assigneduserid cur) "")
           active held (orderMethod f)
           (if String.eqb (expectedDeliveryDate f) "" then None
            else Some (expectedDeliveryDate f))
           (nonEmptyOr (expectedDeliveryDate f)
              (nonEmptyOr (nullish (Order.orderdate cur) "") (today c)))
           total (Order.status cur) (orderNotes f)
           (or0 (Order.chequeBalance cur))
           (or0 (Order.creditBalance cur)))
      :: tail
    /\ forall e, In e tail -> isWrite e = false.
Proof.
  unfold updateOrder.
  destruct (writeResponse b); [destruct (fetchResponse b)| |];
    eexists; (split; [reflexivity|]);
    intros e H; cbn in H;
    repeat (destruct H as [<- | H]; [reflexivity|]); contradiction.
Qed.


Lemma activeLine_facts (c : Context) (f : Form) (entry : string * Q) :
  activeLine c f entry = true ->
  0 < snd entry
  /\ StrSet.has (heldItems f) (fst entry) = false
  /\ exists p, findProduct (products c) (fst entry) = Some p
               /\ ~ getEffectiveStock c p == 0.
Proof.
  unfold activeLine, countedLine, setAside.
  destruct (findProduct (products c) (fst entry)) as [p|]; [|discriminate].
  intro H. apply andb_true_iff in H. destruct H as [Hq Hs].
  apply negb_true_iff, orb_false_iff in Hs. destruct Hs as [Hh Hs].
  split; [now apply gtb_true|]. split; [exact Hh|].
  exists p. split; [reflexivity | now apply eqb_num_false].
Qed.






(** ** The stock a user sees *)

Lemma driver_without_allocation_sees_nothing (c : Context) (u : User.t)
    (p : Product.t) :
  currentUser c = Some u ->
  User.role u = Driver ->
  todaysAllocation c u = None ->
  getEffectiveStock c p = 0.
Proof.
  intros Hu Hr Ha. unfold getEffectiveStock, isDriver, getDriverAllocatedStock.
  now rewrite Hu, Hr, Ha.
Qed.

Lemma find_filter_self {A : Type} (g : A -> bool) (l : list A) :
  find g (filter g l) = find g l.
Proof.
  induction l as [|x l IH]; [reflexivity|].
  cbn [filter find]. destruct (g x) eqn:E; [|exact IH].
  cbn [find]. now rewrite E.
Qed.

Lemma find_at {A : Type} (g : A -> bool) (pre post : list A) (x : A) :
  (forall y, In y pre -> g y = false) -> g x = true ->
  find g (pre ++ x :: post) = Some x.
Proof.
  intros Hpre Hx. induction pre as [|y pre IH]; cbn [app find].
  - now rewrite Hx.
  - rewrite (Hpre y (or_introl eq_refl)). apply IH.
    intros z Hz. apply Hpre. now right.
Qed.

(** X7.  For every role but Driver the effective stock of a product is its
    warehouse stock, whatever the allocations are.  For a driver it is read
    from the driver's own allocation for today -- the first record of the
    list with the driver's id and today's date -- as the quantity of the
    first entry for the product, and it is 0 when that record has no such
    entry or when the list has no record of the driver for today.  Nothing
    else enters it: records of other drivers and of other days, the
    catalogue and the warehouse stock can change without changing it. *)
Theorem effective_stock_by_role :
  forall (c : Context) (p : Product.t),
    (isDriver c = false -> getEffectiveStock c p = Product.stock p)
    /\ (forall u, currentUser c = Some u -> User.role u = Driver ->
          (noneOwnToday c u -> getEffectiveStock c p = 0)
          /\ (forall a, firstOwnToday c u a ->
                (forall before entry after,
                   DriverAllocation.allocatedItems a
                   = (before ++ entry :: after)%list ->
                   AllocatedItem.productId entry = Product.id p ->
                   ~ In (Product.id p)
                        (map AllocatedItem.productId before) ->
                   getEffectiveStock c p = AllocatedItem.quantity entry)
                /\ (~ In (Product.id p)
                         (map AllocatedItem.productId
                              (DriverAllocation.allocatedItems a)) ->
                    getEffectiveStock c p = 0))
          /\ (forall c' p',
                currentUser c' = Some u ->
                today c' = today c ->
                filter (ownTodayb c u) (driverAllocations c')
                = filter (ownTodayb c u) (driverAllocations c) ->
                Product.id p' = Product.id p ->
                getEffectiveStock c' p' = getEffectiveStock c p)).
Proof.
  intros c p. split.
  - intro H. unfold getEffectiveStock. now rewrite H.
  - intros u Hu Hr.
    assert (Hd : isDriver c = true) by (unfold isDriver; now rewrite Hu, Hr).
    split; [|split].
    + intro Hnone. apply (driver_without_allocation_sees_nothing c u);
        try assumption.
      now apply todaysAllocation_none.
    + intros a Ha. apply todaysAllocation_first in Ha.
      unfold getEffectiveStock, getDriverAllocatedStock.
      rewrite Hd, Hu, Hr, Ha. simpl. split.
      * intros before entry after Hl Hid Hbefore. rewrite Hl.
        rewrite find_at; [reflexivity | | now apply String.eqb_eq].
        intros y Hy. apply not_true_iff_false. intro F.
        apply String.eqb_eq in F. apply Hbefore. rewrite <- F.
        now apply in_map.
      * intro Hnot.
        destruct (find _ (DriverAllocation.allocatedItems a)) as [entry|] eqn:E;
          [|reflexivity].
        apply find_some in E. destruct E as [Hin Heq].
        apply String.eqb_eq in Heq. exfalso. apply Hnot. rewrite <- Heq.
        now apply in_map.
    + intros c' p' Hu' Htoday Hown Hid.
      assert (Hd' : isDriver c' = true)
        by (unfold isDriver; now rewrite Hu', Hr).
      assert (Hsame : todaysAllocation c' u = todaysAllocation c u).
      { unfold todaysAllocation. rewrite Htoday. fold (ownTodayb c u).
        rewrite <- (find_filter_self (ownTodayb c u) (driverAllocations c')).
        rewrite <- (find_filter_self (ownTodayb c u) (driverAllocations c)).
        now rewrite Hown. }
      unfold getEffectiveStock, getDriverAllocatedStock.
      now rewrite Hd, Hd', Hu, Hu', Hr, Hsame, Hid.
Qed.

Lemma effective_stock_by_role_witness :
  let other :=
    DriverAllocation.mk "A0" "U8" "2024-12-31" None
      [AllocatedItem.mk "P1" 99] in
  let allocation :=
    DriverAllocation.mk "A1" "U7" "2025-01-15" None
      [AllocatedItem.mk "P1" 4] in
  let c := shop driver [P1 10; P2 3] [other; allocation] in
  getEffectiveStock c (P1 10) = 4 /\ getEffectiveStock c (P2 3) = 0.
Proof.
  intros other allocation c.
  assert (Hfirst : firstOwnToday c driver allocation).
  { split; [split; reflexivity|]. exists [other], []. split; [reflexivity|].
    intros a [<- | []] [H _]. discriminate H. }
  destruct (effective_stock_by_role c (P1 10)) as [_ H1].
  destruct (effective_stock_by_role c (P2 3)) as [_ H2].
  destruct (H1 driver eq_refl eq_refl) as (_ & H1' & _).
  destruct (H2 driver eq_refl eq_refl) as (_ & H2' & _).
  destruct (H1' allocation Hfirst) as [H1'' _].
  destruct (H2' allocation Hfirst) as [_ H2''].
  split.
  - apply (H1'' [] (AllocatedItem.mk "P1" 4) []); [reflexivity | reflexivity|].
    intros [].
  - apply H2''. simpl. intros [E | []]. discriminate E.
Defined.

Lemma createOrder_without_active_line (c : Context) (f : Form) (b : Backend)
    (customer : Customer.t) (held : list OrderItem.t) (total : Q) :
  exists message,
    createOrder c f b customer [] held total = rejected [Alert message].
Proof.
  unfold createOrder. destruct (String.eqb (Customer.id customer) "");
    eexists; reflexivity.
Qed.

(** X8.  A driver for whom the list of allocations holds no record with
    the driver's id and today's date sees every product as out of stock.
    Whatever the form holds, its total and its in-stock count are 0, every
    line that counts goes to the held count and to the backordered list --
    the backordered lines are exactly the counted lines of the form, each
    with its quantity and price and without discount -- the active list is
    empty, and saving the form as a new order writes nothing. *)
Theorem driver_without_allocation_orders_nothing :
  forall (c : Context) (f : Form) (b : Backend) (u : User.t),
    currentUser c = Some u ->
    User.role u = Driver ->
    noneOwnToday c u ->
    (forall p, getEffectiveStock c p = 0)
    /\ Totals.total (aggregate c f) == 0
    /\ Totals.inStockItems (aggregate c f) == 0
    /\ Totals.heldItemsCount (aggregate c f)
       == sumQ (map snd (filter (countedLine c) (Obj.entries (orderItems f))))
    /\ fst (partitionLines c f) = []
    /\ (forall item,
          In item (snd (partitionLines c f)) <->
          exists entry,
            In entry (Obj.entries (orderItems f))
            /\ countedLine c entry = true
            /\ item = savedLine c f false entry)
    /\ (modalState f = create ->
        filter isWrite (saveEffects (handleSaveOrder c f b)) = []).
Proof.
  intros c f b u Hu Hr Hnone.
  assert (Ha : todaysAllocation c u = None) by now apply todaysAllocation_none.
  assert (Hzero : forall p, getEffectiveStock c p = 0).
  { intro p. now apply (driver_without_allocation_sees_nothing c u). }
  assert (Haside : forall entry, countedLine c entry = true ->
                                 setAside c f (fst entry) = true).
  { intros entry H. unfold setAside. unfold countedLine in H.
    destruct (findProduct (products c) (fst entry)) as [p|]; [|discriminate].
    rewrite Hzero. apply orb_true_r. }
  assert (Hback : onlyBackorders c f) by (intros entry _; apply Haside).
  assert (Hheld : forall entry, heldLine c f entry = countedLine c entry).
  { intro entry. unfold heldLine.
    destruct (countedLine c entry) eqn:E; [|reflexivity].
    now rewrite (Haside entry E). }
  destruct (partitionLines_onlyBackorders c f Hback) as (Hact & Hin & _).
  destruct (aggregate_sums c f) as (Ht & _ & Hh).
  split; [exact Hzero|].
  split; [|split; [exact Hin|split; [|split; [|split]]]].
  - rewrite Ht.
    rewrite (filter_all_false _ _ (onlyBackorders_no_active_line c f Hback)).
    reflexivity.
  - rewrite Hh. now rewrite (filter_ext _ _ Hheld).
  - exact Hact.
  - intro item. rewrite partitionLines_lines. cbn [snd].
    rewrite (filter_ext _ _ Hheld), in_map_iff. split.
    + intros (entry & <- & He). apply filter_In in He.
      exists entry. tauto.
    + intros (entry & He & Hc & ->). exists entry.
      split; [reflexivity|]. apply filter_In. tauto.
  - intro Hmode. unfold handleSaveOrder.
    destruct (_ || _); [reflexivity|].
    destruct (findCustomer c f) as [cu|]; [|reflexivity].
    destruct (partitionLines c f) as [active held]. simpl in Hact. subst active.
    rewrite Hmode.
    destruct (createOrder_without_active_line c f b cu held
                (Totals.total (aggregate c f))) as (message & ->).
    reflexivity.
Qed.

Lemma driver_without_allocation_orders_nothing_witness :
  let other :=
    DriverAllocation.mk "A0" "U8" "2025-01-15" None
      [AllocatedItem.mk "P1" 99] in
  let stale :=
    DriverAllocation.mk "A1" "U7" "2025-01-14" None
      [AllocatedItem.mk "P1" 8] in
  let c := shop driver [P1 10] [other; stale] in
  let f := newOrderForm [("P1", 5)] [] [] [] in
  Totals.total (aggregate c f) == 0
  /\ Totals.heldItemsCount (aggregate c f) == 5.
Proof.
  intros other stale c f.
  destruct (driver_without_allocation_orders_nothing c f
              (mkBackend Succeeds (FetchReturns None) false) driver
              eq_refl eq_refl)
    as (_ & Ht & _ & Hh & _).
  - intros a [<- | [<- | []]] [H1 H2]; [discriminate H1 | discriminate H2].
  - split; [exact Ht|]. rewrite Hh. reflexivity.
Defined.

Lemma save_without_counted_line (c : Context) (f : Form) (b : Backend) :
  (forall entry, In entry (Obj.entries (orderItems f)) ->
                 countedLine c entry = false) ->
  Totals.total (aggregate c f) == 0
  /\ Totals.inStockItems (aggregate c f) == 0
  /\ Totals.heldItemsCount (aggregate c f) == 0
  /\ handleSaveOrder c f b
     = rejected [Alert "Please select a customer and add at least one item."].
Proof.
  intro Hnone.
  assert (Ha : forall entry, In entry (Obj.entries (orderItems f)) ->
                             activeLine c f entry = false).
  { intros entry H. unfold activeLine. now rewrite (Hnone entry H). }
  assert (Hh : forall entry, In entry (Obj.entries (orderItems f)) ->
                             heldLine c f entry = false).
  { intros entry H. unfold heldLine. now rewrite (Hnone entry H). }
  destruct (aggregate_sums c f) as (Ht & Hi & Hc).
  rewrite (filter_all_false _ _ Ha) in Ht, Hi.
  rewrite (filter_all_false _ _ Hh) in Hc. simpl in Ht, Hi, Hc.
  split; [exact Ht|]. split; [exact Hi|]. split; [exact Hc|].
  unfold handleSaveOrder.
  apply eqb_num_true in Hi. apply eqb_num_true in Hc. rewrite Hi, Hc.
  now rewrite orb_true_r.
Qed.

(** X9.  A form in which no line counts (no line at all, or only
    quantities of 0 or less, or only products that are not in the
    catalogue) has totals of 0, and saving it stops at the first guard, in
    either mode and for any customer: one alert, nothing written, the form
    left open.  The form [openCreateModal] sets up is such a form, for the
    first customer of the list and with the catalogue prices. *)
Theorem save_of_empty_form_is_rejected :
  (forall (c : Context) (f : Form) (b : Backend),
      (forall entry, In entry (Obj.entries (orderItems f)) ->
                     countedLine c entry = false) ->
      Totals.total (aggregate c f) == 0
      /\ Totals.inStockItems (aggregate c f) == 0
      /\ Totals.heldItemsCount (aggregate c f) == 0
      /\ handleSaveOrder c f b
         = rejected
             [Alert "Please select a customer and add at least one item."])
  /\ (forall (c : Context) (f : Form) (b : Backend),
      orderItems (openCreateModal c f) = []
      /\ heldItems (openCreateModal c f) = []
      /\ modalState (openCreateModal c f) = create
      /\ handleSaveOrder c (openCreateModal c f) b
         = rejected
             [Alert "Please select a customer and add at least one item."]).
Proof.
  split.
  - intros c f b. apply save_without_counted_line.
  - intros c f b. repeat split.
    apply save_without_counted_line. intros entry [].
Qed.

(** ** The total is never negative *)

Lemma sumQ_nonneg (l : list Q) : (forall x, In x l -> 0 <= x) -> 0 <= sumQ l.
Proof.
  induction l as [|x l IH]; simpl; intro H; [lra|].
  assert (0 <= x) by (apply H; now left).
  assert (0 <= sumQ l) by (apply IH; intros y Hy; apply H; now right).
  lra.
Qed.

Lemma sumQ_le (l : list (string * Q)) (g h : string * Q -> Q) :
  (forall x, In x l -> g x <= h x) -> sumQ (map g l) <= sumQ (map h l).
Proof.
  induction l as [|x l IH]; simpl; intro H; [lra|].
  assert (g x <= h x) by (apply H; now left).
  assert (sumQ (map g l) <= sumQ (map h l))
    by (apply IH; intros y Hy; apply H; now right).
  lra.
Qed.

Lemma lineAmount_bounds (c : Context) (f : Form) (entry : string * Q) :
  inRange (orderDiscounts f) (orderItemPrices f) ->
  (forall p, In p (products c) -> 0 <= Product.price p) ->
  0 < snd entry ->
  0 <= lineAmount c f entry <= undiscounted c f entry.
Proof.
  intros [Hd Hp] Hcat Hq. unfold lineAmount, undiscounted.
  set (price := match findProduct (products c) (fst entry) with
                | Some product =>
                    nullish (Obj.get (orderItemPrices f) (fst entry))
                            (Product.price product)
                | None => 0
                end).
  assert (Hprice : 0 <= price).
  { unfold price.
    destruct (findProduct (products c) (fst entry)) as [p|] eqn:E; [|lra].
    destruct (Obj.get (orderItemPrices f) (fst entry)) as [v|] eqn:Ev; simpl.
    - apply (Hp (fst entry)). now apply get_in.
    - apply Hcat. unfold findProduct in E. now apply find_some in E. }
  set (d := or0 (Obj.get (orderDiscounts f) (fst entry))).
  assert (Hdr : 0 <= d <= 100).
  { unfold d. destruct (Obj.get (orderDiscounts f) (fst entry)) as [v|] eqn:Ev;
      simpl; [|lra].
    apply (Hd (fst entry)). now apply get_in. }
  assert (Hpq : 0 <= price * snd entry).
  { apply Qmult_le_0_compat; lra. }
  assert (Hfac : 0 <= 1 - d / 100 <= 1).
  { assert (d / 100 == d * (1 # 100)) by (unfold Qdiv; reflexivity).
    rewrite H. lra. }
  split.
  - apply Qmult_le_0_compat; lra.
  - destruct Hfac as [Hf0 Hf1]. nra.
Qed.

(** X10.  When every discount of the form is a percentage, no price of the
    form is negative and no catalogue price is negative, the total of the
    form lies between 0 and the sum of price × quantity over its active
    lines: a discount never raises a line and never turns it negative. *)
Theorem total_is_between_zero_and_list_price :
  forall (c : Context) (f : Form),
    inRange (orderDiscounts f) (orderItemPrices f) ->
    (forall p, In p (products c) -> 0 <= Product.price p) ->
    0 <= Totals.total (aggregate c f)
    /\ Totals.total (aggregate c f)
       <= sumQ (map (undiscounted c f)
                    (filter (activeLine c f) (Obj.entries (orderItems f)))).
Proof.
  intros c f Hr Hcat. destruct (aggregate_sums c f) as (Ht & _). rewrite Ht.
  assert (Hline : forall e,
             In e (filter (activeLine c f) (Obj.entries (orderItems f))) ->
             0 <= lineAmount c f e <= undiscounted c f e).
  { intros e He. apply filter_In in He. destruct He as [_ He].
    apply lineAmount_bounds; auto.
    now destruct (activeLine_facts c f e He). }
  split.
  - apply sumQ_nonneg. intros x Hx. apply in_map_iff in Hx.
    destruct Hx as (e & <- & He). now apply Hline.
  - apply sumQ_le. intros e He. now apply Hline.
Qed.

Lemma total_is_between_zero_and_list_price_witness :
  let c := shop admin [P1 10] [] in
  let f := newOrderForm [("P1", 5)] [("P1", 10)] [("P1", 100)] [] in
  0 <= Totals.total (aggregate c f).
Proof.
  intros c f.
  apply (total_is_between_zero_and_list_price c f).
  - split; intros k v [[= <- <-] | []]; vm_compute;
      [split; discriminate | discriminate].
  - intros p [<- | []]. vm_compute. discriminate.
Defined.

(** ** More on finalization *)

(** X11.  Without an order to work on the finalization does nothing at
    all.  For an order without active lines its only effect is the alert
    that says so: nothing is written, the context and the order on display
    stay as they were, and only the pending request of the confirmation
    dialog, if the call came from there, is dropped. *)
Theorem finalize_of_empty_order_only_alerts :
  (forall (c : Context) (v : View),
      orderToFinalize v = None ->
      handleConfirmFinalize c v None = mkFinalizeResult [] c v)
  /\ (forall (c : Context) (v : View) (orderToProcess : option Order.t)
             (o : Order.t),
      targetOf v orderToProcess = Some o ->
      Order.orderItems o = [] ->
      let r := handleConfirmFinalize c v orderToProcess in
      finEffects r = [Alert "Cannot finalize an order with no items."]
      /\ filter isWrite (finEffects r) = []
      /\ finContext r = c
      /\ viewingOrder (finView r) = viewingOrder v
      /\ isPrintPreviewOpen (finView r) = isPrintPreviewOpen v
      /\ orderToFinalize (finView r)
         = match orderToProcess with
           | Some _ => orderToFinalize v
           | None => None
           end).
Proof.
  split.
  - intros c v H. unfold handleConfirmFinalize, targetOf. now rewrite H.
  - intros c v otp o Ht Hempty r. subst r. unfold handleConfirmFinalize.
    rewrite Ht, Hempty. simpl. destruct otp; repeat split.
Qed.

Lemma syncAllocation_shape (c : Context) (o : Order.t) :
  map DriverAllocation.id (snd (syncAllocation c o))
  = map DriverAllocation.id (driverAllocations c)
  /\ map DriverAllocation.driverId (snd (syncAllocation c o))
     = map DriverAllocation.driverId (driverAllocations c)
  /\ map DriverAllocation.date (snd (syncAllocation c o))
     = map DriverAllocation.date (driverAllocations c).
Proof.
  unfold syncAllocation. destruct (allocationToSync c) as [a|]; simpl; auto.
  rewrite !map_map.
  repeat split; apply map_ext; intro x;
    destruct (String.eqb _ _); reflexivity.
Qed.

Lemma finalize_allocations (c : Context) (v : View)
    (orderToProcess : option Order.t) :
  driverAllocations (finContext (handleConfirmFinalize c v orderToProcess))
  = driverAllocations c
  \/ exists o, targetOf v orderToProcess = Some o /\ passesChecks c o
               /\ driverAllocations
                    (finContext (handleConfirmFinalize c v orderToProcess))
                  = snd (syncAllocation c o).
Proof.
  unfold handleConfirmFinalize.
  destruct (targetOf v orderToProcess) as [o|] eqn:Ht; [|now left].
  destruct (Order.orderItems o) as [|x rest] eqn:E; [now left|].
  destruct (find (lacksStock c) (x :: rest)) eqn:Hfind; [now left|].
  right. exists o. split; [reflexivity|]. split.
  - split; rewrite E; [discriminate | exact Hfind].
  - destruct (syncAllocation c o). destruct orderToProcess; reflexivity.
Qed.

Lemma finalize_effects_cases (c : Context) (v : View)
    (orderToProcess : option Order.t) :
  (exists o, targetOf v orderToProcess = Some o /\ passesChecks c o)
  \/ filter isWrite (finEffects (handleConfirmFinalize c v orderToProcess)) = [].
Proof.
  unfold handleConfirmFinalize.
  destruct (targetOf v orderToProcess) as [o|] eqn:Ht; [|now right].
  destruct (Order.orderItems o) as [|x rest] eqn:E; [now right|].
  destruct (find (lacksStock c) (x :: rest)) eqn:Hfind; [now right|].
  left. exists o. split; [reflexivity|].
  split; rewrite E; [discriminate | exact Hfind].
Qed.

(** X12.  No finalization adds, drops or reorders allocations, or changes
    whose they are and for which day.  One issued by a user who is not a
    driver, or by a driver without an allocation for today, issues no
    allocation update and leaves all allocations as they are.  (The state
    is the one the handler sets itself; the refresh it may ask for at its
    end is an effect of the log.) *)
Theorem finalize_keeps_other_allocations :
  forall (c : Context) (v : View) (orderToProcess : option Order.t),
    let r := handleConfirmFinalize c v orderToProcess in
    map DriverAllocation.id (driverAllocations (finContext r))
    = map DriverAllocation.id (driverAllocations c)
    /\ map DriverAllocation.driverId (driverAllocations (finContext r))
       = map DriverAllocation.driverId (driverAllocations c)
    /\ map DriverAllocation.date (driverAllocations (finContext r))
       = map DriverAllocation.date (driverAllocations c)
    /\ (allocationToSync c = None ->
        filter isAllocationUpdate (finEffects r) = []
        /\ driverAllocations (finContext r) = driverAllocations c)
    /\ (isDriver c = false -> allocationToSync c = None)
    /\ (forall u, currentUser c = Some u -> todaysAllocation c u = None ->
                  allocationToSync c = None).
Proof.
  intros c v otp r.
  assert (Hshape :
            map DriverAllocation.id (driverAllocations (finContext r))
            = map DriverAllocation.id (driverAllocations c)
            /\ map DriverAllocation.driverId (driverAllocations (finContext r))
               = map DriverAllocation.driverId (driverAllocations c)
            /\ map DriverAllocation.date (driverAllocations (finContext r))
               = map DriverAllocation.date (driverAllocations c)).
  { destruct (finalize_allocations c v otp) as [H | (o & _ & _ & H)];
      fold r in H; rewrite H; [auto | apply syncAllocation_shape]. }
  destruct Hshape as (H1 & H2 & H3).
  split; [exact H1|]. split; [exact H2|]. split; [exact H3|].
  split; [|split].
  - intro Hnone. split.
    + destruct (finalize_effects_cases c v otp) as [(o & Ht & Hp) | Hw].
      * destruct (finalize_carried_out c v otp o Ht Hp) as (Heff & _).
        fold r in Heff. rewrite Heff.
        assert (Hs : fst (syncAllocation c o) = []).
        { unfold syncAllocation. now rewrite Hnone. }
        rewrite Hs. cbn [app filter isAllocationUpdate].
        rewrite filter_app, deductStock_filtered by reflexivity.
        destruct (negb (OrderStatus_eqb (Order.status o) Delivered));
          reflexivity.
      * fold r in Hw.
        assert (Hsub : forall es, filter isWrite es = [] ->
                                  filter isAllocationUpdate es = []).
        { induction es as [|e es IH]; simpl; [reflexivity|].
          destruct e; simpl; try discriminate; auto. }
        now apply Hsub.
    + destruct (finalize_allocations c v otp) as [H | (o & _ & _ & H)];
        fold r in H; rewrite H; [reflexivity|].
      unfold syncAllocation. now rewrite Hnone.
  - intro Hd. unfold allocationToSync. unfold isDriver in Hd.
    destruct (currentUser c); [now rewrite Hd | reflexivity].
  - intros u Hu Ha. unfold allocationToSync. rewrite Hu, Ha.
    destruct (_ && _); reflexivity.
Qed.

Lemma replaceOrder_facts (updated : Order.t) (prev : list Order.t) :
  List.length (replaceOrder updated prev) = List.length prev
  /\ (forall o, In o prev -> Order.id o <> Order.id updated ->
                In o (replaceOrder updated prev))
  /\ (forall o, In o (replaceOrder updated prev) ->
                o = updated \/ (In o prev /\ Order.id o <> Order.id updated))
  /\ ((exists o, In o prev /\ Order.id o = Order.id updated) ->
      In updated (replaceOrder updated prev)).
Proof.
  unfold replaceOrder. split; [apply length_map|]. split; [|split].
  - intros o Hin Hne. apply in_map_iff. exists o. split; [|exact Hin].
    destruct (String.eqb (Order.id o) (Order.id updated)) eqn:E;
      [|reflexivity].
    apply String.eqb_eq in E. contradiction.
  - intros o Hin. apply in_map_iff in Hin. destruct Hin as (x & Hx & Hin).
    destruct (String.eqb (Order.id x) (Order.id updated)) eqn:E.
    + left. now symmetry.
    + right. subst x. split; [exact Hin|]. intro E'.
      rewrite E', String.eqb_refl in E. discriminate.
  - intros (o & Hin & Hid). apply in_map_iff. exists o. split; [|exact Hin].
    now rewrite Hid, String.eqb_refl.
Qed.

(** X13.  A finalization that is carried out raises no alert.  Its first
    write marks the order Delivered and records the sum of the quantities of
    its active lines as sold.  In the order list exactly the orders with
    that id are replaced, by the order with status Delivered and with its
    lines, total and balances as they were; every other order stays, and the
    list keeps its length.  The handler itself does not touch the products
    and the customers held by the page. *)
Theorem finalize_marks_order_delivered :
  forall (c : Context) (v : View) (orderToProcess : option Order.t)
         (o : Order.t),
    targetOf v orderToProcess = Some o ->
    passesChecks c o ->
    let r := handleConfirmFinalize c v orderToProcess in
    let delivered := Order.with_status o Delivered in
    filter isAlert (finEffects r) = []
    /\ (exists sold rest,
          finEffects r = OrdersSetDelivered (Order.id o) (Some sold) :: rest
          /\ sold == sumQ (map OrderItem.quantity (Order.orderItems o)))
    /\ Order.orderItems delivered = Order.orderItems o
    /\ Order.backorderedItems delivered = Order.backorderedItems o
    /\ Order.total delivered = Order.total o
    /\ List.length (orders (finContext r)) = List.length (orders c)
    /\ (forall x, In x (orders c) -> Order.id x <> Order.id o ->
                  In x (orders (finContext r)))
    /\ (forall x, In x (orders (finContext r)) ->
                  x = delivered \/ (In x (orders c) /\ Order.id x <> Order.id o))
    /\ products (finContext r) = products c
    /\ customers (finContext r) = customers c.
Proof.
  intros c v otp o Ht Hp r delivered.
  destruct (finalize_carried_out c v otp o Ht Hp)
    as (Heff & _ & Horders & Hprod & _).
  fold r in Heff, Horders, Hprod.
  destruct (replaceOrder_facts delivered (orders c)) as (Hlen & Hkeep & Honly & _).
  split; [|split; [|split; [|split; [|split; [|split; [|split; [|split; [|split]]]]]]]];
    try reflexivity.
  - rewrite Heff. cbn [app filter isAlert].
    rewrite !filter_app, deductStock_filtered by reflexivity.
    assert (H1 : filter isAlert (fst (syncAllocation c o)) = []).
    { unfold syncAllocation. destruct (allocationToSync c); reflexivity. }
    rewrite H1.
    destruct (negb (OrderStatus_eqb (Order.status o) Delivered)); reflexivity.
  - eexists. eexists. split; [rewrite Heff; reflexivity|].
    unfold soldQty. rewrite fold_left_sum. ring.
  - now rewrite Horders.
  - intros x Hin Hne. rewrite Horders. now apply Hkeep.
  - intros x Hin. rewrite Horders in Hin. exact (Honly x Hin).
  - exact Hprod.
  - subst r. unfold handleConfirmFinalize. rewrite Ht.
    destruct Hp as [Hne Hfind]. rewrite Hfind.
    destruct (Order.orderItems o); [contradiction|].
    destruct (syncAllocation c o). destruct otp; reflexivity.
Qed.

Lemma finalize_marks_order_delivered_witness :
  let o := sampleOrder Pending 490
             [OrderItem.mk "P1" 5 100 (Some 10); OrderItem.mk "P2" 1 40 None]
             None in
  let c := mkContext (Some admin) "2025-01-15" [P1 10; P2 3]
                     [Customer.mk "C1" "Corner Store"] [o] [] in
  let r := handleConfirmFinalize c (mkView (Some o) None false) (Some o) in
  List.length (orders (finContext r)) = 1%nat
  /\ filter isAlert (finEffects r) = [].
Proof.
  intros o c r.
  destruct (finalize_marks_order_delivered c (mkView (Some o) None false)
              (Some o) o eq_refl)
    as (Hal & _ & _ & _ & _ & Hlen & _).
  - split; [discriminate | reflexivity].
  - split; [exact Hlen | exact Hal].
Defined.

(** ** Customer totals and single hold moves *)

Lemma OrderStatus_eqb_eq (a b : OrderStatus) :
  OrderStatus_eqb a b = true <-> a = b.
Proof.
  destruct a, b; simpl; split; intro H; try reflexivity; discriminate.
Qed.

(** X14.  The customer totals that a finalization writes count the finalized
    order once.  When the order list holds no delivered order of that
    customer under the order's id, the totals are those of the customer's
    delivered orders plus the order's own total and balances; when the order
    is in the list as delivered already, they are those of the delivered
    orders alone. *)
Theorem finalize_counts_order_once :
  forall (c : Context) (o : Order.t),
    let delivered := deliveredOf c (Order.customerId o) in
    let spent := sumQ (map Order.total delivered) in
    let owed :=
      sumQ (map (fun x => or0 (Order.chequeBalance x)
                          + or0 (Order.creditBalance x)) delivered) in
    (forall v orderToProcess,
        targetOf v orderToProcess = Some o -> passesChecks c o ->
        In (customerTotals c (Order.with_status o Delivered))
           (finEffects (handleConfirmFinalize c v orderToProcess)))
    /\ ((forall x, In x delivered -> Order.id x <> Order.id o) ->
        exists s b,
          customerTotals c (Order.with_status o Delivered)
          = CustomersUpdate (Order.customerId o) s b
          /\ s == spent + Order.total o
          /\ b == owed + (or0 (Order.chequeBalance o)
                          + or0 (Order.creditBalance o)))
    /\ (In o (orders c) -> Order.status o = Delivered ->
        exists s b,
          customerTotals c (Order.with_status o Delivered)
          = CustomersUpdate (Order.customerId o) s b
          /\ s == spent /\ b == owed).
Proof.
  intros c o delivered spent owed. split; [|split].
  - intros v otp Ht Hp.
    destruct (finalize_carried_out c v otp o Ht Hp) as (Heff & _).
    rewrite Heff. apply in_or_app. right. apply in_or_app. right.
    apply in_or_app. right. apply in_or_app. left. right. left. reflexivity.
  - intro Hfresh. unfold customerTotals. cbn [Order.with_status Order.customerId Order.id].
    fold (deliveredOf c (Order.customerId o)). fold delivered.
    destruct (find _ delivered) as [x|] eqn:Hfind.
    + apply find_some in Hfind. destruct Hfind as [Hin Hid].
      apply String.eqb_eq in Hid. destruct (Hfresh x Hin Hid).
    + eexists. eexists. split; [reflexivity|].
      rewrite !fold_left_sum, !map_app, !sumQ_app. simpl.
      subst spent owed. split; ring.
  - intros Hin Hst. unfold customerTotals.
    cbn [Order.with_status Order.customerId Order.id].
    fold (deliveredOf c (Order.customerId o)). fold delivered.
    assert (Hd : In o delivered).
    { apply filter_In. split; [exact Hin|].
      rewrite String.eqb_refl, Hst. reflexivity. }
    destruct (find _ delivered) as [x|] eqn:Hfind.
    + eexists. eexists. split; [reflexivity|].
      rewrite !fold_left_sum. subst spent owed. split; ring.
    + exfalso. apply (find_none _ _ Hfind) in Hd.
      rewrite String.eqb_refl in Hd. discriminate.
Qed.

Lemma findIndex_some {A : Type} (f : A -> bool) (l : list A) (i : nat) :
  findIndex f l = Some i ->
  exists pre x post,
    l = (pre ++ x :: post)%list
    /\ f x = true
    /\ nth_error l i = Some x
    /\ removeAt i l = (pre ++ post)%list.
Proof.
  revert i. induction l as [|y l IH]; intros i H; [discriminate|].
  cbn [findIndex] in H. destruct (f y) eqn:E.
  - injection H as <-. exists [], y, l. repeat split. exact E.
  - destruct (findIndex f l) as [j|] eqn:Hj; [|discriminate].
    injection H as <-.
    destruct (IH j eq_refl) as (pre & x & post & -> & Hx & Hnth & Hrm).
    exists (y :: pre), x, post. cbn [nth_error removeAt app].
    rewrite Hrm. repeat split; assumption.
Qed.

(** X15.  A hold or unhold that goes through moves one line of the named
    product and nothing else: the lines of the order, active and
    backordered together, are the same lines as before; a hold appends the
    line to the backordered list and lowers the total by the line's amount,
    an unhold appends it to the active list and raises the total by it; the
    new total is the sum over the new active list; id, customer, status and
    balances stay; and in the order list only orders with this id are
    replaced. *)
Theorem hold_moves_one_line :
  forall (c : Context) (o u : Order.t) (productId : string)
         (action : HoldAction),
    handleToggleHoldInView c (Some o) productId action = Some u ->
    exists item,
      OrderItem.productId item = productId
      /\ Permutation
           (Order.orderItems u ++ nullish (Order.backorderedItems u) [])
           (Order.orderItems o ++ nullish (Order.backorderedItems o) [])
      /\ match action with
         | hold =>
             In item (Order.orderItems o)
             /\ Order.backorderedItems u
                = Some (nullish (Order.backorderedItems o) [] ++ [item])%list
             /\ Order.total u
                == orderTotal (Order.orderItems o) - lineSubtotal item
         | unhold =>
             In item (nullish (Order.backorderedItems o) [])
             /\ Order.orderItems u = (Order.orderItems o ++ [item])%list
             /\ Order.total u
                == orderTotal (Order.orderItems o) + lineSubtotal item
         end
      /\ Order.total u = orderTotal (Order.orderItems u)
      /\ Order.id u = Order.id o
      /\ Order.customerId u = Order.customerId o
      /\ Order.status u = Order.status o
      /\ Order.chequeBalance u = Order.chequeBalance o
      /\ Order.creditBalance u = Order.creditBalance o
      /\ fst (toggleHold c (Some o) productId action) = Some u
      /\ List.length (snd (toggleHold c (Some o) productId action))
         = List.length (orders c)
      /\ (forall x, In x (orders c) -> Order.id x <> Order.id o ->
                    In x (snd (toggleHold c (Some o) productId action))).
Proof.
  intros c o u pid action H.
  assert (Hlist :
            Order.id u = Order.id o ->
            fst (toggleHold c (Some o) pid action) = Some u
            /\ List.length (snd (toggleHold c (Some o) pid action))
               = List.length (orders c)
            /\ (forall x, In x (orders c) -> Order.id x <> Order.id o ->
                          In x (snd (toggleHold c (Some o) pid action)))).
  { intro Hid. unfold toggleHold. rewrite H. cbn [fst snd].
    destruct (replaceOrder_facts u (orders c)) as (Hlen & Hkeep & _).
    rewrite Hid in Hkeep. auto. }
  unfold handleToggleHoldInView, jsonClone in H.
  destruct action.
  - destruct (findIndex (hasProductId pid) (Order.orderItems o)) as [i|] eqn:Hi;
      [|discriminate].
    destruct (findIndex_some _ _ _ Hi) as (pre & item & post & Hl & Hx & Hnth & Hrm).
    rewrite Hnth, Hrm in H. injection H as <-.
    cbn [Order.with_lines Order.orderItems Order.backorderedItems Order.total
         Order.id Order.customerId Order.status Order.chequeBalance
         Order.creditBalance nullish] in *.
    exists item. split; [now apply String.eqb_eq|].
    split.
    { rewrite Hl. rewrite <- !app_assoc.
      apply Permutation_app_head. cbn [app].
      rewrite (Permutation_app_comm (nullish (Order.backorderedItems o) []) [item]).
      cbn [app]. symmetry. apply Permutation_middle. }
    split.
    { split; [rewrite Hl; apply in_elt|]. split; [reflexivity|].
      rewrite Hl, !orderTotal_sum, !map_app, !sumQ_app. cbn [map].
      change (sumQ (lineSubtotal item :: map lineSubtotal post))
        with (lineSubtotal item + sumQ (map lineSubtotal post)).
      ring. }
    split; [reflexivity|].
    repeat (split; [reflexivity|]). now apply Hlist.
  - destruct (findProduct (products c) pid) as [p|]; [|discriminate].
    destruct (eqb_num (getEffectiveStock c p) 0); [discriminate|].
    destruct (findIndex (hasProductId pid) (nullish (Order.backorderedItems o) []))
      as [i|] eqn:Hi; [|discriminate].
    destruct (findIndex_some _ _ _ Hi) as (pre & item & post & Hl & Hx & Hnth & Hrm).
    rewrite Hnth, Hrm in H. injection H as <-.
    cbn [Order.with_lines Order.orderItems Order.backorderedItems Order.total
         Order.id Order.customerId Order.status Order.chequeBalance
         Order.creditBalance] in *.
    exists item. split; [now apply String.eqb_eq|].
    split.
    { rewrite Hl. cbn [nullish]. rewrite <- !app_assoc.
      apply Permutation_app_head. cbn [app]. apply Permutation_middle. }
    split.
    { split; [rewrite Hl; apply in_elt|]. split; [reflexivity|].
      rewrite !orderTotal_sum, !map_app, !sumQ_app. simpl. ring. }
    split; [reflexivity|].
    repeat (split; [reflexivity|]). now apply Hlist.
Qed.

Lemma hold_moves_one_line_witness :
  let c := shop admin [P1 10; P2 3] [] in
  let o := sampleOrder Pending 490
             [OrderItem.mk "P1" 5 100 (Some 10); OrderItem.mk "P2" 1 40 None]
             None in
  let u := sampleOrder Pending (orderTotal [OrderItem.mk "P2" 1 40 None])
             [OrderItem.mk "P2" 1 40 None]
             (Some [OrderItem.mk "P1" 5 100 (Some 10)]) in
  handleToggleHoldInView c (Some o) "P1" hold = Some u
  /\ Order.total u = orderTotal (Order.orderItems u).
Proof.
  intros c o u.
  assert (H : handleToggleHoldInView c (Some o) "P1" hold = Some u)
    by reflexivity.
  split; [exact H|].
  destruct (hold_moves_one_line c o u "P1" hold H)
    as (item & _ & _ & _ & Ht & _).
  exact Ht.
Defined.

(** ** Permissions *)

(** X16.  The permissions are nested by role: an administrator or manager
    may do everything; a driver may edit, print bills and mark delivered but
    not delete; a sales representative may only edit; without a signed-in
    user nothing is allowed.  So whoever may delete may edit, and printing a
    bill and marking delivered are allowed to the same users. *)
Theorem permissions_by_role :
  forall (c : Context),
    (canDelete c = true -> canMarkDelivered c = true)
    /\ (canMarkDelivered c = true -> canEdit c = true)
    /\ canPrintBill c = canMarkDelivered c
    /\ isManagerView c = canDelete c
    /\ (currentUser c = None -> canEdit c = false)
    /\ (forall u, currentUser c = Some u ->
          canEdit c = true
          /\ canDelete c = match User.role u with
                           | Admin | Manager => true
                           | Sales | Driver => false
                           end
          /\ canMarkDelivered c = match User.role u with
                                  | Sales => false
                                  | Admin | Manager | Driver => true
                                  end).
Proof.
  intro c.
  unfold canDelete, canMarkDelivered, canEdit, canPrintBill, isManagerView,
    hasRole.
  destruct (currentUser c) as [u|].
  - destruct (User.role u) eqn:E; cbn;
      (split; [try discriminate; auto|]);
      (split; [try discriminate; auto|]);
      (split; [reflexivity|]); (split; [reflexivity|]);
      (split; [discriminate|]);
      intros u' [= <-]; rewrite E; auto.
  - cbn. split; [discriminate|]. split; [discriminate|].
    split; [reflexivity|]. split; [reflexivity|]. split; [reflexivity|].
    discriminate.
Qed.

(** ** Opening the order view *)

(** X17.  Opening an order in the view fills the two balance fields with the
    order's balances, an absent one counting 0, and the amount paid with
    what is left of the total, never below 0.  The three fields add up to
    the total exactly when the two balances do not exceed it. *)
Theorem view_opens_with_consistent_balances :
  forall (order : Order.t),
    let b := openViewModal order in
    let cheque := or0 (Order.chequeBalance order) in
    let credit := or0 (Order.creditBalance order) in
    editableChequeBalance b = Some cheque
    /\ editableCreditBalance b = Some credit
    /\ (exists paid,
          editableAmountPaid b = Some paid
          /\ 0 <= paid
          /\ paid == Qmax 0 (Order.total order - cheque - credit)
          /\ (paid + cheque + credit == Order.total order
              <-> cheque + credit <= Order.total order)).
Proof.
  intros order b cheque credit. subst b. unfold openViewModal.
  fold cheque credit. cbn [editableChequeBalance editableCreditBalance
                           editableAmountPaid].
  split; [reflexivity|]. split; [reflexivity|].
  eexists. split; [reflexivity|].
  pose proof (pos_or_zero_max (Order.total order - cheque - credit)) as Hm.
  destruct (pos_or_zero_cases (Order.total order - cheque - credit))
    as [[Hpos E] | [Hneg E]]; rewrite E in *.
  - split; [lra|]. split; [exact Hm|]. split; intro; lra.
  - split; [lra|]. split; [exact Hm|]. split; intro; lra.
Qed.

(** ** The printed bill *)

(** X18.  On the bill the amount paid and the outstanding amount add up to
    the order's total, unless the total is 0, in which case the amount paid
    is printed as 0 whatever the balances are.  A balance handed to the bill
    takes precedence over the order's own.  The bill does not clamp: with
    balances above a non-zero total it prints a negative amount paid, where
    the view opened on the same order shows 0; with balances within the
    total the two agree. *)
Theorem bill_amount_paid_is_total_minus_outstanding :
  forall (order : Order.t) (chequeBalance creditBalance : option Q),
    let f := orderBillFigures order chequeBalance creditBalance in
    let own := orderBillFigures order None None in
    let shown := or0 (editableAmountPaid (openViewModal order)) in
    (~ Order.total order == 0 ->
     amountPaid f + totalOutstanding f == Order.total order)
    /\ (Order.total order == 0 -> amountPaid f = 0)
    /\ totalOutstanding f = billChequeBalance f + billCreditBalance f
    /\ billChequeBalance f = match chequeBalance with
                             | Some x => x
                             | None => or0 (Order.chequeBalance order)
                             end
    /\ billCreditBalance f = match creditBalance with
                             | Some x => x
                             | None => or0 (Order.creditBalance order)
                             end
    /\ (~ Order.total order == 0 ->
        totalOutstanding own <= Order.total order ->
        amountPaid own == shown)
    /\ (~ Order.total order == 0 ->
        Order.total order < totalOutstanding own ->
        amountPaid own < 0 /\ shown == 0).
Proof.
  intros order cheque credit f own shown.
  assert (Hn : forall x : option Q, nullish x 0 = or0 x)
    by (intros [x|]; reflexivity).
  subst f own shown. unfold orderBillFigures, openViewModal.
  cbn [amountPaid totalOutstanding billChequeBalance billCreditBalance
       editableAmountPaid or0].
  rewrite !Hn.
  split; [|split; [|split; [|split; [|split; [|split]]]]].
  - intro H. apply eqb_num_false in H. rewrite H. lra.
  - intro H. apply eqb_num_true in H. now rewrite H.
  - reflexivity.
  - destruct cheque; reflexivity.
  - destruct credit; reflexivity.
  - intros H Hle. apply eqb_num_false in H. rewrite H.
    destruct (pos_or_zero_cases
                (Order.total order - or0 (Order.chequeBalance order)
                 - or0 (Order.creditBalance order)))
      as [[Hpos E] | [Hneg E]]; rewrite E; lra.
  - intros H Hlt. apply eqb_num_false in H. rewrite H.
    destruct (pos_or_zero_cases
                (Order.total order - or0 (Order.chequeBalance order)
                 - or0 (Order.creditBalance order)))
      as [[Hpos E] | [Hneg E]]; rewrite E; split; lra.
Qed.

(** ** Saving the balances *)

(** X19.  Saving the balances asks for confirmation exactly when the two
    balances together exceed the order's total, an empty field counting 0.
    When the user declines, nothing else happens: no write, no message, no
    change of the page.  When the user accepts, or when no question was
    due, the two balances are written to the order as they stand in the
    fields, before anything else is written; balances above the total are
    not refused. *)
Theorem balances_above_total_need_confirmation :
  forall (viewing : Order.t) (b : Balances) (users : list User.t)
         (assignedUserId : option string) (now : string) (a : BalanceAnswers),
    let r := handleSaveBalances (Some viewing) b users assignedUserId now a in
    let outstanding :=
      or0 (editableChequeBalance b) + or0 (editableCreditBalance b) in
    (filter isConfirm (sbEffects r) <> [] <-> Order.total viewing < outstanding)
    /\ (Order.total viewing < outstanding -> confirmed a = false ->
        filter isBalanceWrite (sbEffects r) = []
        /\ List.length (sbEffects r) = 1%nat
        /\ sbOrders r = None /\ sbViewingOrder r = None)
    /\ (outstanding <= Order.total viewing \/ confirmed a = true ->
        exists rest,
          filter isBalanceWrite (sbEffects r)
          = OrdersUpdateBalances (Order.id viewing) (editableChequeBalance b)
                                 (editableCreditBalance b) :: rest).
Proof.
  intros viewing b users aid now a r outstanding. subst r.
  unfold handleSaveBalances. fold outstanding.
  destruct (gtb outstanding (Order.total viewing)) eqn:E.
  - pose proof (proj1 (gtb_true _ _) E) as Hlt.
    split; [|split].
    + split; [intros _; exact Hlt|]. intros _.
      destruct (confirmed a); cbn [andb negb]; [|discriminate].
      destruct (updateError a); [discriminate|].
      destruct (selectedRows a); discriminate.
    + intros _ Hc. rewrite Hc. cbn [andb negb sbEffects sbOrders sbViewingOrder].
      repeat split.
    + intros [Hle | Hc]; [lra|]. rewrite Hc. cbn [andb negb].
      destruct (updateError a); [eexists; reflexivity|].
      destruct (collectionRecords _ _ _ _);
        destruct (selectedRows a); eexists; reflexivity.
  - pose proof (proj1 (gtb_false _ _) E) as Hle. cbn [andb].
    split; [|split].
    + split; [|intro; lra]. intro H. exfalso. apply H.
      destruct (updateError a); [reflexivity|].
      destruct (collectionRecords _ _ _ _);
        destruct (selectedRows a); reflexivity.
    + intro; lra.
    + intros _.
      destruct (updateError a); [eexists; reflexivity|].
      destruct (collectionRecords _ _ _ _);
        destruct (selectedRows a); eexists; reflexivity.
Qed.

Lemma collectionRecords_facts (viewing : Order.t) (b : Balances)
    (collectedBy now : string) (rec : CollectionRecord.t) :
  In rec (collectionRecords viewing b collectedBy now) ->
  CollectionRecord.order_id rec = Order.id viewing
  /\ CollectionRecord.customer_id rec = Order.customerId viewing
  /\ CollectionRecord.status rec = "pending"
  /\ CollectionRecord.collected_by rec = collectedBy
  /\ 0 < CollectionRecord.amount rec
  /\ ((CollectionRecord.collection_type rec = "cheque"
       /\ editableChequeBalance b = Some (CollectionRecord.amount rec))
      \/ (CollectionRecord.collection_type rec = "credit"
          /\ editableCreditBalance b = Some (CollectionRecord.amount rec))).
Proof.
  unfold collectionRecords. intro H. apply in_app_or in H.
  destruct H as [H | H].
  - destruct (gtb (or0 (editableChequeBalance b)) 0) eqn:E; [|contradiction].
    destruct H as [<- | []]. apply gtb_true in E.
    cbn. repeat split; try exact E. left. split; [reflexivity|].
    destruct (editableChequeBalance b); [reflexivity|].
    simpl in E. lra.
  - destruct (gtb (or0 (editableCreditBalance b)) 0) eqn:E; [|contradiction].
    destruct H as [<- | []]. apply gtb_true in E.
    cbn. repeat split; try exact E. right. split; [reflexivity|].
    destruct (editableCreditBalance b); [reflexivity|].
    simpl in E. lra.
Qed.

Lemma saveBalances_pushed (viewing : Order.t) (b : Balances)
    (users : list User.t) (assignedUserId : option string) (now : string)
    (a : BalanceAnswers) :
  flat_map upsertedRecords
    (sbEffects (handleSaveBalances (Some viewing) b users assignedUserId now a))
  = if gtb (or0 (editableChequeBalance b) + or0 (editableCreditBalance b))
           (Order.total viewing)
       && negb (confirmed a)
    then []
    else match updateError a with
         | Some _ => []
         | None => collectionRecords viewing b
                     (assignedUserName users assignedUserId) now
         end.
Proof.
  unfold handleSaveBalances.
  destruct (gtb _ (Order.total viewing)); destruct (confirmed a);
    cbn [andb negb sbEffects]; try reflexivity;
    (destruct (updateError a); [reflexivity|]);
    destruct (collectionRecords _ _ _ _); destruct (selectedRows a);
    cbn; rewrite ?app_nil_r; reflexivity.
Qed.

(** X20.  After the balances were written without error, one pending
    collection record is pushed for each balance above 0, the cheque first,
    with that balance as its amount and the order's id and customer; no
    upsert is issued when neither balance is above 0, and none when the
    write of the balances failed.  At most one record of each type is
    pushed. *)
Theorem collection_records_follow_positive_balances :
  forall (viewing : Order.t) (b : Balances) (users : list User.t)
         (assignedUserId : option string) (now : string) (a : BalanceAnswers),
    let r := handleSaveBalances (Some viewing) b users assignedUserId now a in
    let pushed := flat_map upsertedRecords (sbEffects r) in
    (forall rec, In rec pushed ->
        CollectionRecord.order_id rec = Order.id viewing
        /\ CollectionRecord.customer_id rec = Order.customerId viewing
        /\ CollectionRecord.status rec = "pending"
        /\ 0 < CollectionRecord.amount rec
        /\ ((CollectionRecord.collection_type rec = "cheque"
             /\ editableChequeBalance b = Some (CollectionRecord.amount rec))
            \/ (CollectionRecord.collection_type rec = "credit"
                /\ editableCreditBalance b = Some (CollectionRecord.amount rec))))
    /\ NoDup (map CollectionRecord.collection_type pushed)
    /\ (updateError a <> None -> pushed = [])
    /\ (or0 (editableChequeBalance b) <= 0 ->
        or0 (editableCreditBalance b) <= 0 -> pushed = [])
    /\ (updateError a = None ->
        (or0 (editableChequeBalance b) + or0 (editableCreditBalance b)
           <= Order.total viewing \/ confirmed a = true) ->
        map CollectionRecord.collection_type pushed
        = ((if gtb (or0 (editableChequeBalance b)) 0 then ["cheque"] else [])
             ++ (if gtb (or0 (editableCreditBalance b)) 0 then ["credit"]
                 else []))%list).
Proof.
  intros viewing b users aid now a r pushed.
  set (records := collectionRecords viewing b (assignedUserName users aid) now).
  assert (Hpushed := saveBalances_pushed viewing b users aid now a).
  fold r pushed records in Hpushed.
  assert (Hcases : pushed = [] \/ pushed = records).
  { rewrite Hpushed. destruct (_ && _); [now left|].
    destruct (updateError a); [now left | now right]. }
  assert (Htypes :
            map CollectionRecord.collection_type records
            = ((if gtb (or0 (editableChequeBalance b)) 0 then ["cheque"] else [])
                 ++ (if gtb (or0 (editableCreditBalance b)) 0 then ["credit"]
                     else []))%list).
  { subst records. unfold collectionRecords. rewrite map_app.
    destruct (gtb (or0 (editableChequeBalance b)) 0);
      destruct (gtb (or0 (editableCreditBalance b)) 0); reflexivity. }
  split; [|split; [|split; [|split]]].
  - intros rec Hin. destruct Hcases as [E | E]; rewrite E in Hin;
      [contradiction|].
    destruct (collectionRecords_facts _ _ _ _ _ Hin)
      as (H1 & H2 & H3 & _ & H5 & H6).
    auto.
  - destruct Hcases as [E | E]; rewrite E; [constructor|].
    rewrite Htypes.
    destruct (gtb (or0 (editableChequeBalance b)) 0);
      destruct (gtb (or0 (editableCreditBalance b)) 0); cbn;
      repeat constructor; cbn; try tauto.
    intros [F | []]. discriminate.
  - intro Herr. rewrite Hpushed. destruct (_ && _); [reflexivity|].
    destruct (updateError a); [reflexivity | congruence].
  - intros H1 H2. destruct Hcases as [E | E]; rewrite E; [reflexivity|].
    subst records. unfold collectionRecords.
    apply gtb_false in H1, H2. now rewrite H1, H2.
  - intros Herr Hgo.
    assert (Hb : gtb (or0 (editableChequeBalance b)
                      + or0 (editableCreditBalance b)) (Order.total viewing)
                 && negb (confirmed a) = false).
    { destruct Hgo as [Hle | Hc].
      - apply gtb_false in Hle. now rewrite Hle.
      - rewrite Hc. apply andb_false_r. }
    rewrite Hpushed, Hb, Herr. exact Htypes.
Qed.

(** X21.  The page takes over saved balances only after the orders were
    read back: when the write fails or the re-read fails, neither the order
    list nor the order on display is replaced.  After a successful re-read
    the order on display is the one that was on display, lines included,
    with the two balances of the fields, while every order of the list comes
    from a row of the table, with both balances present and with an empty
    backordered list. *)
Theorem saved_balances_shown_after_reread :
  forall (viewingOrder : option Order.t) (b : Balances) (users : list User.t)
         (assignedUserId : option string) (now : string) (a : BalanceAnswers),
    let r := handleSaveBalances viewingOrder b users assignedUserId now a in
    (updateError a <> None \/ selectedRows a = None \/ viewingOrder = None ->
     sbOrders r = None /\ sbViewingOrder r = None)
    /\ (sbOrders r = None <-> sbViewingOrder r = None)
    /\ (forall u, sbViewingOrder r = Some u ->
          exists viewing,
            viewingOrder = Some viewing
            /\ Order.id u = Order.id viewing
            /\ Order.customerId u = Order.customerId viewing
            /\ Order.status u = Order.status viewing
            /\ Order.total u = Order.total viewing
            /\ Order.orderItems u = Order.orderItems viewing
            /\ Order.backorderedItems u = Order.backorderedItems viewing
            /\ Order.chequeBalance u = editableChequeBalance b
            /\ Order.creditBalance u = editableCreditBalance b)
    /\ (forall os, sbOrders r = Some os ->
          exists rows,
            selectedRows a = Some rows
            /\ map Order.id os = map OrderDbRow.id rows
            /\ map Order.total os = map OrderDbRow.totalamount rows
            /\ forall o, In o os ->
                 Order.backorderedItems o = Some []
                 /\ Order.chequeBalance o <> None
                 /\ Order.creditBalance o <> None).
Proof.
  intros vo b users aid now a r. subst r. unfold handleSaveBalances.
  destruct vo as [viewing|].
  2:{ cbn. repeat split; try discriminate; auto. }
  destruct (gtb _ _ && negb (confirmed a)).
  { cbn. repeat split; try discriminate; auto. }
  destruct (updateError a) as [msg|].
  { cbn. repeat split; try discriminate; auto. }
  destruct (selectedRows a) as [rows|].
  2:{ cbn. repeat split; try discriminate; auto. }
  cbn [sbOrders sbViewingOrder].
  split; [|split; [|split]].
  - intros [H | [H | H]]; [congruence | discriminate | discriminate].
  - split; discriminate.
  - intros u [= <-]. exists viewing. repeat split.
  - intros os [= <-]. exists rows. split; [reflexivity|].
    rewrite !map_map. split; [reflexivity|]. split; [reflexivity|].
    intros o Hin. apply in_map_iff in Hin. destruct Hin as (row & <- & _).
    cbn. repeat split; discriminate.
Qed.

(** ** Downloading the bill *)

(** X22.  Downloading the bill finalizes the order only when all of these
    hold: an order is on display, its customer is known, it is not yet
    delivered, the user may mark orders delivered, and the user confirmed.
    In every other case nothing is written; in particular the bill of a
    delivered order deducts no stock again, and a sales representative gets
    the bill without any change of the order.  The bill is produced at once
    when no finalization is due, after the finalization when one ran, and
    not at all when the user declined or the customer is unknown. *)
Theorem bill_download_finalizes_only_on_confirmation :
  forall (c : Context) (v : View) (confirmAnswer : bool),
    let r := handleDownloadBill c v confirmAnswer in
    (forall fr, dlFinalize r = Some fr ->
        exists o,
          viewingOrder v = Some o
          /\ Order.status o <> Delivered
          /\ canMarkDelivered c = true
          /\ confirmAnswer = true
          /\ In (Order.customerId o) (map Customer.id (customers c))
          /\ fr = handleConfirmFinalize c v (Some o)
          /\ dlEffects r = finEffects fr
          /\ dlBill r = BillAfterDelay)
    /\ (dlFinalize r = None -> filter isWrite (dlEffects r) = [])
    /\ (forall o, viewingOrder v = Some o ->
          Order.status o = Delivered \/ canMarkDelivered c = false ->
          dlFinalize r = None /\ dlAsked r = false
          /\ (In (Order.customerId o) (map Customer.id (customers c)) ->
              dlEffects r = [] /\ dlBill r = BillNow))
    /\ (dlAsked r = true -> confirmAnswer = false ->
        dlEffects r = [] /\ dlBill r = NoBill /\ dlFinalize r = None)
    /\ (dlBill r = BillNow -> dlEffects r = [] /\ dlAsked r = false).
Proof.
  intros c v ans r. subst r. unfold handleDownloadBill.
  destruct (viewingOrder v) as [o|] eqn:Hv.
  2:{ cbn. repeat split; try discriminate; auto. }
  destruct (find _ (customers c)) as [cu|] eqn:Hfind.
  2:{ cbn. split; [discriminate|]. split; [reflexivity|].
      split; [|split; [discriminate | discriminate]].
      intros o' [= <-] _. split; [reflexivity|]. split; [reflexivity|].
      intro Hin. exfalso. apply in_map_iff in Hin.
      destruct Hin as (x & Hx & Hin).
      apply (find_none _ _ Hfind) in Hin.
      rewrite Hx, String.eqb_refl in Hin. discriminate. }
  assert (Hcust : In (Order.customerId o) (map Customer.id (customers c))).
  { apply find_some in Hfind. destruct Hfind as [Hin E].
    apply String.eqb_eq in E. rewrite <- E. now apply in_map. }
  destruct (OrderStatus_eqb (Order.status o) Delivered) eqn:Hst; cbn [negb andb].
  - apply OrderStatus_eqb_eq in Hst. cbn.
    split; [discriminate|]. split; [reflexivity|].
    split; [|split; [discriminate | auto]].
    intros o' [= <-] _. auto.
  - assert (Hnd : Order.status o <> Delivered).
    { intro F. apply OrderStatus_eqb_eq in F. congruence. }
    destruct (canMarkDelivered c) eqn:Hcan.
    + destruct ans; cbn.
      * split.
        { intros fr [= <-]. exists o. repeat split; auto. }
        split; [discriminate|].
        split; [|split; [discriminate | discriminate]].
        intros o' [= <-] [F | F]; [contradiction | discriminate].
      * split; [discriminate|]. split; [reflexivity|].
        split; [|split; [auto | discriminate]].
        intros o' [= <-] [F | F]; [contradiction | discriminate].
    + cbn. split; [discriminate|]. split; [reflexivity|].
      split; [|split; [discriminate | auto]].
      intros o' [= <-] _. auto.
Qed.

(** X23.  A confirmed download for an undelivered order still produces the
    bill when the finalization stops at the stock check: the only effect is
    the alert about the missing stock, nothing is written, the order on
    display stays undelivered, and the bill is requested all the same and
    printed once popups are allowed. *)
Theorem bill_is_printed_after_aborted_finalize :
  forall (c : Context) (v : View) (o : Order.t) (item : OrderItem.t),
    viewingOrder v = Some o ->
    In (Order.customerId o) (map Customer.id (customers c)) ->
    Order.status o <> Delivered ->
    canMarkDelivered c = true ->
    find (lacksStock c) (Order.orderItems o) = Some item ->
    let r := handleDownloadBill c v true in
    dlEffects r = [insufficientStockAlert c item]
    /\ filter isWrite (dlEffects r) = []
    /\ (exists fr, dlFinalize r = Some fr
                   /\ finContext fr = c
                   /\ viewingOrder (finView fr) = Some o)
    /\ dlBill r = BillAfterDelay
    /\ generateAndDownloadBill c v true = ([], Printed).
Proof.
  intros c v o item Hv Hcust Hst Hcan Hfind r. subst r.
  assert (Hc : exists cu,
             find (fun cu => String.eqb (Customer.id cu) (Order.customerId o))
                  (customers c) = Some cu).
  { destruct (find _ (customers c)) as [cu|] eqn:E; [now exists cu|].
    exfalso. apply in_map_iff in Hcust. destruct Hcust as (x & Hx & Hin).
    apply (find_none _ _ E) in Hin.
    rewrite Hx, String.eqb_refl in Hin. discriminate. }
  destruct Hc as [cu Hcu].
  assert (Hb : OrderStatus_eqb (Order.status o) Delivered = false).
  { destruct (OrderStatus_eqb (Order.status o) Delivered) eqn:E;
      [|reflexivity].
    apply OrderStatus_eqb_eq in E. contradiction. }
  assert (Hfin : handleConfirmFinalize c v (Some o)
                 = mkFinalizeResult [insufficientStockAlert c item] c v).
  { unfold handleConfirmFinalize. cbn [targetOf]. rewrite Hfind.
    destruct (Order.orderItems o); [discriminate | reflexivity]. }
  unfold handleDownloadBill, generateAndDownloadBill.
  rewrite Hv, Hcu, Hb, Hcan. cbn [negb andb]. rewrite Hfin.
  cbn [dlEffects dlFinalize dlBill finEffects].
  split; [reflexivity|]. split; [reflexivity|].
  split; [eexists; split; [reflexivity|]; split; [reflexivity | exact Hv]|].
  split; reflexivity.
Qed.

Lemma bill_is_printed_after_aborted_finalize_witness :
  let o := sampleOrder Pending 400 [OrderItem.mk "P2" 5 40 None] None in
  let c := mkContext (Some admin) "2025-01-15" [P1 10; P2 3]
                     [Customer.mk "C1" "Corner Store"] [o] [] in
  let v := mkView (Some o) None false in
  dlBill (handleDownloadBill c v true) = BillAfterDelay
  /\ filter isWrite (dlEffects (handleDownloadBill c v true)) = [].
Proof.
  intros o c v.
  destruct (bill_is_printed_after_aborted_finalize c v o
              (OrderItem.mk "P2" 5 40 None))
    as (_ & Hw & _ & Hb & _).
  - reflexivity.
  - simpl. left. reflexivity.
  - discriminate.
  - reflexivity.
  - reflexivity.
  - split; [exact Hb | exact Hw].
Defined.

(** ** Opening an order for editing *)

Lemma get_absent {A : Type} (o : Obj.t A) (k : string) :
  ~ In k (map fst o) -> Obj.get o k = None.
Proof.
  induction o as [|[k0 v0] o IH]; simpl; intro H; [reflexivity|].
  destruct (String.eqb k0 k) eqn:E.
  - apply String.eqb_eq in E. tauto.
  - apply IH. tauto.
Qed.

Lemma set_fresh {A : Type} (o : Obj.t A) (k : string) (v : A) :
  ~ In k (map fst o) -> Obj.set o k v = (o ++ [(k, v)])%list.
Proof.
  induction o as [|[k0 v0] o IH]; simpl; intro H; [reflexivity|].
  destruct (String.eqb k0 k) eqn:E.
  - apply String.eqb_eq in E. tauto.
  - rewrite IH; [reflexivity | tauto].
Qed.

Lemma fold_set_distinct {A B : Type} (key : B -> string) (val : B -> A)
    (l : list B) (acc : Obj.t A) :
  NoDup (map fst acc ++ map key l) ->
  fold_left (fun acc i => Obj.set acc (key i) (val i)) l acc
  = (acc ++ map (fun i => (key i, val i)) l)%list.
Proof.
  revert acc. induction l as [|x l IH]; intros acc H; cbn [fold_left map].
  - now rewrite app_nil_r.
  - cbn [map] in H.
    assert (Hx : ~ In (key x) (map fst acc)).
    { apply NoDup_remove_2 in H. intro F. apply H. apply in_or_app. now left. }
    rewrite set_fresh by exact Hx. rewrite IH.
    + rewrite <- app_assoc. reflexivity.
    + rewrite map_app. cbn [map fst]. rewrite <- app_assoc. exact H.
Qed.

Lemma get_of_distinct {A B : Type} (key : B -> string) (val : B -> A)
    (l : list B) (x : B) :
  NoDup (map key l) -> In x l ->
  Obj.get (map (fun i => (key i, val i)) l) (key x) = Some (val x).
Proof.
  induction l as [|y l IH]; intros Hnd Hin; [contradiction|].
  cbn [map Obj.get]. inversion Hnd as [|? ? Hy Hnd']; subst.
  destruct Hin as [-> | Hin]; [now rewrite String.eqb_refl|].
  destruct (String.eqb (key y) (key x)) eqn:E.
  - apply String.eqb_eq in E. exfalso. apply Hy. rewrite E. now apply in_map.
  - now apply IH.
Qed.

Lemma has_setOf_acc (ids : list string) (s : StrSet.t) (k : string) :
  StrSet.has (fold_left StrSet.add ids s) k
  = StrSet.has s k || existsb (String.eqb k) ids.
Proof.
  revert s. induction ids as [|x ids IH]; intro s; cbn [fold_left existsb].
  - now rewrite orb_false_r.
  - rewrite IH, has_add, (String.eqb_sym x k). now rewrite orb_assoc.
Qed.

Lemma has_setOf (ids : list string) (k : string) :
  StrSet.has (setOf ids) k = true <-> In k ids.
Proof.
  unfold setOf. rewrite has_setOf_acc. cbn [StrSet.has existsb orb].
  rewrite existsb_exists. split.
  - intros (x & Hin & E). apply String.eqb_eq in E. now subst.
  - intro Hin. exists k. split; [exact Hin | apply String.eqb_refl].
Qed.

Lemma fillPrices_keeps (ps : list Product.t) (prices : Obj.t Q)
    (k : string) (v : Q) :
  Obj.get prices k = Some v -> ~ v == 0 ->
  Obj.get (fillPrices ps prices) k = Some v.
Proof.
  unfold fillPrices. revert prices.
  induction ps as [|p ps IH]; intros prices Hget Hv; [exact Hget|].
  cbn [fold_left]. apply IH; [|exact Hv].
  destruct (falsy (Obj.get prices (Product.id p))) eqn:E; [|exact Hget].
  destruct (String.eqb (Product.id p) k) eqn:Ek.
  - apply String.eqb_eq in Ek. subst k. rewrite Hget in E. cbn in E.
    apply eqb_num_true in E. contradiction.
  - rewrite get_set_other; [exact Hget|].
    intro F. rewrite F, String.eqb_refl in Ek. discriminate.
Qed.

Lemma fillPrices_falls_back (ps : list Product.t) (prices : Obj.t Q)
    (k : string) (p : Product.t) :
  falsy (Obj.get prices k) = true ->
  findProduct ps k = Some p -> ~ Product.price p == 0 ->
  Obj.get (fillPrices ps prices) k = Some (Product.price p).
Proof.
  unfold findProduct. revert prices.
  induction ps as [|q ps IH]; intros prices Hf Hfind Hp; [discriminate|].
  cbn [find] in Hfind. unfold fillPrices. cbn [fold_left].
  destruct (String.eqb (Product.id q) k) eqn:Ek.
  - injection Hfind as ->. apply String.eqb_eq in Ek. subst k. rewrite Hf.
    apply fillPrices_keeps; [apply get_set_same | exact Hp].
  - apply IH; [|exact Hfind | exact Hp].
    assert (Hne : k <> Product.id q).
    { intro F. rewrite F, String.eqb_refl in Ek. discriminate. }
    destruct (falsy (Obj.get prices (Product.id q))); [|exact Hf].
    now rewrite get_set_other.
Qed.

Lemma filter_all_true {A : Type} (g : A -> bool) (l : list A) :
  (forall x, In x l -> g x = true) -> filter g l = l.
Proof.
  induction l as [|x l IH]; simpl; intro H; [reflexivity|].
  rewrite (H x (or_introl eq_refl)). f_equal. apply IH.
  intros y Hy. apply H. now right.
Qed.

Lemma fold_set_keys {A B : Type} (key : B -> string) (val : B -> A)
    (l : list B) (acc : Obj.t A) (k : string) :
  In k (map fst (fold_left (fun acc i => Obj.set acc (key i) (val i)) l acc)) ->
  In k (map fst acc) \/ In k (map key l).
Proof.
  revert acc. induction l as [|x l IH]; intros acc H; cbn [fold_left] in H.
  - now left.
  - apply IH in H. destruct H as [H | H]; [|right; now right].
    rewrite keys_set in H.
    destruct (existsb _ _); [now left|].
    apply in_app_or in H. destruct H as [H | [<- | []]]; [now left|].
    right. now left.
Qed.

Lemma openEditModal_held (c : Context) (f : Form) (order : Order.t)
    (expected : option string) (k : string) :
  StrSet.has (heldItems (openEditModal c f order expected)) k = true
  <-> In k (heldIds order).
Proof. apply has_setOf. Qed.

Lemma allLines_ids (order : Order.t) :
  map OrderItem.productId (allLines order)
  = (activeIds order ++ heldIds order)%list.
Proof. unfold allLines, activeIds, heldIds. apply map_app. Qed.

Lemma openEditModal_lines (c : Context) (f : Form) (order : Order.t)
    (expected : option string) :
  NoDup (activeIds order ++ heldIds order) ->
  let form := openEditModal c f order expected in
  Obj.entries (orderItems form)
  = map (fun i => (OrderItem.productId i, OrderItem.quantity i))
        (allLines order)
  /\ Obj.entries (orderDiscounts form)
     = map (fun i => (OrderItem.productId i, or0 (OrderItem.discount i)))
           (Order.orderItems order)
  /\ (forall i, In i (allLines order) -> ~ OrderItem.price i == 0 ->
        Obj.get (orderItemPrices form) (OrderItem.productId i)
        = Some (OrderItem.price i))
  /\ (forall i p, In i (allLines order) -> OrderItem.price i == 0 ->
        findProduct (products c) (OrderItem.productId i) = Some p ->
        ~ Product.price p == 0 ->
        Obj.get (orderItemPrices form) (OrderItem.productId i)
        = Some (Product.price p)).
Proof.
  intros Hnd form. subst form. unfold openEditModal.
  fold (allLines order).
  cbn [orderItems orderDiscounts orderItemPrices Obj.entries].
  assert (Hall : NoDup (map OrderItem.productId (allLines order)))
    by now rewrite allLines_ids.
  assert (Hact : NoDup (map OrderItem.productId (Order.orderItems order))).
  { apply NoDup_app_remove_r in Hnd. exact Hnd. }
  rewrite !fold_set_distinct by assumption. cbn [app Obj.empty].
  split; [reflexivity|]. split; [reflexivity|]. split.
  - intros i Hin Hp. apply fillPrices_keeps; [|exact Hp].
    now apply (get_of_distinct OrderItem.productId OrderItem.price).
  - intros i p Hin Hz Hfind Hp. apply fillPrices_falls_back; try assumption.
    rewrite (get_of_distinct OrderItem.productId OrderItem.price) by assumption.
    cbn. now apply eqb_num_true.
Qed.

(** X24.  The edit form opens on the order as it is stored: it is in edit
    mode for that order and customer, the held set holds exactly the
    products of the order's backordered lines, and, the products of the
    order's lines being distinct, the quantities of the form are those of
    the lines, the discounts those of the active lines (0 for a line that
    has none), and a line with a price other than 0 has that price.  The
    entries of the two maps are enumerated in the order of the lines when
    no product id is an array index.  A product without a line, or whose
    line has price 0, gets its catalogue price when that is not 0. *)
Theorem edit_form_shows_stored_order :
  forall (c : Context) (f : Form) (order : Order.t) (expected : option string),
    let form := openEditModal c f order expected in
    let quantityOf :=
      fun i => (OrderItem.productId i, OrderItem.quantity i) in
    let discountOf :=
      fun i => (OrderItem.productId i, or0 (OrderItem.discount i)) in
    modalState form = edit
    /\ currentOrder form = Some order
    /\ selectedCustomer form = Order.customerId order
    /\ (forall k, StrSet.has (heldItems form) k = true <-> In k (heldIds order))
    /\ (NoDup (activeIds order ++ heldIds order) ->
        Permutation (Obj.entries (orderItems form))
                    (map quantityOf (allLines order))
        /\ Permutation (Obj.entries (orderDiscounts form))
                       (map discountOf (Order.orderItems order))
        /\ (plainIds (allLines order) ->
            Obj.entries (orderItems form) = map quantityOf (allLines order)
            /\ Obj.entries (orderDiscounts form)
               = map discountOf (Order.orderItems order))
        /\ (forall i, In i (allLines order) ->
              Obj.get (orderItems form) (OrderItem.productId i)
              = Some (OrderItem.quantity i))
        /\ (forall i, In i (Order.orderItems order) ->
              Obj.get (orderDiscounts form) (OrderItem.productId i)
              = Some (or0 (OrderItem.discount i)))
        /\ (forall i, In i (allLines order) -> ~ OrderItem.price i == 0 ->
              Obj.get (orderItemPrices form) (OrderItem.productId i)
              = Some (OrderItem.price i))
        /\ (forall i p, In i (allLines order) -> OrderItem.price i == 0 ->
              findProduct (products c) (OrderItem.productId i) = Some p ->
              ~ Product.price p == 0 ->
              Obj.get (orderItemPrices form) (OrderItem.productId i)
              = Some (Product.price p)))
    /\ (forall k p, ~ In k (activeIds order ++ heldIds order) ->
          findProduct (products c) k = Some p -> ~ Product.price p == 0 ->
          Obj.get (orderItemPrices form) k = Some (Product.price p)).
Proof.
  intros c f order expected form quantityOf discountOf.
  split; [reflexivity|]. split; [reflexivity|]. split; [reflexivity|].
  split; [|split].
  - intro k. apply openEditModal_held.
  - intro Hnd.
    destruct (openEditModal_lines c f order expected Hnd)
      as (Hitems & Hdisc & Hprice & Hfall).
    fold form quantityOf in Hitems. fold form discountOf in Hdisc.
    fold form in Hprice, Hfall.
    assert (Hall : NoDup (map OrderItem.productId (allLines order)))
      by now rewrite allLines_ids.
    assert (Hact : NoDup (map OrderItem.productId (Order.orderItems order))).
    { apply NoDup_app_remove_r in Hnd. exact Hnd. }
    split; [rewrite Hitems; apply Permutation_refl|].
    split; [rewrite Hdisc; apply Permutation_refl|].
    split; [intros _; split; assumption|].
    split; [|split; [|split; assumption]].
    + intros i Hin.
      change (orderItems form) with (Obj.entries (orderItems form)).
      rewrite Hitems.
      now apply (get_of_distinct OrderItem.productId OrderItem.quantity).
    + intros i Hin.
      change (orderDiscounts form) with (Obj.entries (orderDiscounts form)).
      rewrite Hdisc.
      now apply (get_of_distinct OrderItem.productId
                   (fun i => or0 (OrderItem.discount i))).
  - intros k p Hk Hfind Hp. subst form. unfold openEditModal.
    cbn [orderItemPrices]. apply fillPrices_falls_back; try assumption.
    rewrite get_absent; [reflexivity|].
    intro F. apply fold_set_keys in F. destruct F as [[] | F].
    apply Hk. fold (allLines order) in F. now rewrite <- allLines_ids.
Qed.

Lemma distinct_app_disjoint {A : Type} (l1 l2 : list A) (x : A) :
  NoDup (l1 ++ l2) -> In x l1 -> ~ In x l2.
Proof.
  induction l1 as [|y l1 IH]; intros Hnd Hin; [contradiction|].
  cbn [app] in Hnd. inversion Hnd as [|? ? Hy Hnd']; subst.
  destruct Hin as [-> | Hin]; [|now apply IH].
  intro F. apply Hy. apply in_or_app. now right.
Qed.

Lemma map_id_in {A : Type} (g : A -> A) (l : list A) :
  (forall x, In x l -> g x = x) -> map g l = l.
Proof.
  intro H. induction l as [|x l IH]; cbn [map]; [reflexivity|].
  rewrite H by now left. f_equal. apply IH. intros y Hy. apply H. now right.
Qed.

Lemma edit_then_save_lines :
  forall (c : Context) (f : Form) (order : Order.t) (expected : option string),
    NoDup (activeIds order ++ heldIds order) ->
    (forall i, In i (allLines order) ->
       0 < OrderItem.quantity i
       /\ ~ OrderItem.price i == 0
       /\ findProduct (products c) (OrderItem.productId i) <> None) ->
    (forall i p, In i (Order.orderItems order) ->
       findProduct (products c) (OrderItem.productId i) = Some p ->
       ~ getEffectiveStock c p == 0) ->
    let form := openEditModal c f order expected in
    partitionLines c form
    = (map storedActive (Order.orderItems order),
       map storedHeld (nullish (Order.backorderedItems order) []))
    /\ Totals.total (aggregate c form)
       == orderTotal (Order.orderItems order)
    /\ ((forall i, In i (Order.orderItems order) ->
           OrderItem.discount i <> None) ->
        (forall i, In i (nullish (Order.backorderedItems order) []) ->
           OrderItem.discount i = None) ->
        partitionLines c form
        = (Order.orderItems order, nullish (Order.backorderedItems order) [])).
Proof.
  intros c f order expected Hnd Hlines Hstock form.
  assert (Hheld := openEditModal_held c f order expected). fold form in Hheld.
  destruct (openEditModal_lines c f order expected Hnd)
    as (Hitems & Hdisc & Hprice & _).
  fold form in Hitems, Hdisc, Hprice.
  set (kv := fun i => (OrderItem.productId i, OrderItem.quantity i)) in *.
  assert (Hact : NoDup (map OrderItem.productId (Order.orderItems order))).
  { apply NoDup_app_remove_r in Hnd. exact Hnd. }
  assert (Hcount : forall i, In i (allLines order) ->
                             countedLine c (kv i) = true).
  { intros i Hin. destruct (Hlines i Hin) as (Hq & _ & Hcat).
    unfold countedLine. cbn [kv fst snd].
    destruct (findProduct _ _); [now apply gtb_true | congruence]. }
  assert (Haside_act : forall i, In i (Order.orderItems order) ->
                                 setAside c form (OrderItem.productId i) = false).
  { intros i Hin. unfold setAside. apply orb_false_iff. split.
    - apply not_true_iff_false. intro F. apply Hheld in F.
      apply (distinct_app_disjoint _ _ (OrderItem.productId i) Hnd);
        [unfold activeIds; now apply in_map | exact F].
    - destruct (findProduct _ _) as [p|] eqn:E; [|reflexivity].
      apply eqb_num_false. now apply (Hstock i p). }
  assert (Haside_held : forall i, In i (nullish (Order.backorderedItems order) []) ->
                                  setAside c form (OrderItem.productId i) = true).
  { intros i Hin. unfold setAside. apply orb_true_iff. left.
    apply Hheld. unfold heldIds. now apply in_map. }
  assert (Hin_act : forall i, In i (Order.orderItems order) ->
                              In i (allLines order)).
  { intros i Hin. unfold allLines. apply in_or_app. now left. }
  assert (Hin_held : forall i, In i (nullish (Order.backorderedItems order) []) ->
                               In i (allLines order)).
  { intros i Hin. unfold allLines. apply in_or_app. now right. }
  assert (Hfa : filter (activeLine c form) (Obj.entries (orderItems form))
                = map kv (Order.orderItems order)).
  { rewrite Hitems. unfold allLines. rewrite map_app, filter_app.
    rewrite filter_all_true, filter_all_false; [apply app_nil_r | |].
    - intros x Hx. apply in_map_iff in Hx. destruct Hx as (i & <- & Hin).
      unfold activeLine. cbn [kv fst].
      rewrite (Haside_held i Hin). apply andb_false_r.
    - intros x Hx. apply in_map_iff in Hx. destruct Hx as (i & <- & Hin).
      unfold activeLine. fold kv. rewrite (Hcount i (Hin_act i Hin)).
      cbn [kv fst]. now rewrite (Haside_act i Hin). }
  assert (Hfh : filter (heldLine c form) (Obj.entries (orderItems form))
                = map kv (nullish (Order.backorderedItems order) [])).
  { rewrite Hitems. unfold allLines. rewrite map_app, filter_app.
    rewrite filter_all_false, filter_all_true; [reflexivity | |].
    - intros x Hx. apply in_map_iff in Hx. destruct Hx as (i & <- & Hin).
      unfold heldLine. rewrite (Hcount i (Hin_held i Hin)).
      cbn [kv fst]. now rewrite (Haside_held i Hin).
    - intros x Hx. apply in_map_iff in Hx. destruct Hx as (i & <- & Hin).
      unfold heldLine. cbn [kv fst].
      rewrite (Haside_act i Hin). apply andb_false_r. }
  assert (Hsaved : forall i active, In i (allLines order) ->
            savedLine c form active (kv i)
            = OrderItem.mk (OrderItem.productId i) (OrderItem.quantity i)
                (OrderItem.price i)
                (if active
                 then Some (or0 (Obj.get (orderDiscounts form)
                                         (OrderItem.productId i)))
                 else None)).
  { intros i active Hin. destruct (Hlines i Hin) as (_ & Hp & Hcat).
    unfold savedLine. cbn [kv fst snd]. rewrite (Hprice i Hin Hp).
    destruct (findProduct _ _); [reflexivity | congruence]. }
  assert (Hd : forall i, In i (Order.orderItems order) ->
                 Obj.get (orderDiscounts form) (OrderItem.productId i)
                 = Some (or0 (OrderItem.discount i))).
  { intros i Hin. change (orderDiscounts form) with (Obj.entries (orderDiscounts form)).
    rewrite Hdisc.
    now apply (get_of_distinct OrderItem.productId
                 (fun i => or0 (OrderItem.discount i))). }
  assert (Hpart : partitionLines c form
                  = (map storedActive (Order.orderItems order),
                     map storedHeld (nullish (Order.backorderedItems order) []))).
  { rewrite partitionLines_lines, Hfa, Hfh, !map_map. f_equal.
    - apply map_ext_in. intros i Hin.
      rewrite (Hsaved i true (Hin_act i Hin)), (Hd i Hin). reflexivity.
    - apply map_ext_in. intros i Hin.
      rewrite (Hsaved i false (Hin_held i Hin)). reflexivity. }
  split; [exact Hpart|]. split.
  - rewrite saved_total, Hpart. cbn [fst].
    rewrite !orderTotal_sum, map_map. apply sumQ_map_ext. intro i.
    unfold lineSubtotal, storedActive. cbn. reflexivity.
  - intros Hsome Hnone. rewrite Hpart. f_equal; apply map_id_in.
    + intros i Hin. specialize (Hsome i Hin). destruct i as [pid q pr [d|]];
        [reflexivity | cbn in Hsome; congruence].
    + intros i Hin. specialize (Hnone i Hin). destruct i as [pid q pr d].
      cbn in Hnone. now subst d.
Qed.

(** X25.  Opening an order for editing and saving it unchanged gives the
    order's lines back.  For an order whose lines name distinct products of
    the catalogue with quantities above 0 and prices other than 0, and whose
    active lines are in stock for the user, the active lines computed from
    the edit form are the order's active lines, each with its product,
    quantity and price and with an absent discount written as 0, and the
    backordered lines computed are the order's backordered lines without
    discount; the total the form shows is the sum over the order's active
    lines.  The lines come in the order of the stored lines when no product
    id is an array index (such ids are enumerated first by the source). *)
Theorem edit_then_save_gives_lines_back :
  forall (c : Context) (f : Form) (order : Order.t) (expected : option string),
    NoDup (activeIds order ++ heldIds order) ->
    (forall i, In i (allLines order) ->
       0 < OrderItem.quantity i
       /\ ~ OrderItem.price i == 0
       /\ findProduct (products c) (OrderItem.productId i) <> None) ->
    (forall i p, In i (Order.orderItems order) ->
       findProduct (products c) (OrderItem.productId i) = Some p ->
       ~ getEffectiveStock c p == 0) ->
    let form := openEditModal c f order expected in
    Permutation (fst (partitionLines c form))
                (map storedActive (Order.orderItems order))
    /\ Permutation (snd (partitionLines c form))
                   (map storedHeld (nullish (Order.backorderedItems order) []))
    /\ Totals.total (aggregate c form)
       == orderTotal (Order.orderItems order)
    /\ (plainIds (allLines order) ->
        partitionLines c form
        = (map storedActive (Order.orderItems order),
           map storedHeld (nullish (Order.backorderedItems order) []))
        /\ ((forall i, In i (Order.orderItems order) ->
               OrderItem.discount i <> None) ->
            (forall i, In i (nullish (Order.backorderedItems order) []) ->
               OrderItem.discount i = None) ->
            partitionLines c form
            = (Order.orderItems order,
               nullish (Order.backorderedItems order) []))).
Proof.
  intros c f order expected Hnd Hlines Hstock form.
  destruct (edit_then_save_lines c f order expected Hnd Hlines Hstock)
    as (Hpart & Htotal & Hsame).
  fold form in Hpart, Htotal, Hsame.
  split; [rewrite Hpart; apply Permutation_refl|].
  split; [rewrite Hpart; apply Permutation_refl|].
  split; [exact Htotal|].
  intros _. split; [exact Hpart | exact Hsame].
Qed.

Lemma edit_then_save_gives_lines_back_witness :
  let c := shop admin [P1 10; P2 3] [] in
  let order := sampleOrder Pending 450 [OrderItem.mk "P1" 5 100 (Some 10)]
                 (Some [OrderItem.mk "P2" 1 40 None]) in
  let form := openEditModal c (newOrderForm [] [] [] []) order None in
  partitionLines c form
  = ([OrderItem.mk "P1" 5 100 (Some 10)], [OrderItem.mk "P2" 1 40 None])
  /\ Totals.total (aggregate c form) == 450.
Proof.
  intros c order form.
  destruct (edit_then_save_gives_lines_back c (newOrderForm [] [] [] [])
              order None)
    as (_ & _ & Htotal & Hplain).
  - repeat constructor; simpl; intuition discriminate.
  - intros i [<- | [<- | []]]; vm_compute;
      (split; [reflexivity | split; discriminate]).
  - intros i p [<- | []] Hfind. vm_compute in Hfind. injection Hfind as <-.
    vm_compute. discriminate.
  - destruct Hplain as [Hpart _].
    + intros i [<- | [<- | []]]; reflexivity.
    + split; [exact Hpart|]. apply (Qeq_trans _ _ _ Htotal). reflexivity.
Defined.

(** ** A save and the answers of the backend *)

Lemma handleSaveOrder_cases (c : Context) (f : Form) (b : Backend) :
  (saveEffects (handleSaveOrder c f b) = []
   /\ savedOrders (handleSaveOrder c f b) = None)
  \/ (exists message,
        handleSaveOrder c f b = rejected [Alert message])
  \/ (exists customer,
        findCustomer c f = Some customer
        /\ modalState f = create
        /\ handleSaveOrder c f b
           = createOrder c f b customer (fst (partitionLines c f))
                         (snd (partitionLines c f))
                         (Totals.total (aggregate c f)))
  \/ (exists customer cur,
        findCustomer c f = Some customer
        /\ modalState f = edit
        /\ currentOrder f = Some cur
        /\ handleSaveOrder c f b
           = updateOrder c f b cur customer (fst (partitionLines c f))
                         (snd (partitionLines c f))
                         (Totals.total (aggregate c f))).
Proof.
  unfold handleSaveOrder.
  destruct (_ || _); [right; left; eexists; reflexivity|].
  destruct (findCustomer c f) as [cu|]; [|left; split; reflexivity].
  destruct (partitionLines c f) as [active held]. cbn [fst snd].
  destruct (modalState f).
  - left. destruct (currentOrder f); split; reflexivity.
  - right. right. left. exists cu. repeat split.
  - destruct (currentOrder f) as [cur|]; [|left; split; reflexivity].
    right. right. right. exists cu, cur. repeat split.
Qed.

Ltac save_leaf :=
  cbn;
  repeat match goal with
         | |- _ /\ _ => split
         | |- forall _, _ => intro
         | |- ~ _ => intro
         end;
  repeat match goal with
         | H : False |- _ => destruct H
         | H : _ \/ _ |- _ => destruct H
         end;
  try discriminate; try congruence; try lia;
  try (left; reflexivity); try (right; reflexivity);
  try (eexists; reflexivity);
  try (eexists; split; [reflexivity | auto]).

(** X26.  A save issues at most one write.  Whenever a call it awaits
    fails -- the write is refused or rejects, the fetch of the orders
    rejects, or the notification rejects -- the form stays open and the last
    effect is an alert.  After a refused or rejected write the orders are
    not fetched, the order list is not replaced and nobody is notified;
    after a rejected fetch the list is not replaced and nobody is notified;
    after a rejected notification the list has already been replaced by the
    fetched orders.  The list is replaced only by what the fetch after a
    successful write returned.  A form that closes after a write closes on
    the alert of success.  A notification is sent only for a new order that
    the fetch returned under the new id, to the user who is signed in. *)
Theorem failed_save_keeps_form_open :
  forall (c : Context) (f : Form) (b : Backend),
    let r := handleSaveOrder c f b in
    let written := filter isWrite (saveEffects r) <> [] in
    let unexpected := Alert "An unexpected error occurred. Please try again." in
    (List.length (filter isWrite (saveEffects r)) <= 1)%nat
    /\ (writeResponse b <> Succeeds ->
        savedOrders r = None
        /\ ~ In FetchOrders (saveEffects r)
        /\ (forall u o name,
              ~ In (SendNewOrderNotification u o name) (saveEffects r))
        /\ (written ->
            modalClosed r = false
            /\ exists message, last (saveEffects r) FetchOrders = Alert message))
    /\ (writeResponse b = Succeeds -> fetchResponse b = FetchThrows ->
        savedOrders r = None
        /\ (forall u o name,
              ~ In (SendNewOrderNotification u o name) (saveEffects r))
        /\ (written ->
            modalClosed r = false
            /\ last (saveEffects r) FetchOrders = unexpected))
    /\ (forall u o name,
          In (SendNewOrderNotification u o name) (saveEffects r) ->
          modalState f = create
          /\ writeResponse b = Succeeds
          /\ currentUser c = Some u
          /\ Order.id o = nextOrderId (orders c)
          /\ (exists os, fetchResponse b = FetchReturns (Some os)
                         /\ In o os /\ savedOrders r = Some os)
          /\ modalClosed r = negb (notificationThrows b)
          /\ (notificationThrows b = true ->
              last (saveEffects r) FetchOrders = unexpected))
    /\ (forall os, savedOrders r = Some os ->
          writeResponse b = Succeeds
          /\ fetchResponse b = FetchReturns (Some os)
          /\ List.length (filter isWrite (saveEffects r)) = 1%nat)
    /\ (written -> modalClosed r = true ->
        writeResponse b = Succeeds
        /\ fetchResponse b = FetchReturns (savedOrders r)
        /\ (last (saveEffects r) FetchOrders
            = Alert "Order created successfully!"
            \/ last (saveEffects r) FetchOrders
               = Alert "Order updated successfully!")).
Proof.
  intros c f b r written unexpected. subst r written unexpected.
  destruct (handleSaveOrder_cases c f b)
    as [[He Hs] | [[msg E] | [(cu & Hcu & Hm & E) | (cu & cur & Hcu & Hm & Hcur & E)]]].
  - rewrite He, Hs. save_leaf.
  - rewrite E. save_leaf.
  - rewrite E. unfold createOrder.
    destruct (String.eqb (Customer.id cu) ""); [save_leaf|].
    destruct (fst (partitionLines c f)) as [|x active]; [save_leaf|].
    destruct (writeResponse b) as [|message|]; [|save_leaf|save_leaf].
    destruct (fetchResponse b) as [|fresh]; [save_leaf|].
    destruct fresh as [fresh|].
    + destruct (find _ fresh) as [created|] eqn:Hfind.
      * apply find_some in Hfind. destruct Hfind as [Hin Hid].
        apply String.eqb_eq in Hid.
        destruct (currentUser c) as [user|]; [|save_leaf].
        destruct (notificationThrows b); cbn;
          (split; [lia|]); (split; [congruence|]); (split; [discriminate|]);
          (split;
           [intros u o name H;
            repeat (destruct H as [H | H]; [try discriminate H|]);
            [|contradiction];
            injection H as <- <- <-;
            (split; [exact Hm|]); (split; [reflexivity|]);
            (split; [reflexivity|]); (split; [exact Hid|]);
            (split; [exists fresh; repeat split; assumption|]);
            (split; [reflexivity|]);
            intro Ht; try discriminate Ht; reflexivity|]);
          (split; [intros os [= <-]; repeat split|]);
          intros _ Hc; try discriminate Hc; repeat split; now left.
      * destruct (currentUser c); save_leaf.
    + destruct (currentUser c); save_leaf.
  - rewrite E. unfold updateOrder.
    destruct (writeResponse b) as [|message|]; [|save_leaf|save_leaf].
    destruct (fetchResponse b) as [|fresh]; save_leaf.
Qed.

(** X27.  The row of a new order carries the new id, the selected customer
    with its name, the user who is signed in as the assigned user, and both
    balances at 0.  The row of an update carries no id, so the order keeps
    its own; it carries the order's two balances, an absent one written as
    0, and as assigned user the order's lower-case [assigneduserid], written
    as the empty string when the order has none.  The orders that
    [handleSaveBalances] puts in the list have none (they carry the
    camel-case field): the update of such an order writes the empty string.
    The customer of the row is the one selected in the form.  In both rows
    the order date is the expected delivery date when the form has one. *)
Theorem saved_row_fields_outside_the_form :
  forall (c : Context) (f : Form) (b : Backend) (e : Effect)
         (row : OrderRow.t),
    In e (saveEffects (handleSaveOrder c f b)) ->
    writtenRow e = Some row ->
    (exists customer,
        findCustomer c f = Some customer
        /\ Customer.id customer = selectedCustomer f
        /\ OrderRow.customerid row = selectedCustomer f
        /\ OrderRow.customername row = Customer.name customer)
    /\ OrderRow.method row = orderMethod f
    /\ OrderRow.notes row = orderNotes f
    /\ (expectedDeliveryDate f <> "" ->
        OrderRow.orderdate row = expectedDeliveryDate f
        /\ OrderRow.expecteddeliverydate row = Some (expectedDeliveryDate f))
    /\ (expectedDeliveryDate f = "" ->
        OrderRow.expecteddeliverydate row = None)
    /\ (isInsert e = true ->
        OrderRow.id row = Some (nextOrderId (orders c))
        /\ OrderRow.chequebalance row = 0
        /\ OrderRow.creditbalance row = 0
        /\ OrderRow.assigneduserid row
           = match currentUser c with
             | Some u => User.id u
             | None => ""
             end
        /\ (expectedDeliveryDate f = "" -> OrderRow.orderdate row = today c))
    /\ (isInsert e = false ->
        exists cur,
          currentOrder f = Some cur
          /\ e = OrdersUpdate (Order.id cur) row
          /\ OrderRow.id row = None
          /\ OrderRow.chequebalance row = or0 (Order.chequeBalance cur)
          /\ OrderRow.creditbalance row = or0 (Order.creditBalance cur)
          /\ OrderRow.assigneduserid row
             = nullish (Order.assigneduserid cur) ""
          /\ (forall dbRow, cur = mapOrderRow dbRow ->
                            OrderRow.assigneduserid row = "")).
Proof.
  intros c f b e row Hin Hrow.
  assert (Hdate : forall d,
            (expectedDeliveryDate f <> "" ->
             nonEmptyOr (expectedDeliveryDate f) d = expectedDeliveryDate f
             /\ (if String.eqb (expectedDeliveryDate f) "" then None
                 else Some (expectedDeliveryDate f))
                = Some (expectedDeliveryDate f))
            /\ (expectedDeliveryDate f = "" ->
                (if String.eqb (expectedDeliveryDate f) "" then None
                 else Some (expectedDeliveryDate f)) = None
                /\ nonEmptyOr (expectedDeliveryDate f) d = d)).
  { intro d. unfold nonEmptyOr.
    destruct (String.eqb (expectedDeliveryDate f) "") eqn:E.
    - apply String.eqb_eq in E. split; [congruence | auto].
    - split; [auto|]. intro F. rewrite F in E. discriminate. }
  assert (Hcust : forall cu, findCustomer c f = Some cu ->
                             Customer.id cu = selectedCustomer f).
  { intros cu H. unfold findCustomer in H. apply find_some in H.
    destruct H as [_ H]. now apply String.eqb_eq in H. }
  destruct (handleSaveOrder_cases c f b)
    as [[He _] | [[msg E] | [(cu & Hcu & Hm & E) | (cu & cur & Hcu & Hm & Hcur & E)]]].
  - rewrite He in Hin. contradiction.
  - rewrite E in Hin. destruct Hin as [<- | []]. discriminate.
  - rewrite E in Hin.
    destruct (String.eqb (Customer.id cu) "") eqn:Hid;
      [unfold createOrder in Hin; rewrite Hid in Hin;
       destruct Hin as [<- | []]; discriminate|].
    destruct (fst (partitionLines c f)) as [|x active];
      [unfold createOrder in Hin; rewrite Hid in Hin;
       destruct Hin as [<- | []]; discriminate|].
    destruct (createOrder_effects c f b cu x active (snd (partitionLines c f))
                (Totals.total (aggregate c f)) Hid) as (tail & Heff & Htail).
    rewrite Heff in Hin. destruct Hin as [<- | Hin];
      [|rewrite (not_write_no_row e (Htail e Hin)) in Hrow; discriminate].
    injection Hrow as <-. cbn.
    destruct (Hdate (today c)) as [Hd1 Hd2].
    split; [exists cu; rewrite (Hcust cu Hcu); auto|].
    split; [reflexivity|]. split; [reflexivity|].
    split; [exact Hd1|]. split; [intro H; now apply Hd2|].
    split; [|discriminate].
    intros _. repeat split. intro H. now apply Hd2.
  - rewrite E in Hin.
    destruct (updateOrder_effects c f b cur cu (fst (partitionLines c f))
                (snd (partitionLines c f)) (Totals.total (aggregate c f)))
      as (tail & Heff & Htail).
    rewrite Heff in Hin. destruct Hin as [<- | Hin];
      [|rewrite (not_write_no_row e (Htail e Hin)) in Hrow; discriminate].
    injection Hrow as <-. cbn.
    destruct (Hdate (nonEmptyOr (nullish (Order.orderdate cur) "") (today c)))
      as [Hd1 Hd2].
    split; [exists cu; rewrite (Hcust cu Hcu); auto|].
    split; [reflexivity|]. split; [reflexivity|].
    split; [exact Hd1|]. split; [intro H; now apply Hd2|].
    split; [discriminate|].
    intros _. exists cur. split; [exact Hcur|].
    repeat (split; [reflexivity|]). intros dbRow ->. reflexivity.
Qed.

Lemma saved_row_fields_outside_the_form_witness :
  let c := shop admin [P1 10; P2 3] [] in
  let f := newOrderForm [("P1", 5)] [("P1", 10)] [("P1", 100)] [] in
  exists row,
    In (OrdersInsert row)
       (saveEffects
          (handleSaveOrder c f (mkBackend Succeeds (FetchReturns None) false)))
    /\ OrderRow.chequebalance row = 0
    /\ OrderRow.id row = Some "ORD001".
Proof.
  intros c f. eexists. split; [left; reflexivity|].
  destruct (saved_row_fields_outside_the_form c f
              (mkBackend Succeeds (FetchReturns None) false) _ _
              (or_introl eq_refl) eq_refl)
    as (_ & _ & _ & _ & _ & Hins & _).
  destruct (Hins eq_refl) as (Hid & Hch & _).
  split; [exact Hch | exact Hid].
Defined.
